(** * Cotton-katha: lot allocation and customer confirmation

    A shallow embedding of the two Express route files that implement the
    allocation-and-confirmation engine:

    - the sales routes ([/api/sales/auto-select-lots],
      [/api/sales/manual-lot-selection], [/api/sales/save-draft]);
    - the customer-lots routes ([/api/customer/lots], [/api/customer/accept],
      [/api/customer/reject]) and their helper
      [checkAndTriggerConfirmation];

    and, around them, the admin override and the assignment statistics of
    the customer-lots routes, the confirmation of a sale
    ([/api/sales/confirm] with [createOrUpdateSalesDraft]), the alerts of the
    dashboard, the global error handler, and the selection steps of the
    sales-processing page.

    Modelling conventions.

    - The Supabase tables are lists of rows, in table order; a query is a
      [filter], an update is a [map] that rewrites the rows matched by its
      predicate, [.single()] yields a row exactly when one row matches.
    - A handler is a function from the store and the request to the new
      store and the HTTP response.  The store serves every call: the only
      errors a call returns are those of [.single()].  The n8n webhook is an
      outbound message appended to [webhooks].
    - [new Date()] is read once per request and passed in as [now], by its
      UTC fields.
    - JavaScript numbers are IEEE-754 binary64 values ([spec_float]);
      JavaScript string comparison is the lexicographic order on code units
      ([String.compare]).
    - Identifiers are opaque strings (the UUID syntax check of the Joi schemas
      is not modelled; their [min(1)] and [integer().min(1)] checks are). *)

From Stdlib Require Import ZArith Zpower List Lia Bool Arith.
From Stdlib Require Import Sorting.Sorted Permutation.
From Stdlib Require Import Floats.SpecFloat.
From Stdlib Require Import Strings.String Strings.Ascii DecimalString.
Import ListNotations.

Open Scope string_scope.
Open Scope list_scope.

(** ** JavaScript numbers *)

Module JS.

Definition prec : Z := 53.
Definition emax : Z := 1024.

Definition Number := spec_float.

(** An integer literal or an integer-valued JSON number. *)
Definition of_int (z : Z) : Number := binary_normalize prec emax z 0 false.

Definition add : Number -> Number -> Number := SFadd prec emax.
Definition mul : Number -> Number -> Number := SFmul prec emax.
Definition div : Number -> Number -> Number := SFdiv prec emax.

(** The literal [0.2]: the double nearest to one fifth. *)
Definition lit_0_2 : Number := div (of_int 1) (of_int 5).

Definition signed (s : bool) (m : positive) : Z :=
  if s then Z.neg m else Z.pos m.

(** [Math.floor]. *)
Definition Math_floor (x : Number) : Number :=
  match x with
  | S754_finite s m e =>
      if (0 <=? e)%Z then x
      else
        let f := Z.shiftr (signed s m) (- e) in
        if (f =? 0)%Z then S754_zero s else of_int f
  | _ => x
  end.

(** The mathematical integer of an integral number; truncation toward zero
    otherwise; [None] for NaN and the infinities. *)
Definition trunc (x : Number) : option Z :=
  match x with
  | S754_zero _ => Some 0%Z
  | S754_finite s m e =>
      if (0 <=? e)%Z then Some (Z.shiftl (signed s m) e)
      else
        let a := Z.shiftr (Z.pos m) (- e) in
        Some (if s then (- a)%Z else a)
  | _ => None
  end.

(** [Math.min] of two numbers. *)
Definition Math_min (a b : Number) : Number :=
  match a, b with
  | S754_nan, _ | _, S754_nan => S754_nan
  | _, _ => if SFltb b a then b else a
  end.

(** Truthiness of a number: [0], [-0] and [NaN] are falsy. *)
Definition truthy (x : Number) : bool :=
  match x with
  | S754_zero _ | S754_nan => false
  | _ => true
  end.

(** [x || 0] for a nullable numeric column. *)
Definition or_zero (x : option Number) : Number :=
  match x with
  | Some v => if truthy v then v else of_int 0
  | None => of_int 0
  end.

(** The length of an array as a number. *)
Definition of_length {A} (l : list A) : Number := of_int (Z.of_nat (List.length l)).

(** [arr.slice(0, k)]: [k] is truncated to an integer, a negative [k] counts
    from the end, and the result is clamped to the array. *)
Definition slice0 {A} (l : list A) (k : Number) : list A :=
  match k with
  | S754_nan => []
  | S754_infinity s => if s then [] else l
  | _ =>
      match trunc k with
      | Some z =>
          if (z <? 0)%Z
          then firstn (Z.to_nat (Z.max 0 (Z.of_nat (List.length l) + z))) l
          else firstn (Z.to_nat z) l
      | None => []
      end
  end.

(** [[...new Set(xs)]]: the distinct values in order of first occurrence. *)
Fixpoint distinct (xs : list string) : list string :=
  match xs with
  | [] => []
  | x :: r => x :: filter (fun y => negb (String.eqb x y)) (distinct r)
  end.

(** String comparison with [>] and [<=]. *)
Definition str_gt (a b : string) : bool := String.ltb b a.
Definition str_le (a b : string) : bool := String.leb a b.

(** Truthiness of a string: only the empty string is falsy. *)
Definition truthy_str (s : string) : bool :=
  match s with EmptyString => false | _ => true end.

(** *** Dates *)

(** A [Date], by its UTC fields. *)
Record Date := {
  year : nat;
  month : nat;
  day : nat;
  hours : nat;
  minutes : nat;
  seconds : nat;
  milliseconds : nat
}.

Definition digit (n : nat) : ascii := ascii_of_nat (48 + n mod 10).

(** [n] written with [k] decimal digits, zero padded. *)
Fixpoint pad (k n : nat) : string :=
  match k with
  | O => EmptyString
  | S k' => String (digit (n / 10 ^ k')) (pad k' (n mod 10 ^ k'))
  end.

(** The calendar date [YYYY-MM-DD]. *)
Definition ymd (y m d : nat) : string :=
  (pad 4 y ++ "-" ++ pad 2 m ++ "-" ++ pad 2 d)%string.

(** [Date.prototype.toISOString]: [YYYY-MM-DDTHH:mm:ss.sssZ]; a year above
    9999 is written with a sign and six digits. *)
Definition toISOString (t : Date) : string :=
  ((if Nat.ltb (year t) (10 ^ 4) then pad 4 (year t) else "+" ++ pad 6 (year t))
   ++ "-" ++ pad 2 (month t) ++ "-" ++ pad 2 (day t)
   ++ "T" ++ pad 2 (hours t) ++ ":" ++ pad 2 (minutes t) ++ ":"
   ++ pad 2 (seconds t) ++ "." ++ pad 3 (milliseconds t) ++ "Z")%string.

(** [s.split('T')[0]]: the part of [s] before its first ['T']. *)
Fixpoint split_T_0 (s : string) : string :=
  match s with
  | EmptyString => EmptyString
  | String c r => if Ascii.eqb c "T" then EmptyString else String c (split_T_0 r)
  end.

(** [new Date().toISOString().split('T')[0]]. *)
Definition currentDateOf (now : Date) : string := split_T_0 (toISOString now).

End JS.

(** ** The record store *)

Inductive InventoryStatus := AVAILABLE | BLOCKED | SOLD.
Inductive LotStatus := PENDING | ACCEPTED | REJECTED | EXPIRED.
Inductive SalesStatus := DRAFT | CONFIRMED.
Inductive ConfigStatus := pending | processing | completed.
Inductive SelectionStatus := SELECTED.

Definition InventoryStatus_eqb (a b : InventoryStatus) : bool :=
  match a, b with
  | AVAILABLE, AVAILABLE | BLOCKED, BLOCKED | SOLD, SOLD => true
  | _, _ => false
  end.

Definition LotStatus_eqb (a b : LotStatus) : bool :=
  match a, b with
  | PENDING, PENDING | ACCEPTED, ACCEPTED
  | REJECTED, REJECTED | EXPIRED, EXPIRED => true
  | _, _ => false
  end.

(** [req.user], as resolved by the authentication middleware. *)
Module User.
Record t := { id : string; role : string; email : string }.
End User.

(** [inventory_table]: the lots. *)
Module Inventory.
Record t := {
  id : string;
  lot_number : string;
  indent_number : string;
  branch : string;
  variety : string;
  fibre_length : string;
  bid_price : option JS.Number;
  status : InventoryStatus;
  created_at : Z;
  updated_at : option string
}.
Definition set_status (s : InventoryStatus) (r : t) : t :=
  {| id := id r; lot_number := lot_number r; indent_number := indent_number r;
     branch := branch r; variety := variety r; fibre_length := fibre_length r;
     bid_price := bid_price r; status := s; created_at := created_at r;
     updated_at := updated_at r |}.
Definition set_status_at (s : InventoryStatus) (at_ : string) (r : t) : t :=
  {| id := id r; lot_number := lot_number r; indent_number := indent_number r;
     branch := branch r; variety := variety r; fibre_length := fibre_length r;
     bid_price := bid_price r; status := s; created_at := created_at r;
     updated_at := Some at_ |}.
End Inventory.

(** [sales_configuration.line_specs]. *)
Module LineSpecs.
Record t := { fibre_length : option string; variety : option string }.
End LineSpecs.

(** [sales_configuration]: the orders. *)
Module SalesConfig.
Record t := {
  id : string;
  customer_id : string;
  broker_id : string;
  requested_quantity : Z;
  line_specs : option LineSpecs.t;
  priority_branch : option string;
  status : ConfigStatus;
  updated_at : option string
}.
Definition set_status_at (s : ConfigStatus) (at_ : string) (r : t) : t :=
  {| id := id r; customer_id := customer_id r; broker_id := broker_id r;
     requested_quantity := requested_quantity r; line_specs := line_specs r;
     priority_branch := priority_branch r; status := s;
     updated_at := Some at_ |}.
End SalesConfig.

Module CustomerInfo.
Record t := { id : string; email : string }.
End CustomerInfo.

Module BrokerInfo.
Record t := { id : string; commission_rate : option JS.Number }.
End BrokerInfo.

(** The columns [save-draft] writes into [sales_table]. *)
Module SalesData.
Record t := {
  sales_config_id : string;
  indent_numbers : list string;
  total_bales : nat;
  total_value : JS.Number;
  broker_commission : JS.Number;
  status : SalesStatus;
  created_by : string
}.
End SalesData.

(** [sales_table]: the drafts. *)
Module Sales.
Record t := { id : string; data : SalesData.t }.
Definition sales_config_id (r : t) : string := SalesData.sales_config_id (data r).
Definition status (r : t) : SalesStatus := SalesData.status (data r).
End Sales.

(** [lot_selected_contract]. *)
Module LotSelection.
Record t := {
  sales_id : string;
  inventory_id : string;
  lot_number : string;
  indent_number : string;
  quantity : nat;
  price : JS.Number;
  status : SelectionStatus
}.
End LotSelection.

(** [customer_assignment_table]. *)
Module Assignment.
Record t := {
  id : string;
  customer_id : string;
  sales_id : string;
  inventory_id : string;
  window_start_date : string;
  window_end_date : string;
  lot_status : LotStatus;
  responded_by : option string;
  responded_at : option string;
  assigned_at : Z
}.
(** [.update({ lot_status, responded_by, responded_at })]. *)
Definition respond (s : LotStatus) (by_ at_ : string) (r : t) : t :=
  {| id := id r; customer_id := customer_id r; sales_id := sales_id r;
     inventory_id := inventory_id r; window_start_date := window_start_date r;
     window_end_date := window_end_date r; lot_status := s;
     responded_by := Some by_; responded_at := Some at_;
     assigned_at := assigned_at r |}.
(** [.update({ lot_status: 'EXPIRED', responded_at })]. *)
Definition expire (at_ : string) (r : t) : t :=
  {| id := id r; customer_id := customer_id r; sales_id := sales_id r;
     inventory_id := inventory_id r; window_start_date := window_start_date r;
     window_end_date := window_end_date r; lot_status := EXPIRED;
     responded_by := responded_by r; responded_at := Some at_;
     assigned_at := assigned_at r |}.
End Assignment.

(** [audit_log] rows, with the values each call site records. *)
Inductive AuditValues :=
| StatusChange (old_status new_status : LotStatus)
| ConfirmationSent (accepted_lots : nat) (required_quantity : Z)
| DraftCreated (d : SalesData.t) (lots_count : nat) (notes : option string).

Module Audit.
Record t := {
  table_name : string;
  record_id : string;
  action : string;
  user_id : string;
  values : AuditValues
}.
End Audit.

(** Bodies posted to the n8n webhooks. *)
Inductive Webhook :=
| LotAcceptanceConfirmation
    (sales_id : string) (customer : option CustomerInfo.t)
    (broker : option BrokerInfo.t) (accepted_lots : nat)
    (required_quantity : Z) (confirmed_by : User.t)
| SalesDraft
    (sales_id : string) (customer : option CustomerInfo.t)
    (broker : option BrokerInfo.t) (total_bales : nat)
    (total_value : JS.Number) (created_by : User.t) (notes : option string).

Record Store := {
  inventory_table : list Inventory.t;
  sales_configuration : list SalesConfig.t;
  customer_info : list CustomerInfo.t;
  broker_info : list BrokerInfo.t;
  sales_table : list Sales.t;
  lot_selected_contract : list LotSelection.t;
  customer_assignment_table : list Assignment.t;
  audit_log : list Audit.t;
  webhooks : list Webhook
}.

Definition with_inventory (f : list Inventory.t -> list Inventory.t) (st : Store) : Store :=
  {| inventory_table := f (inventory_table st);
     sales_configuration := sales_configuration st;
     customer_info := customer_info st; broker_info := broker_info st;
     sales_table := sales_table st;
     lot_selected_contract := lot_selected_contract st;
     customer_assignment_table := customer_assignment_table st;
     audit_log := audit_log st; webhooks := webhooks st |}.

Definition with_configuration (f : list SalesConfig.t -> list SalesConfig.t) (st : Store) : Store :=
  {| inventory_table := inventory_table st;
     sales_configuration := f (sales_configuration st);
     customer_info := customer_info st; broker_info := broker_info st;
     sales_table := sales_table st;
     lot_selected_contract := lot_selected_contract st;
     customer_assignment_table := customer_assignment_table st;
     audit_log := audit_log st; webhooks := webhooks st |}.

Definition with_sales (f : list Sales.t -> list Sales.t) (st : Store) : Store :=
  {| inventory_table := inventory_table st;
     sales_configuration := sales_configuration st;
     customer_info := customer_info st; broker_info := broker_info st;
     sales_table := f (sales_table st);
     lot_selected_contract := lot_selected_contract st;
     customer_assignment_table := customer_assignment_table st;
     audit_log := audit_log st; webhooks := webhooks st |}.

Definition with_selections (f : list LotSelection.t -> list LotSelection.t) (st : Store) : Store :=
  {| inventory_table := inventory_table st;
     sales_configuration := sales_configuration st;
     customer_info := customer_info st; broker_info := broker_info st;
     sales_table := sales_table st;
     lot_selected_contract := f (lot_selected_contract st);
     customer_assignment_table := customer_assignment_table st;
     audit_log := audit_log st; webhooks := webhooks st |}.

Definition with_assignments (f : list Assignment.t -> list Assignment.t) (st : Store) : Store :=
  {| inventory_table := inventory_table st;
     sales_configuration := sales_configuration st;
     customer_info := customer_info st; broker_info := broker_info st;
     sales_table := sales_table st;
     lot_selected_contract := lot_selected_contract st;
     customer_assignment_table := f (customer_assignment_table st);
     audit_log := audit_log st; webhooks := webhooks st |}.

(** [.from('audit_log').insert(row)]. *)
Definition insert_audit (row : Audit.t) (st : Store) : Store :=
  {| inventory_table := inventory_table st;
     sales_configuration := sales_configuration st;
     customer_info := customer_info st; broker_info := broker_info st;
     sales_table := sales_table st;
     lot_selected_contract := lot_selected_contract st;
     customer_assignment_table := customer_assignment_table st;
     audit_log := audit_log st ++ [row]; webhooks := webhooks st |}.

(** [axios.post(webhookUrl, body)]. *)
Definition post_webhook (body : Webhook) (st : Store) : Store :=
  {| inventory_table := inventory_table st;
     sales_configuration := sales_configuration st;
     customer_info := customer_info st; broker_info := broker_info st;
     sales_table := sales_table st;
     lot_selected_contract := lot_selected_contract st;
     customer_assignment_table := customer_assignment_table st;
     audit_log := audit_log st; webhooks := webhooks st ++ [body] |}.

(** *** Query combinators *)

(** [.single()]: the row, when exactly one row matches. *)
Definition single {A} (rows : list A) : option A :=
  match rows with
  | [r] => Some r
  | _ => None
  end.

(** [.update(f)] over the rows selected by [p]. *)
Definition update_where {A} (p : A -> bool) (f : A -> A) (rows : list A) : list A :=
  map (fun r => if p r then f r else r) rows.

(** [.in('id', ids)]. *)
Definition mem (x : string) (ids : list string) : bool :=
  existsb (String.eqb x) ids.

(** [.order(key, { ascending })]: rows by increasing (or decreasing) key;
    rows with equal keys keep their table order. *)
Fixpoint insert_by {A} (key : A -> Z) (ascending : bool) (x : A) (l : list A) : list A :=
  match l with
  | [] => [x]
  | y :: r =>
      if (if ascending then key x <? key y else key y <? key x)%Z
      then x :: y :: r
      else y :: insert_by key ascending x r
  end.

Definition order_by {A} (key : A -> Z) (ascending : bool) (l : list A) : list A :=
  fold_right (insert_by key ascending) [] l.

(** [.limit(n)]. *)
Definition limit {A} (n : JS.Number) (l : list A) : list A :=
  match JS.trunc n with
  | Some z => firstn (Z.to_nat z) l
  | None => l
  end.

(** An embedded many-to-one relation: the referenced row or [null]. *)
Definition customer_of (st : Store) (cid : string) : option CustomerInfo.t :=
  find (fun c => String.eqb (CustomerInfo.id c) cid) (customer_info st).

Definition broker_of (st : Store) (bid : string) : option BrokerInfo.t :=
  find (fun b => String.eqb (BrokerInfo.id b) bid) (broker_info st).

Definition configuration_of (st : Store) (cid : string) : option SalesConfig.t :=
  find (fun c => String.eqb (SalesConfig.id c) cid) (sales_configuration st).

(** [.from('sales_configuration').select(...).eq('id', id).single()]. *)
Definition sales_configuration_by_id (st : Store) (id : string) : option SalesConfig.t :=
  single (filter (fun c => String.eqb (SalesConfig.id c) id) (sales_configuration st)).

(** The JSON response of a route. *)
Record Response (A : Type) := {
  code : nat;
  success : bool;
  message : option string;
  data : option A
}.
Arguments code {A} _.
Arguments success {A} _.
Arguments message {A} _.
Arguments data {A} _.

Definition failure {A} (c : nat) (msg : string) : Response A :=
  {| code := c; success := false; message := Some msg; data := None |}.

(** ** Customer-lots routes *)

Module CustomerLots.

Definition opt_eqb (a b : option string) : bool :=
  match a, b with
  | Some x, Some y => String.eqb x y
  | None, None => true
  | _, _ => false
  end.

(** The customer a user acts for: a user whose role is not [customer] is
    looked up in [customer_info] by e-mail. *)
Definition customerInfoOf (st : Store) (user : User.t) : option CustomerInfo.t :=
  single (filter (fun c => String.eqb (CustomerInfo.email c) (User.email user))
                 (customer_info st)).

Definition customerIdOf (st : Store) (user : User.t) : option string :=
  if negb (String.eqb (User.role user) "customer")
  then option_map CustomerInfo.id (customerInfoOf st user)
  else Some (User.id user).

Definition assignment_by_id (st : Store) (assignment_id : string) : option Assignment.t :=
  single (filter (fun a => String.eqb (Assignment.id a) assignment_id)
                 (customer_assignment_table st)).

(** Helper function to check if enough lots are accepted and trigger
    confirmation.  Reading [requested_quantity] of a missing configuration
    throws; the helper's own [catch] swallows it. *)
Definition checkAndTriggerConfirmation (st : Store) (salesId : string) (user : User.t) : Store :=
  match single (filter (fun s => String.eqb (Sales.id s) salesId) (sales_table st)) with
  | None => st
  | Some salesInfo =>
      let acceptedLots :=
        filter (fun a => String.eqb (Assignment.sales_id a) salesId
                         && LotStatus_eqb (Assignment.lot_status a) ACCEPTED)
               (customer_assignment_table st) in
      let acceptedCount := List.length acceptedLots in
      match configuration_of st (Sales.sales_config_id salesInfo) with
      | None => st
      | Some sales_configuration =>
          let requiredQuantity := SalesConfig.requested_quantity sales_configuration in
          if (requiredQuantity <=? Z.of_nat acceptedCount)%Z
          then
            let st1 :=
              post_webhook
                (LotAcceptanceConfirmation salesId
                   (customer_of st (SalesConfig.customer_id sales_configuration))
                   (broker_of st (SalesConfig.broker_id sales_configuration))
                   acceptedCount requiredQuantity user) st in
            insert_audit
              {| Audit.table_name := "sales_table";
                 Audit.record_id := salesId;
                 Audit.action := "CONFIRMATION_SENT";
                 Audit.user_id := User.id user;
                 Audit.values := ConfirmationSent acceptedCount requiredQuantity |}
              st1
          else st
      end
  end.

(** [POST /api/customer/accept]. *)
Definition accept (st : Store) (now : JS.Date) (user : User.t) (assignment_id : string)
  : Store * Response Assignment.t :=
  match assignment_by_id st assignment_id with
  | None => (st, failure 404 "Assignment not found")
  | Some assignment =>
      let customerId := customerIdOf st user in
      if negb (opt_eqb (Some (Assignment.customer_id assignment)) customerId)
      then (st, failure 403 "Not authorized to modify this assignment")
      else
        let currentDate := JS.currentDateOf now in
        if JS.str_gt currentDate (Assignment.window_end_date assignment)
        then (st, failure 400 "Assignment window has expired")
        else if negb (LotStatus_eqb (Assignment.lot_status assignment) PENDING)
        then (st, failure 400 "Assignment has already been responded to")
        else
          let st1 :=
            with_assignments
              (update_where (fun a => String.eqb (Assignment.id a) assignment_id)
                 (Assignment.respond ACCEPTED (User.id user) (JS.toISOString now))) st in
          match assignment_by_id st1 assignment_id with
          | None => (st, failure 500 "Failed to update assignment")
          | Some updatedAssignment =>
              let st2 :=
                with_inventory
                  (update_where
                     (fun l => String.eqb (Inventory.id l) (Assignment.inventory_id assignment))
                     (Inventory.set_status_at SOLD (JS.toISOString now))) st1 in
              let st3 :=
                insert_audit
                  {| Audit.table_name := "customer_assignment_table";
                     Audit.record_id := assignment_id;
                     Audit.action := "ACCEPTED";
                     Audit.user_id := User.id user;
                     Audit.values := StatusChange PENDING ACCEPTED |} st2 in
              let st4 := checkAndTriggerConfirmation st3 (Assignment.sales_id assignment) user in
              (st4, {| code := 200; success := true;
                       message := Some "Lot accepted successfully";
                       data := Some updatedAssignment |})
          end
  end.

(** [POST /api/customer/reject]. *)
Definition reject (st : Store) (now : JS.Date) (user : User.t) (assignment_id : string)
  : Store * Response Assignment.t :=
  match assignment_by_id st assignment_id with
  | None => (st, failure 404 "Assignment not found")
  | Some assignment =>
      let customerId := customerIdOf st user in
      if negb (opt_eqb (Some (Assignment.customer_id assignment)) customerId)
      then (st, failure 403 "Not authorized to modify this assignment")
      else
        let currentDate := JS.currentDateOf now in
        if JS.str_gt currentDate (Assignment.window_end_date assignment)
        then (st, failure 400 "Assignment window has expired")
        else if negb (LotStatus_eqb (Assignment.lot_status assignment) PENDING)
        then (st, failure 400 "Assignment has already been responded to")
        else
          let st1 :=
            with_assignments
              (update_where (fun a => String.eqb (Assignment.id a) assignment_id)
                 (Assignment.respond REJECTED (User.id user) (JS.toISOString now))) st in
          match assignment_by_id st1 assignment_id with
          | None => (st, failure 500 "Failed to update assignment")
          | Some updatedAssignment =>
              let st2 :=
                with_inventory
                  (update_where
                     (fun l => String.eqb (Inventory.id l) (Assignment.inventory_id assignment))
                     (Inventory.set_status_at AVAILABLE (JS.toISOString now))) st1 in
              let st3 :=
                insert_audit
                  {| Audit.table_name := "customer_assignment_table";
                     Audit.record_id := assignment_id;
                     Audit.action := "REJECTED";
                     Audit.user_id := User.id user;
                     Audit.values := StatusChange PENDING REJECTED |} st2 in
              (st3, {| code := 200; success := true;
                       message := Some "Lot rejected successfully";
                       data := Some updatedAssignment |})
          end
  end.

(** The body of [GET /api/customer/lots]. *)
Module Listing.
Record t := {
  active : list Assignment.t;
  expired : list Assignment.t;
  responded : list Assignment.t;
  total_assigned : nat;
  total_accepted : nat;
  total_rejected : nat;
  total_pending : nat;
  total_expired : nat
}.
End Listing.

Definition isWithinWindow (currentDate : string) (assignment : Assignment.t) : bool :=
  JS.str_le currentDate (Assignment.window_end_date assignment).

Definition isPending (assignment : Assignment.t) : bool :=
  LotStatus_eqb (Assignment.lot_status assignment) PENDING.

(** [GET /api/customer/lots]: the listing, with its auto-expire block.  The
    expired rows of the response are the objects of [assignments] themselves,
    so the summary counts see them as already expired. *)
Definition lots (st : Store) (now : JS.Date) (user : User.t)
  : Store * Response Listing.t :=
  let customerId :=
    if negb (String.eqb (User.role user) "customer")
    then option_map CustomerInfo.id (customerInfoOf st user)
    else Some (User.id user) in
  match customerId with
  | None => (st, failure 404 "Customer record not found")
  | Some customerId =>
      let currentDate := JS.currentDateOf now in
      let assignments :=
        order_by Assignment.assigned_at false
          (filter (fun a => String.eqb (Assignment.customer_id a) customerId)
                  (customer_assignment_table st)) in
      let activeAssignments :=
        filter (fun a => isPending a && isWithinWindow currentDate a) assignments in
      let expiredAssignments :=
        filter (fun a => isPending a && negb (isWithinWindow currentDate a)) assignments in
      let respondedAssignments :=
        filter (fun a => negb (isPending a)) assignments in
      let expiredIds := map Assignment.id expiredAssignments in
      let expiredInventoryIds := map Assignment.inventory_id expiredAssignments in
      let st' :=
        match expiredAssignments with
        | [] => st
        | _ :: _ =>
            with_inventory
              (update_where (fun l => mem (Inventory.id l) expiredInventoryIds)
                 (Inventory.set_status AVAILABLE))
              (with_assignments
                 (update_where (fun a => mem (Assignment.id a) expiredIds)
                    (Assignment.expire (JS.toISOString now))) st)
        end in
      let expire_in_place a :=
        if isPending a && negb (isWithinWindow currentDate a)
        then Assignment.expire (JS.toISOString now) a else a in
      let assignments' := map expire_in_place assignments in
      let count s :=
        List.length (filter (fun a => LotStatus_eqb (Assignment.lot_status a) s) assignments') in
      (st', {| code := 200; success := true; message := None;
               data := Some
                 {| Listing.active := activeAssignments;
                    Listing.expired :=
                      map (Assignment.expire (JS.toISOString now)) expiredAssignments;
                    Listing.responded := respondedAssignments;
                    Listing.total_assigned := List.length assignments';
                    Listing.total_accepted := count ACCEPTED;
                    Listing.total_rejected := count REJECTED;
                    Listing.total_pending := List.length activeAssignments;
                    Listing.total_expired := List.length expiredAssignments |} |})
  end.

End CustomerLots.

(** ** Sales routes *)

Module SalesRoutes.

(** [autoSelectSchema]: [requested_qty] is an integer, at least 1, within the
    safe range Joi accepts. *)
Definition autoSelectSchema (requested_qty : Z) : bool :=
  ((1 <=? requested_qty) && (requested_qty <=? 9007199254740991))%Z.

(** [manualSelectSchema], [saveDraftSchema]: [selected_lots] has at least one
    item. *)
Definition saveDraftSchema (selected_lots : list string) : bool :=
  match selected_lots with [] => false | _ :: _ => true end.

(** The sum of [bid_price || 0] over the lots. *)
Definition totalValueOf (lots : list Inventory.t) : JS.Number :=
  fold_left (fun sum lot => JS.add sum (JS.or_zero (Inventory.bid_price lot)))
            lots (JS.of_int 0).

(** Selection limits. *)
Definition extraOf (requested_qty : Z) : JS.Number :=
  JS.Math_floor (JS.mul (JS.of_int requested_qty) JS.lit_0_2).

Definition maxLimitOf (requested_qty : Z) : JS.Number :=
  JS.add (JS.of_int requested_qty) (extraOf requested_qty).

Definition eq_if_truthy {A} (col : A -> string) (v : option string) (rows : list A) : list A :=
  match v with
  | Some s => if JS.truthy_str s then filter (fun r => String.eqb (col r) s) rows else rows
  | None => rows
  end.

(** The lots query of [auto-select-lots], before ordering and limit:
    AVAILABLE lots matching the line specs and the priority branch. *)
Definition matchingLots (st : Store) (salesConfig : SalesConfig.t) : list Inventory.t :=
  let q0 :=
    filter (fun l => InventoryStatus_eqb (Inventory.status l) AVAILABLE)
           (inventory_table st) in
  let q1 :=
    match SalesConfig.line_specs salesConfig with
    | Some specs =>
        eq_if_truthy Inventory.variety (LineSpecs.variety specs)
          (eq_if_truthy Inventory.fibre_length (LineSpecs.fibre_length specs) q0)
    | None => q0
    end in
  eq_if_truthy Inventory.branch (SalesConfig.priority_branch salesConfig) q1.

Module AutoSelect.
Record limits := {
  requested : Z;
  max_allowed : JS.Number;
  auto_selected_count : nat
}.
Record t := {
  sales_config : option SalesConfig.t;
  available_lots : list Inventory.t;
  auto_selected : list Inventory.t;
  selection_limits : option limits;
  total_value : option JS.Number;
  out_of_stock : bool
}.
End AutoSelect.

(** [POST /api/sales/auto-select-lots]. *)
Definition auto_select_lots (st : Store) (sales_config_id : string) (requested_qty : Z)
  : Response AutoSelect.t :=
  match sales_configuration_by_id st sales_config_id with
  | None => failure 404 "Sales configuration not found"
  | Some salesConfig =>
      let base := JS.of_int requested_qty in
      let extra := JS.Math_floor (JS.mul base JS.lit_0_2) in
      let maxLimit := JS.add base extra in
      let availableLots :=
        limit maxLimit (order_by Inventory.created_at true (matchingLots st salesConfig)) in
      match availableLots with
      | [] =>
          {| code := 200; success := true;
             message := Some "No available lots found matching the criteria";
             data := Some {| AutoSelect.sales_config := None;
                             AutoSelect.available_lots := [];
                             AutoSelect.auto_selected := [];
                             AutoSelect.selection_limits := None;
                             AutoSelect.total_value := None;
                             AutoSelect.out_of_stock := true |} |}
      | _ :: _ =>
          let autoSelected :=
            JS.slice0 availableLots (JS.Math_min maxLimit (JS.of_length availableLots)) in
          let totalValue := totalValueOf autoSelected in
          {| code := 200; success := true; message := None;
             data := Some {| AutoSelect.sales_config := Some salesConfig;
                             AutoSelect.available_lots := availableLots;
                             AutoSelect.auto_selected := autoSelected;
                             AutoSelect.selection_limits :=
                               Some {| AutoSelect.requested := requested_qty;
                                       AutoSelect.max_allowed := maxLimit;
                                       AutoSelect.auto_selected_count :=
                                         List.length autoSelected |};
                             AutoSelect.total_value := Some totalValue;
                             AutoSelect.out_of_stock := false |} |}
      end
  end.

Module ManualSelect.
Record t := {
  selected_lots : list Inventory.t;
  total_selected : nat;
  required_minimum : Z;
  total_value : JS.Number;
  validation_passed : bool
}.
End ManualSelect.

Definition show_Z (z : Z) : string := NilZero.string_of_int (Z.to_int z).

(** [POST /api/sales/manual-lot-selection]. *)
Definition manual_lot_selection (st : Store) (sales_config_id : string)
    (selected_lots : list string) : Response ManualSelect.t :=
  match sales_configuration_by_id st sales_config_id with
  | None => failure 404 "Sales configuration not found"
  | Some salesConfig =>
      let lots :=
        filter (fun l => mem (Inventory.id l) selected_lots
                         && InventoryStatus_eqb (Inventory.status l) AVAILABLE)
               (inventory_table st) in
      let requestedQty := SalesConfig.requested_quantity salesConfig in
      let selectedCount := List.length lots in
      if (Z.of_nat selectedCount <? requestedQty)%Z
      then failure 400
             ("Please select at least " ++ show_Z requestedQty
              ++ " lots. Currently selected: " ++ show_Z (Z.of_nat selectedCount))%string
      else
        {| code := 200; success := true;
           message := Some "Lot selection validated successfully";
           data := Some {| ManualSelect.selected_lots := lots;
                           ManualSelect.total_selected := selectedCount;
                           ManualSelect.required_minimum := requestedQty;
                           ManualSelect.total_value := totalValueOf lots;
                           ManualSelect.validation_passed := true |} |}
  end.

Module SaveDraft.
Record t := {
  sales_record : Sales.t;
  blocked_lots : nat;
  total_value : JS.Number;
  broker_commission : JS.Number
}.
End SaveDraft.

(** [POST /api/sales/save-draft].  [new_id] is the key the store gives the
    inserted [sales_table] row.  Reading [commission_rate] of a missing
    broker throws, and the route's [catch] answers 500. *)
Definition save_draft (st : Store) (now : JS.Date) (user : User.t) (new_id : string)
    (sales_config_id : string) (selected_lots : list string) (notes : option string)
  : Store * Response SaveDraft.t :=
  match sales_configuration_by_id st sales_config_id with
  | None => (st, failure 404 "Sales configuration not found")
  | Some salesConfig =>
      let lots :=
        filter (fun l => mem (Inventory.id l) selected_lots) (inventory_table st) in
      let totalBales := List.length lots in
      let totalValue := totalValueOf lots in
      match broker_of st (SalesConfig.broker_id salesConfig) with
      | None =>
          (st, failure 500 "Cannot read properties of null (reading 'commission_rate')")
      | Some broker_info =>
          let brokerCommission :=
            JS.div (JS.mul totalValue (JS.or_zero (BrokerInfo.commission_rate broker_info)))
                   (JS.of_int 100) in
          let salesData :=
            {| SalesData.sales_config_id := sales_config_id;
               SalesData.indent_numbers := JS.distinct (map Inventory.indent_number lots);
               SalesData.total_bales := totalBales;
               SalesData.total_value := totalValue;
               SalesData.broker_commission := brokerCommission;
               SalesData.status := DRAFT;
               SalesData.created_by := User.id user |} in
          let salesRecord := {| Sales.id := new_id; Sales.data := salesData |} in
          let st1 := with_sales (fun t => t ++ [salesRecord]) st in
          let lotSelections :=
            map (fun lot =>
                   {| LotSelection.sales_id := Sales.id salesRecord;
                      LotSelection.inventory_id := Inventory.id lot;
                      LotSelection.lot_number := Inventory.lot_number lot;
                      LotSelection.indent_number := Inventory.indent_number lot;
                      LotSelection.quantity := 1;
                      LotSelection.price := JS.or_zero (Inventory.bid_price lot);
                      LotSelection.status := SELECTED |}) lots in
          let st2 := with_selections (fun t => t ++ lotSelections) st1 in
          let st3 :=
            with_inventory
              (update_where (fun l => mem (Inventory.id l) selected_lots)
                 (Inventory.set_status_at BLOCKED (JS.toISOString now))) st2 in
          let st4 :=
            with_configuration
              (update_where (fun c => String.eqb (SalesConfig.id c) sales_config_id)
                 (SalesConfig.set_status_at processing (JS.toISOString now))) st3 in
          let st5 :=
            insert_audit
              {| Audit.table_name := "sales_table";
                 Audit.record_id := Sales.id salesRecord;
                 Audit.action := "SALES_DRAFT_CREATED";
                 Audit.user_id := User.id user;
                 Audit.values := DraftCreated salesData totalBales notes |} st4 in
          let st6 :=
            post_webhook
              (SalesDraft (Sales.id salesRecord)
                 (customer_of st (SalesConfig.customer_id salesConfig))
                 (Some broker_info) totalBales totalValue user notes) st5 in
          (st6, {| code := 201; success := true;
                   message := Some "Sales draft saved successfully";
                   data := Some {| SaveDraft.sales_record := salesRecord;
                                   SaveDraft.blocked_lots := List.length lots;
                                   SaveDraft.total_value := totalValue;
                                   SaveDraft.broker_commission := brokerCommission |} |})
      end
  end.

End SalesRoutes.

(** ** Vocabulary of the statements *)

(** *** Calendar dates *)

(** The calendar date of a [Date], as [toISOString] prints it. *)
Definition dateString (t : JS.Date) : string :=
  JS.ymd (JS.year t) (JS.month t) (JS.day t).

(** A date of the proleptic calendar with a four-digit year. *)
Definition valid_date (t : JS.Date) : Prop :=
  JS.year t < 10 ^ 4 /\ 1 <= JS.month t <= 12 /\ 1 <= JS.day t <= 31.

(** [a] is an earlier calendar day than [b]. *)
Definition day_before (a b : JS.Date) : Prop :=
  JS.year a < JS.year b
  \/ (JS.year a = JS.year b
      /\ (JS.month a < JS.month b
          \/ (JS.month a = JS.month b /\ JS.day a < JS.day b))).

(** [a] and [b] fall on the same calendar day. *)
Definition same_day (a b : JS.Date) : Prop :=
  JS.year a = JS.year b /\ JS.month a = JS.month b /\ JS.day a = JS.day b.

(** *** Numbers *)

(** [x] is not a negative number (it may be a zero of either sign, NaN or
    the positive infinity). *)
Definition nonneg (x : JS.Number) : Prop :=
  match x with
  | S754_finite true _ _ | S754_infinity true => False
  | _ => True
  end.


(** *** Drafts *)

(** The claim state of every lot, by identifier. *)
Definition statuses (st : Store) : list (string * InventoryStatus) :=
  map (fun l => (Inventory.id l, Inventory.status l)) (inventory_table st).

(** The draft record [save-draft] inserts. *)
Definition draft_of (st : Store) (user : User.t) (new_id sales_config_id : string)
    (selected_lots : list string) (broker : BrokerInfo.t) : Sales.t :=
  let lots := filter (fun l => mem (Inventory.id l) selected_lots) (inventory_table st) in
  {| Sales.id := new_id;
     Sales.data :=
       {| SalesData.sales_config_id := sales_config_id;
          SalesData.indent_numbers := JS.distinct (map Inventory.indent_number lots);
          SalesData.total_bales := List.length lots;
          SalesData.total_value := SalesRoutes.totalValueOf lots;
          SalesData.broker_commission :=
            JS.div (JS.mul (SalesRoutes.totalValueOf lots)
                      (JS.or_zero (BrokerInfo.commission_rate broker)))
                   (JS.of_int 100);
          SalesData.status := DRAFT;
          SalesData.created_by := User.id user |} |}.

(** *** Responses *)

Inductive Decision := Accept | Reject.

(** [respond(assignmentID, actor, decision)]: the two routes, by decision. *)
Definition respond (st : Store) (now : JS.Date) (user : User.t)
    (assignment_id : string) (d : Decision) : Store * Response Assignment.t :=
  match d with
  | Accept => CustomerLots.accept st now user assignment_id
  | Reject => CustomerLots.reject st now user assignment_id
  end.

Definition resolved (d : Decision) : LotStatus :=
  match d with Accept => ACCEPTED | Reject => REJECTED end.

Definition lot_outcome (d : Decision) : InventoryStatus :=
  match d with Accept => SOLD | Reject => AVAILABLE end.

Definition action_of (d : Decision) : string :=
  match d with Accept => "ACCEPTED" | Reject => "REJECTED" end.

(** The store after the three writes of a response: the assignment row, the
    inventory row and the audit entry. *)
Definition recorded (st : Store) (now : JS.Date) (user : User.t)
    (a : Assignment.t) (d : Decision) : Store :=
  insert_audit
    {| Audit.table_name := "customer_assignment_table";
       Audit.record_id := Assignment.id a;
       Audit.action := action_of d;
       Audit.user_id := User.id user;
       Audit.values := StatusChange PENDING (resolved d) |}
    (with_inventory
       (update_where
          (fun l => String.eqb (Inventory.id l) (Assignment.inventory_id a))
          (Inventory.set_status_at (lot_outcome d) (JS.toISOString now)))
       (with_assignments
          (update_where (fun r => String.eqb (Assignment.id r) (Assignment.id a))
             (Assignment.respond (resolved d) (User.id user) (JS.toISOString now)))
          st)).

(** A sequence of responses, one after the other. *)
Definition respond_all (st : Store)
    (calls : list (JS.Date * User.t * string * Decision)) : Store :=
  fold_left (fun s '(now, user, assignment_id, d) =>
               fst (respond s now user assignment_id d)) calls st.

(** The confirmation events sent for a sales order. *)
Definition confirmations (st : Store) (salesId : string) : list Webhook :=
  filter (fun w => match w with
                   | LotAcceptanceConfirmation s _ _ _ _ _ => String.eqb s salesId
                   | _ => false
                   end) (webhooks st).

(** The rows the listing reads for a customer. *)
Definition assignments_of (st : Store) (customerId : string) : list Assignment.t :=
  order_by Assignment.assigned_at false
    (filter (fun a => String.eqb (Assignment.customer_id a) customerId)
            (customer_assignment_table st)).

(** The rows the auto-expire block of the listing picks. *)
Definition overdue (st : Store) (now : JS.Date) (customerId : string) : list Assignment.t :=
  filter (fun a => CustomerLots.isPending a
                   && negb (CustomerLots.isWithinWindow (JS.currentDateOf now) a))
         (assignments_of st customerId).

(** ** Properties the specification words more strongly than the routes
    behave *)


(** All-or-nothing claim: either every requested lot goes from AVAILABLE to
    BLOCKED, or the call fails and no lot changes. *)
Definition all_or_nothing_claim : Prop :=
  forall st now user new_id sales_config_id selected_lots notes,
    SalesRoutes.saveDraftSchema selected_lots = true ->
    let out :=
      SalesRoutes.save_draft st now user new_id sales_config_id selected_lots notes in
    ((forall l, In l (inventory_table st) ->
                mem (Inventory.id l) selected_lots = true ->
                Inventory.status l = AVAILABLE)
     /\ (forall l, In l (inventory_table (fst out)) ->
                   mem (Inventory.id l) selected_lots = true ->
                   Inventory.status l = BLOCKED))
    \/ (success (snd out) = false
        /\ inventory_table (fst out) = inventory_table st).

(** Fire-once confirmation: whatever responses arrive, an order that had no
    confirmation event gets at most one. *)
Definition fire_once_claim : Prop :=
  forall st calls salesId,
    confirmations st salesId = [] ->
    List.length (confirmations (respond_all st calls) salesId) <= 1.

(** Terminal idempotence: a response by the bound customer to a resolved
    assignment is refused as already resolved, and changes nothing. *)
Definition already_resolved_claim : Prop :=
  forall st now user assignment_id a d,
    CustomerLots.assignment_by_id st assignment_id = Some a ->
    Assignment.lot_status a <> PENDING ->
    CustomerLots.customerIdOf st user = Some (Assignment.customer_id a) ->
    let out := respond st now user assignment_id d in
    fst out = st
    /\ message (snd out) = Some "Assignment has already been responded to".

(** Floor at commit: a draft with fewer lots than the order requests is
    refused, and neither a draft nor a block is written. *)
Definition floor_at_commit_claim : Prop :=
  forall st now user new_id sales_config_id selected_lots notes salesConfig,
    SalesRoutes.saveDraftSchema selected_lots = true ->
    sales_configuration_by_id st sales_config_id = Some salesConfig ->
    (Z.of_nat (List.length selected_lots)
     < SalesConfig.requested_quantity salesConfig)%Z ->
    let out :=
      SalesRoutes.save_draft st now user new_id sales_config_id selected_lots notes in
    success (snd out) = false
    /\ sales_table (fst out) = sales_table st
    /\ inventory_table (fst out) = inventory_table st.

(** Assignments at draft creation: a saved draft leaves one PENDING
    assignment for each lot it claimed. *)
Definition assignments_created_claim : Prop :=
  forall st now user new_id sales_config_id selected_lots notes,
    let out :=
      SalesRoutes.save_draft st now user new_id sales_config_id selected_lots notes in
    success (snd out) = true ->
    forall l, In l (inventory_table st) ->
              mem (Inventory.id l) selected_lots = true ->
              exists a, In a (customer_assignment_table (fst out))
                        /\ Assignment.inventory_id a = Inventory.id l
                        /\ Assignment.lot_status a = PENDING.

(** ** Scenarios *)

Module Scenario.

Definition lot (n : nat) (s : InventoryStatus) : Inventory.t :=
  {| Inventory.id := "lot-" ++ JS.pad 3 n;
     Inventory.lot_number := JS.pad 3 n;
     Inventory.indent_number := "IND-" ++ JS.pad 1 (n / 10);
     Inventory.branch := "Rajkot";
     Inventory.variety := "Shankar-6";
     Inventory.fibre_length := "29";
     Inventory.bid_price := Some (JS.of_int 61000);
     Inventory.status := s;
     Inventory.created_at := Z.of_nat n;
     Inventory.updated_at := None |}.

Definition order (q : Z) : SalesConfig.t :=
  {| SalesConfig.id := "order-1";
     SalesConfig.customer_id := "customer-1";
     SalesConfig.broker_id := "broker-1";
     SalesConfig.requested_quantity := q;
     SalesConfig.line_specs :=
       Some {| LineSpecs.fibre_length := Some "29";
               LineSpecs.variety := Some "Shankar-6" |};
     SalesConfig.priority_branch := None;
     SalesConfig.status := pending;
     SalesConfig.updated_at := None |}.

Definition broker : BrokerInfo.t :=
  {| BrokerInfo.id := "broker-1";
     BrokerInfo.commission_rate := Some (JS.of_int 2) |}.

Definition store_of (lots : list Inventory.t) (q : Z)
    (assignments : list Assignment.t) (sales : list Sales.t) : Store :=
  {| inventory_table := lots;
     sales_configuration := [order q];
     customer_info := [{| CustomerInfo.id := "customer-1";
                          CustomerInfo.email := "buyer@mill.example" |}];
     broker_info := [broker];
     sales_table := sales;
     lot_selected_contract := [];
     customer_assignment_table := assignments;
     audit_log := [];
     webhooks := [] |}.


(** One hundred and thirty AVAILABLE lots that match an order for a
    hundred. *)
Definition plenty : Store :=
  store_of (map (fun n => lot n AVAILABLE) (seq 1 130)) 100 [] [].

(** Lot 1 is already BLOCKED by another draft, lots 2 and 3 are AVAILABLE;
    the order asks for fifty. *)
Definition contended : Store :=
  store_of [lot 1 BLOCKED; lot 2 AVAILABLE; lot 3 AVAILABLE] 50 [] [].

Definition trader : User.t :=
  {| User.id := "user-7"; User.role := "trader"; User.email := "desk@katha.example" |}.

Definition buyer : User.t :=
  {| User.id := "customer-1"; User.role := "customer";
     User.email := "buyer@mill.example" |}.

Definition assignment (n : nat) (s : LotStatus) (window_end : string) : Assignment.t :=
  {| Assignment.id := "assignment-" ++ JS.pad 3 n;
     Assignment.customer_id := "customer-1";
     Assignment.sales_id := "sale-1";
     Assignment.inventory_id := "lot-" ++ JS.pad 3 n;
     Assignment.window_start_date := "2024-06-03";
     Assignment.window_end_date := window_end;
     Assignment.lot_status := s;
     Assignment.responded_by := None;
     Assignment.responded_at := None;
     Assignment.assigned_at := Z.of_nat n |}.

Definition draft : Sales.t :=
  {| Sales.id := "sale-1";
     Sales.data :=
       {| SalesData.sales_config_id := "order-1";
          SalesData.indent_numbers := ["IND-0"];
          SalesData.total_bales := 3;
          SalesData.total_value := JS.of_int 183000;
          SalesData.broker_commission := JS.of_int 3660;
          SalesData.status := DRAFT;
          SalesData.created_by := "user-7" |} |}.

(** An order for two lots with three lots assigned (one of buffer), all
    awaiting the customer's answer until 10 June 2024. *)
Definition awaiting : Store :=
  store_of [lot 1 BLOCKED; lot 2 BLOCKED; lot 3 BLOCKED] 2
    [assignment 1 PENDING "2024-06-10"; assignment 2 PENDING "2024-06-10";
     assignment 3 PENDING "2024-06-10"]
    [draft].

(** The same order with the first assignment swept to EXPIRED after its
    window ended on 9 June 2024. *)
Definition lapsed : Store :=
  store_of [lot 1 AVAILABLE; lot 2 BLOCKED] 2
    [assignment 1 EXPIRED "2024-06-09"; assignment 2 PENDING "2024-06-10"]
    [draft].

(** 10 June 2024, the last day of the window: its first instant, noon and
    its last millisecond; and the first millisecond of 11 June. *)
Definition end_date : JS.Date :=
  {| JS.year := 2024; JS.month := 6; JS.day := 10; JS.hours := 0;
     JS.minutes := 0; JS.seconds := 0; JS.milliseconds := 0 |}.

Definition noon : JS.Date :=
  {| JS.year := 2024; JS.month := 6; JS.day := 10; JS.hours := 12;
     JS.minutes := 0; JS.seconds := 0; JS.milliseconds := 0 |}.

Definition last_minute : JS.Date :=
  {| JS.year := 2024; JS.month := 6; JS.day := 10; JS.hours := 23;
     JS.minutes := 59; JS.seconds := 59; JS.milliseconds := 999 |}.

Definition next_morning : JS.Date :=
  {| JS.year := 2024; JS.month := 6; JS.day := 11; JS.hours := 0;
     JS.minutes := 0; JS.seconds := 0; JS.milliseconds := 1 |}.

(** Three acceptances, one per assignment, on the last day. *)
Definition three_accepts : list (JS.Date * User.t * string * Decision) :=
  [(noon, buyer, "assignment-001", Accept);
   (noon, buyer, "assignment-002", Accept);
   (noon, buyer, "assignment-003", Accept)].

End Scenario.

(** * Further routes and callers *)

(** ** The admin override and the statistics of the customer-lots routes *)

(** Rows and messages whose columns go beyond the record shapes above: the
    notes of an override, the [confirmed_by] and [confirmed_at] columns of a
    sale, the confirmation webhook of a sale, the error log.  They are
    journalled beside the store, in the order written. *)
Inductive Entry :=
| AuditAdminOverride
    (record_id user_id : string) (old_lot_status new_lot_status : LotStatus)
    (notes : option string) (admin_action : string)
| AuditSalesConfirmed (record_id user_id : string) (notes : option string)
| AuditError
    (user_id : option string) (message stack : option string) (url method : string)
    (ip_address : string) (user_agent : option string)
| SalesConfirmedColumns (id confirmed_by confirmed_at : string)
| PostSalesConfirmation
    (sales_id : string) (customer : option CustomerInfo.t)
    (broker : option BrokerInfo.t) (total_bales : nat)
    (total_value broker_commission : JS.Number) (confirmed_by : User.t)
    (confirmed_at : string) (notes : option string).

Record Backend := { store : Store; journal : list Entry }.

(** A route of the store alone, run on the backend. *)
Definition on_store {A} (f : Store -> Store * A) (b : Backend) : Backend * A :=
  let '(st, r) := f (store b) in ({| store := st; journal := journal b |}, r).

Module AdminOverride.

(** [adminOverrideSchema]: [action] is ['accept'] or ['reject']. *)
Definition action_word (action : Decision) : string :=
  match action with Accept => "accept" | Reject => "reject" end.

Record t := { assignment : Assignment.t; admin_notes : option string }.

(** [POST /api/customer/admin/override].  The message of the 500 answer ends
    with the store's own error text. *)
Definition admin_override (b : Backend) (now : JS.Date) (user : User.t)
    (assignment_id : string) (action : Decision) (notes : option string)
  : Backend * Response t :=
  let st := store b in
  match CustomerLots.assignment_by_id st assignment_id with
  | None => (b, failure 404 "Assignment not found")
  | Some assignment =>
      let newStatus := match action with Accept => ACCEPTED | Reject => REJECTED end in
      let inventoryStatus := match action with Accept => SOLD | Reject => AVAILABLE end in
      let st1 :=
        with_assignments
          (update_where (fun a => String.eqb (Assignment.id a) assignment_id)
             (Assignment.respond newStatus (User.id user) (JS.toISOString now))) st in
      match CustomerLots.assignment_by_id st1 assignment_id with
      | None => (b, failure 500 "Failed to update assignment: ")
      | Some updatedAssignment =>
          let st2 :=
            with_inventory
              (update_where
                 (fun l => String.eqb (Inventory.id l) (Assignment.inventory_id assignment))
                 (Inventory.set_status_at inventoryStatus (JS.toISOString now))) st1 in
          let journal1 :=
            journal b
            ++ [AuditAdminOverride assignment_id (User.id user)
                  (Assignment.lot_status assignment) newStatus notes
                  (action_word action)] in
          let st3 :=
            match action with
            | Accept =>
                CustomerLots.checkAndTriggerConfirmation st2
                  (Assignment.sales_id assignment) user
            | Reject => st2
            end in
          ({| store := st3; journal := journal1 |},
           {| code := 200; success := true;
              message := Some ("Assignment " ++ action_word action
                               ++ "ed by admin successfully")%string;
              data := Some {| assignment := updatedAssignment;
                              admin_notes := notes |} |})
      end
  end.

End AdminOverride.

Module Stats.

Definition LotStatus_name (s : LotStatus) : string :=
  match s with
  | PENDING => "PENDING"
  | ACCEPTED => "ACCEPTED"
  | REJECTED => "REJECTED"
  | EXPIRED => "EXPIRED"
  end.

(** A plain object used as a counter: its keys in insertion order. *)
Definition Counts := list (string * nat).

(** [acc[k]]: the count under [k], [undefined] when the key is absent. *)
Fixpoint get (k : string) (acc : Counts) : option nat :=
  match acc with
  | [] => None
  | (k', n) :: r => if String.eqb k' k then Some n else get k r
  end.

(** [acc[k] = v]. *)
Fixpoint set (k : string) (v : nat) (acc : Counts) : Counts :=
  match acc with
  | [] => [(k, v)]
  | (k', n) :: r => if String.eqb k' k then (k', v) :: r else (k', n) :: set k v r
  end.

(** [acc[k] = (acc[k] || 0) + 1]. *)
Definition bump (k : string) (acc : Counts) : Counts :=
  set k (match get k acc with Some n => n | None => 0 end + 1) acc.

Definition count_by {A} (key : A -> string) (rows : list A) : Counts :=
  fold_left (fun acc item => bump (key item) acc) rows [].

Record t := { assignment_stats : Counts; generated_at : string }.

(** [GET /api/customer/assignments/stats]. *)
Definition assignments_stats (st : Store) (now : JS.Date) : Response t :=
  {| code := 200; success := true; message := None;
     data := Some {| assignment_stats :=
                       count_by (fun a => LotStatus_name (Assignment.lot_status a))
                                (customer_assignment_table st);
                     generated_at := JS.toISOString now |} |}.

End Stats.

(** ** The confirmation of a sale *)

Module Confirm.

(** [.update({ status: 'CONFIRMED', ... })] on a [sales_table] row; the
    columns [confirmed_by] and [confirmed_at] go to the journal. *)
Definition set_confirmed (r : Sales.t) : Sales.t :=
  {| Sales.id := Sales.id r;
     Sales.data :=
       {| SalesData.sales_config_id := SalesData.sales_config_id (Sales.data r);
          SalesData.indent_numbers := SalesData.indent_numbers (Sales.data r);
          SalesData.total_bales := SalesData.total_bales (Sales.data r);
          SalesData.total_value := SalesData.total_value (Sales.data r);
          SalesData.broker_commission := SalesData.broker_commission (Sales.data r);
          SalesData.status := CONFIRMED;
          SalesData.created_by := SalesData.created_by (Sales.data r) |} |}.

Definition SalesStatus_eqb (a b : SalesStatus) : bool :=
  match a, b with
  | DRAFT, DRAFT | CONFIRMED, CONFIRMED => true
  | _, _ => false
  end.

(** [draftResult.data]: the draft found, or the placeholder of the source. *)
Inductive DraftData :=
| Existing (draft : Sales.t)
| Placeholder (id : string).

Definition draft_id (d : DraftData) : string :=
  match d with
  | Existing draft => Sales.id draft
  | Placeholder id => id
  end.

(** Helper function to create or update sales draft.  [.single()] fails with
    code [PGRST116] both for no row and for several, so on this store the
    helper never throws and [success] is [true]: it answers the only DRAFT
    of the order, or else the placeholder. *)
Definition createOrUpdateSalesDraft (st : Store) (sales_config_id : string)
    (selected_lots : list string) (user_id : string) : bool * DraftData :=
  let existingDraft :=
    single (filter (fun s => String.eqb (Sales.sales_config_id s) sales_config_id
                             && SalesStatus_eqb (Sales.status s) DRAFT)
                   (sales_table st)) in
  match existingDraft with
  | Some draft => (true, Existing draft)
  | None => (true, Placeholder "new-draft-id")
  end.

Record t := {
  sales_record : Sales.t;
  confirmed_by : string;
  confirmed_at : string
}.

(** [POST /api/sales/confirm].  The message of the 500 answer ends with the
    store's own error text. *)
Definition confirm (b : Backend) (now : JS.Date) (user : User.t)
    (sales_config_id : string) (selected_lots : list string) (notes : option string)
  : Backend * Response t :=
  let st := store b in
  let draftResult :=
    createOrUpdateSalesDraft st sales_config_id selected_lots (User.id user) in
  if negb (fst draftResult) then (b, failure 400 "Failed to check existing draft")
  else
  let salesRecord_id := draft_id (snd draftResult) in
  let st1 :=
    with_sales
      (update_where (fun s => String.eqb (Sales.id s) salesRecord_id) set_confirmed) st in
  match single (filter (fun s => String.eqb (Sales.id s) salesRecord_id)
                       (sales_table st1)) with
  | None => (b, failure 500 "Failed to confirm sales: ")
  | Some confirmedSales =>
      let journal1 :=
        journal b
        ++ [SalesConfirmedColumns salesRecord_id (User.id user) (JS.toISOString now)] in
      let st2 :=
        with_configuration
          (update_where (fun c => String.eqb (SalesConfig.id c) sales_config_id)
             (SalesConfig.set_status_at completed (JS.toISOString now))) st1 in
      let journal2 :=
        journal1 ++ [AuditSalesConfirmed salesRecord_id (User.id user) notes] in
      let journal3 :=
        match configuration_of st2 (Sales.sales_config_id confirmedSales) with
        | Some sales_configuration_row =>
            journal2
            ++ [PostSalesConfirmation salesRecord_id
                  (customer_of st2 (SalesConfig.customer_id sales_configuration_row))
                  (broker_of st2 (SalesConfig.broker_id sales_configuration_row))
                  (SalesData.total_bales (Sales.data confirmedSales))
                  (SalesData.total_value (Sales.data confirmedSales))
                  (SalesData.broker_commission (Sales.data confirmedSales))
                  user (JS.toISOString now) notes]
        | None => journal2
        end in
      ({| store := st2; journal := journal3 |},
       {| code := 200; success := true;
          message := Some "Sales order confirmed successfully";
          data := Some {| sales_record := confirmedSales;
                          confirmed_by := User.id user;
                          confirmed_at := JS.toISOString now |} |})
  end.

End Confirm.

(** ** The error handler *)

Module ErrorHandler.

Inductive Code :=
| CodeNumber (n : JS.Number)
| CodeString (s : string).

(** The fields of a thrown error the handler reads. *)
Record Err := {
  name : option string;
  message : option string;
  stack : option string;
  code : option Code;
  statusCode : option nat;
  errors : option (list string)
}.

Record Req := {
  originalUrl : string;
  method : string;
  ip : string;
  userAgent : option string;
  user_id : option string
}.

Record Body := {
  body_success : bool;
  body_message : string;
  body_stack : option string
}.

Definition name_is (err : Err) (n : string) : bool :=
  match name err with Some s => String.eqb s n | None => false end.

(** [err.code === 11000]. *)
Definition code_is_number (err : Err) (z : Z) : bool :=
  match code err with
  | Some (CodeNumber n) => SFeqb n (JS.of_int z)
  | _ => false
  end.

(** [err.code === 'LIMIT_FILE_SIZE']. *)
Definition code_is_string (err : Err) (s : string) : bool :=
  match code err with
  | Some (CodeString c) => String.eqb c s
  | _ => false
  end.

(** [values.join(', ')]. *)
Definition join (l : list string) : string := String.concat ", " l.

(** The working copy [error]: its [message] and [statusCode]. *)
Definition Working := (option string * option nat)%type.

(** [x || d] for a status and for a message. *)
Definition status_or (x : option nat) (d : nat) : nat :=
  match x with
  | Some 0 | None => d
  | Some n => n
  end.

Definition message_or (x : option string) (d : string) : string :=
  match x with
  | Some s => if JS.truthy_str s then s else d
  | None => d
  end.

(** Global error handler.  [development] is
    [process.env.NODE_ENV === 'development'].  The answer is [None] when the
    handler itself throws before it answers: reading the values of a missing
    [errors], or calling [startsWith] on a truthy code that is a number. *)
Definition errorHandler (b : Backend) (development : bool) (err : Err) (req : Req)
  : Backend * option (nat * Body) :=
  let error0 : Working := (message err, statusCode err) in
  let b1 :=
    {| store := store b;
       journal := journal b
                  ++ [AuditError (user_id req) (message err) (stack err)
                        (originalUrl req) (method req) (ip req) (userAgent req)] |} in
  let error1 : Working :=
    if name_is err "CastError" then (Some "Resource not found", Some 404) else error0 in
  let error2 : Working :=
    if code_is_number err 11000
    then (Some "Duplicate field value entered", Some 400) else error1 in
  let error3 : option Working :=
    if name_is err "ValidationError"
    then match errors err with
         | Some vals => Some (Some (join vals), Some 400)
         | None => None
         end
    else Some error2 in
  match error3 with
  | None => (b1, None)
  | Some error3 =>
      let error4 : Working :=
        if name_is err "JsonWebTokenError" then (Some "Invalid token", Some 401)
        else error3 in
      let error5 : Working :=
        if name_is err "TokenExpiredError" then (Some "Token expired", Some 401)
        else error4 in
      let error6 : Working :=
        if code_is_string err "LIMIT_FILE_SIZE"
        then (Some "File size too large", Some 400) else error5 in
      let error7 : Working :=
        if code_is_string err "LIMIT_UNEXPECTED_FILE"
        then (Some "Unexpected file field", Some 400) else error6 in
      let error8 : option Working :=
        match code err with
        | None => Some error7
        | Some (CodeString c) =>
            if JS.truthy_str c
            then if String.prefix "PGRST" c
                 then Some (Some "Database operation failed", Some 500)
                 else Some error7
            else Some error7
        | Some (CodeNumber n) =>
            if JS.truthy n then None else Some error7
        end in
      match error8 with
      | None => (b1, None)
      | Some error =>
          (b1, Some (status_or (snd error) 500,
                     {| body_success := false;
                        body_message := message_or (fst error) "Internal server error";
                        body_stack := if development then stack err else None |}))
      end
  end.

End ErrorHandler.

(** ** The sales-processing page *)

Module SalesProcessing.

Inductive Mode := list_mode | processing_mode | selection_mode | confirm_mode.

(** [prev.includes(lotId)]. *)
Definition includes (prev : list string) (lotId : string) : bool :=
  existsb (fun x => String.eqb x lotId) prev.

(** Toggle manual lot selection. *)
Definition toggleLotSelection (prev : list string) (lotId : string) : list string :=
  if includes prev lotId
  then filter (fun id => negb (String.eqb id lotId)) prev
  else prev ++ [lotId].

(** Validate selection and proceed: the mode after the call, from the
    selection mode. *)
Definition validateAndProceed (manualSelection : list string)
    (requested_quantity : Z) : Mode :=
  if (Z.of_nat (List.length manualSelection) <? requested_quantity)%Z
  then selection_mode
  else confirm_mode.

(** The selection [selectOrder] starts from: the identifiers of the
    auto-selected lots. *)
Definition initialSelection (d : SalesRoutes.AutoSelect.t) : list string :=
  map Inventory.id (SalesRoutes.AutoSelect.auto_selected d).

End SalesProcessing.

(** ** The alerts of the dashboard *)

Module Dashboard.

(** [payments], [manual_applications], [purchase_contract_table]: the
    columns the route reads. *)
Record Payment := { utr_number : option string; due_date : string }.
Record Application := { application_status : string }.
Record Contract := { contract_status : string }.

(** What reading a property gives: a number, or [undefined]. *)
Inductive Property :=
| Value (n : nat)
| Undefined.

(** [n.data] for a number [n]: a number has no such property. *)
Definition data_of (n : nat) : Property := Undefined.

(** [x < k]: [undefined] converts to [NaN], and no comparison with [NaN]
    holds. *)
Definition less_than (x : Property) (k : nat) : bool :=
  match x with
  | Value n => Nat.ltb n k
  | Undefined => false
  end.

(** [`${x}`]. *)
Definition show (x : Property) : string :=
  match x with
  | Value n => SalesRoutes.show_Z (Z.of_nat n)
  | Undefined => "undefined"
  end.

Record Alert := {
  type : string;
  title : string;
  alert_message : string;
  count : Property;
  action_url : string
}.

Record t := { alerts : list Alert; total_alerts : nat; generated_at : string }.

(** [GET /api/dashboard/alerts].  [threeDaysAgo] is the date the route
    computes with [setDate(getDate() - 3)]; the tables outside the store
    are given. *)
Definition get_alerts (st : Store) (payments : list Payment)
    (manual_applications : list Application)
    (purchase_contract_table : list Contract)
    (threeDaysAgo now : JS.Date) : Response t :=
  let alerts0 : list Alert := [] in
  let overduePayments :=
    filter (fun p => match utr_number p with None => true | Some _ => false end
                     && String.ltb (due_date p) (JS.currentDateOf threeDaysAgo))
           payments in
  let alerts1 :=
    if Nat.ltb 0 (List.length overduePayments)
    then alerts0
         ++ [{| type := "warning"; title := "Overdue Payments";
                alert_message :=
                  SalesRoutes.show_Z (Z.of_nat (List.length overduePayments))
                  ++ " payments are overdue";
                count := Value (List.length overduePayments);
                action_url := "/utr/pending" |}]
    else alerts0 in
  let manualApps :=
    filter (fun a => String.eqb (application_status a) "pending") manual_applications in
  let alerts2 :=
    if Nat.ltb 0 (List.length manualApps)
    then alerts1
         ++ [{| type := "info"; title := "Manual Review Required";
                alert_message :=
                  SalesRoutes.show_Z (Z.of_nat (List.length manualApps))
                  ++ " applications need manual review";
                count := Value (List.length manualApps);
                action_url := "/admin/manual-applications" |}]
    else alerts1 in
  let pendingContracts :=
    filter (fun c => String.eqb (contract_status c) "pending") purchase_contract_table in
  let alerts3 :=
    if Nat.ltb 0 (List.length pendingContracts)
    then alerts2
         ++ [{| type := "info"; title := "Contracts Pending Approval";
                alert_message :=
                  SalesRoutes.show_Z (Z.of_nat (List.length pendingContracts))
                  ++ " contracts await approval";
                count := Value (List.length pendingContracts);
                action_url := "/admin/contracts" |}]
    else alerts2 in
  let inventoryCount : nat :=
    List.length (filter (fun l => InventoryStatus_eqb (Inventory.status l) AVAILABLE)
                   (inventory_table st)) in
  let alerts4 :=
    if less_than (data_of inventoryCount) 100
    then alerts3
         ++ [{| type := "warning"; title := "Low Inventory";
                alert_message :=
                  "Only " ++ show (data_of inventoryCount) ++ " lots available";
                count := data_of inventoryCount;
                action_url := "/sampling-entry" |}]
    else alerts3 in
  {| code := 200; success := true; message := None;
     data := Some {| alerts := alerts4;
                     total_alerts := List.length alerts4;
                     generated_at := JS.toISOString now |} |}.

End Dashboard.

(** ** The routes that write, as requests *)

Inductive Request :=
| GetLots (now : JS.Date) (user : User.t)
| PostAccept (now : JS.Date) (user : User.t) (assignment_id : string)
| PostReject (now : JS.Date) (user : User.t) (assignment_id : string)
| PostAdminOverride (now : JS.Date) (user : User.t) (assignment_id : string)
    (action : Decision) (notes : option string)
| PostSaveDraft (now : JS.Date) (user : User.t) (new_id sales_config_id : string)
    (selected_lots : list string) (notes : option string)
| PostConfirm (now : JS.Date) (user : User.t) (sales_config_id : string)
    (selected_lots : list string) (notes : option string).

(** The backend after a request is served. *)
Definition handle (b : Backend) (r : Request) : Backend :=
  match r with
  | GetLots now user =>
      fst (on_store (fun st => CustomerLots.lots st now user) b)
  | PostAccept now user assignment_id =>
      fst (on_store (fun st => CustomerLots.accept st now user assignment_id) b)
  | PostReject now user assignment_id =>
      fst (on_store (fun st => CustomerLots.reject st now user assignment_id) b)
  | PostAdminOverride now user assignment_id action notes =>
      fst (AdminOverride.admin_override b now user assignment_id action notes)
  | PostSaveDraft now user new_id sales_config_id selected_lots notes =>
      fst (on_store
             (fun st => SalesRoutes.save_draft st now user new_id sales_config_id
                          selected_lots notes) b)
  | PostConfirm now user sales_config_id selected_lots notes =>
      fst (Confirm.confirm b now user sales_config_id selected_lots notes)
  end.

Definition serve (b : Backend) (requests : list Request) : Backend :=
  fold_left handle requests b.

(** A request of the customer's own routes. *)
Definition customer_request (r : Request) : bool :=
  match r with
  | GetLots _ _ | PostAccept _ _ _ | PostReject _ _ _ => true
  | _ => false
  end.

(** The columns of an assignment no route writes. *)
Definition assignment_identity (a : Assignment.t)
  : string * string * string * string * string * string * Z :=
  (Assignment.id a, Assignment.customer_id a, Assignment.sales_id a,
   Assignment.inventory_id a, Assignment.window_start_date a,
   Assignment.window_end_date a, Assignment.assigned_at a).

(** The columns of a lot no route writes. *)
Definition lot_identity (l : Inventory.t)
  : string * string * string * string * string * string * option JS.Number * Z :=
  (Inventory.id l, Inventory.lot_number l, Inventory.indent_number l,
   Inventory.branch l, Inventory.variety l, Inventory.fibre_length l,
   Inventory.bid_price l, Inventory.created_at l).

(** [l1] is an initial segment of [l2]. *)
Definition extends {A} (l2 l1 : list A) : Prop := exists more, l2 = l1 ++ more.

(** Rows in increasing, or decreasing, key order. *)
Definition in_order {A} (key : A -> Z) (ascending : bool) (a b : A) : Prop :=
  if ascending then (key a <= key b)%Z else (key b <= key a)%Z.

(** ** Vocabulary of the further statements *)

(** What an optional filter value asks of a column: nothing when it is
    absent or empty. *)
Definition wants (v : option string) (actual : string) : Prop :=
  match v with
  | Some s => if JS.truthy_str s then actual = s else True
  | None => True
  end.

(** A lot meets the line specs and the priority branch of an order. *)
Definition meets (salesConfig : SalesConfig.t) (l : Inventory.t) : Prop :=
  match SalesConfig.line_specs salesConfig with
  | Some specs =>
      wants (LineSpecs.fibre_length specs) (Inventory.fibre_length l)
      /\ wants (LineSpecs.variety specs) (Inventory.variety l)
  | None => True
  end
  /\ wants (SalesConfig.priority_branch salesConfig) (Inventory.branch l).

(** The rows of a table with a given key, and the total of a counter. *)
Definition rows_with {A} (key : A -> string) (k : string) (rows : list A) : nat :=
  List.length (filter (fun r => String.eqb (key r) k) rows).

Definition total (acc : Stats.Counts) : nat := list_sum (map snd acc).

(** A draft of an order, as [createOrUpdateSalesDraft] looks for it. *)
Definition is_draft_of (sales_config_id : string) (s : Sales.t) : bool :=
  String.eqb (Sales.sales_config_id s) sales_config_id
  && Confirm.SalesStatus_eqb (Sales.status s) DRAFT.

(** Further scenarios. *)
Module Cases.

(** The order of the scenarios, with a priority branch. *)
Definition order_from (branch : string) (q : Z) : SalesConfig.t :=
  {| SalesConfig.id := "order-1";
     SalesConfig.customer_id := "customer-1";
     SalesConfig.broker_id := "broker-1";
     SalesConfig.requested_quantity := q;
     SalesConfig.line_specs :=
       Some {| LineSpecs.fibre_length := Some "29";
               LineSpecs.variety := Some "Shankar-6" |};
     SalesConfig.priority_branch := Some branch;
     SalesConfig.status := pending;
     SalesConfig.updated_at := None |}.

(** Three AVAILABLE lots in Rajkot, and an order that asks for Guntur. *)
Definition elsewhere : Store :=
  {| inventory_table :=
       [Scenario.lot 1 AVAILABLE; Scenario.lot 2 AVAILABLE; Scenario.lot 3 AVAILABLE];
     sales_configuration := [order_from "Guntur" 2];
     customer_info := [];
     broker_info := [Scenario.broker];
     sales_table := [];
     lot_selected_contract := [];
     customer_assignment_table := [];
     audit_log := [];
     webhooks := [] |}.

Definition desk (st : Store) : Backend := {| store := st; journal := [] |}.

Definition admin : User.t :=
  {| User.id := "admin-1"; User.role := "admin"; User.email := "ops@katha.example" |}.

(** Errors reaching the handler, and the request they come from. *)
Definition duplicate_key : ErrorHandler.Err :=
  {| ErrorHandler.name := Some "MongoError";
     ErrorHandler.message := Some "E11000 duplicate key error";
     ErrorHandler.stack := None;
     ErrorHandler.code := Some (ErrorHandler.CodeNumber (JS.of_int 11000));
     ErrorHandler.statusCode := None;
     ErrorHandler.errors := None |}.

Definition cast_error : ErrorHandler.Err :=
  {| ErrorHandler.name := Some "CastError";
     ErrorHandler.message := Some "Cast to ObjectId failed";
     ErrorHandler.stack := Some "CastError: at model.Query.exec";
     ErrorHandler.code := None;
     ErrorHandler.statusCode := None;
     ErrorHandler.errors := None |}.

Definition no_rows : ErrorHandler.Err :=
  {| ErrorHandler.name := Some "JsonWebTokenError";
     ErrorHandler.message := Some "JSON object requested, no rows returned";
     ErrorHandler.stack := None;
     ErrorHandler.code := Some (ErrorHandler.CodeString "PGRST116");
     ErrorHandler.statusCode := Some 404;
     ErrorHandler.errors := None |}.

Definition call : ErrorHandler.Req :=
  {| ErrorHandler.originalUrl := "/api/sales/42";
     ErrorHandler.method := "GET";
     ErrorHandler.ip := "10.0.0.7";
     ErrorHandler.userAgent := None;
     ErrorHandler.user_id := Some "user-7" |}.

End Cases.

(** * Lemmas *)

Import SalesRoutes CustomerLots.

(** ** Strings of digits *)

Section Digits.

Lemma digit_lt10 n :
  n < 10 -> JS.digit n = ascii_of_nat (48 + n).
Proof.
  intros H. unfold JS.digit. now rewrite Nat.mod_small.
Qed.

Lemma digit_compare a b :
  a < 10 -> b < 10 ->
  Ascii.compare (JS.digit a) (JS.digit b) = Nat.compare a b.
Proof.
  intros Ha Hb. rewrite !digit_lt10 by assumption.
  do 10 (destruct a as [|a]; [ do 10 (destruct b as [|b]; [reflexivity|]); lia |]).
  lia.
Qed.

Lemma digit_not_T n : Ascii.eqb (JS.digit n) "T" = false.
Proof.
  unfold JS.digit.
  assert (H : n mod 10 < 10) by (apply Nat.mod_upper_bound; lia).
  destruct (n mod 10) as [|d]; [reflexivity|].
  do 9 (destruct d as [|d]; [reflexivity|]). lia.
Qed.

Lemma pad_length k : forall n, String.length (JS.pad k n) = k.
Proof.
  induction k as [|k IH]; intros n; cbn [JS.pad String.length]; [reflexivity|].
  now rewrite IH.
Qed.

Lemma compare_app a : forall b s t,
  String.length a = String.length b ->
  String.compare (a ++ s) (b ++ t) =
  match String.compare a b with
  | Eq => String.compare s t
  | c => c
  end.
Proof.
  induction a as [|c a IH]; intros [|d b] s t Hlen; simpl in *;
    try discriminate; [reflexivity|].
  destruct (Ascii.compare c d); try reflexivity.
  apply IH. congruence.
Qed.

Lemma pad_compare k : forall a b,
  a < 10 ^ k -> b < 10 ^ k ->
  String.compare (JS.pad k a) (JS.pad k b) = Nat.compare a b.
Proof.
  induction k as [|k IH]; intros a b Ha Hb.
  - simpl in *. assert (a = 0) by lia. assert (b = 0) by lia. now subst.
  - cbn [JS.pad String.compare].
    assert (Hp : 0 < 10 ^ k) by (apply Nat.neq_0_lt_0, Nat.pow_nonzero; lia).
    rewrite Nat.pow_succ_r' in Ha, Hb.
    assert (Hqa : a / 10 ^ k < 10) by (apply Nat.Div0.div_lt_upper_bound; lia).
    assert (Hqb : b / 10 ^ k < 10) by (apply Nat.Div0.div_lt_upper_bound; lia).
    assert (Hra : a mod 10 ^ k < 10 ^ k) by (apply Nat.mod_upper_bound; lia).
    assert (Hrb : b mod 10 ^ k < 10 ^ k) by (apply Nat.mod_upper_bound; lia).
    pose proof (Nat.div_mod_eq a (10 ^ k)) as Ea.
    pose proof (Nat.div_mod_eq b (10 ^ k)) as Eb.
    rewrite digit_compare by assumption.
    rewrite IH by assumption.
    destruct (Nat.compare_spec (a / 10 ^ k) (b / 10 ^ k)) as [E|L|G].
    + destruct (Nat.compare_spec (a mod 10 ^ k) (b mod 10 ^ k));
        symmetry; [apply Nat.compare_eq_iff | apply Nat.compare_lt_iff
                  | apply Nat.compare_gt_iff]; nia.
    + symmetry. apply Nat.compare_lt_iff. nia.
    + symmetry. apply Nat.compare_gt_iff. nia.
Qed.

Lemma append_empty_r s : (s ++ "")%string = s.
Proof.
  induction s as [|c s IH]; cbn [String.append]; [reflexivity|].
  now rewrite IH.
Qed.

Lemma split_T_0_pad k : forall n r,
  JS.split_T_0 (JS.pad k n ++ r) = (JS.pad k n ++ JS.split_T_0 r)%string.
Proof.
  induction k as [|k IH]; intros n r; cbn [JS.pad String.append JS.split_T_0];
    [reflexivity|].
  rewrite digit_not_T. now rewrite IH.
Qed.

End Digits.

(** ** The date strings order as the dates do *)

Section DateOrder.

Lemma ymd_compare y m d y' m' d' :
  y < 10 ^ 4 -> y' < 10 ^ 4 -> m < 10 ^ 2 -> m' < 10 ^ 2 ->
  d < 10 ^ 2 -> d' < 10 ^ 2 ->
  String.compare (JS.ymd y m d) (JS.ymd y' m' d') =
  match Nat.compare y y' with
  | Eq => match Nat.compare m m' with
          | Eq => Nat.compare d d'
          | c => c
          end
  | c => c
  end.
Proof.
  intros Hy Hy' Hm Hm' Hd Hd'. unfold JS.ymd.
  rewrite compare_app by now rewrite !pad_length.
  rewrite pad_compare by assumption.
  destruct (Nat.compare y y'); try reflexivity.
  change (String.compare ("-" ++ JS.pad 2 m ++ "-" ++ JS.pad 2 d)
            ("-" ++ JS.pad 2 m' ++ "-" ++ JS.pad 2 d'))
    with (String.compare (JS.pad 2 m ++ "-" ++ JS.pad 2 d)
            (JS.pad 2 m' ++ "-" ++ JS.pad 2 d')).
  rewrite compare_app by now rewrite !pad_length.
  rewrite pad_compare by assumption.
  destruct (Nat.compare m m'); try reflexivity.
  change (String.compare ("-" ++ JS.pad 2 d) ("-" ++ JS.pad 2 d'))
    with (String.compare (JS.pad 2 d) (JS.pad 2 d')).
  now apply pad_compare.
Qed.

Lemma valid_date_bounds t :
  valid_date t ->
  JS.year t < 10 ^ 4 /\ JS.month t < 10 ^ 2 /\ JS.day t < 10 ^ 2.
Proof.
  unfold valid_date. intros (Hy & Hm & Hd).
  change (10 ^ 2) with 100. repeat split; [assumption | lia | lia].
Qed.

(** [toISOString().split('T')[0]] is the calendar date, whatever the time of
    day. *)
Lemma currentDateOf_dateString now :
  JS.year now < 10 ^ 4 -> JS.currentDateOf now = dateString now.
Proof.
  intros Hy. unfold JS.currentDateOf, JS.toISOString, dateString, JS.ymd.
  apply Nat.ltb_lt in Hy. rewrite Hy.
  rewrite split_T_0_pad. cbn [String.append JS.split_T_0 Ascii.eqb].
  change (Ascii.eqb "-" "T") with false. cbv iota.
  rewrite split_T_0_pad. cbn [String.append JS.split_T_0].
  change (Ascii.eqb "-" "T") with false. cbv iota.
  rewrite split_T_0_pad. cbn [String.append JS.split_T_0].
  change (Ascii.eqb "T" "T") with true. cbv iota.
  now rewrite append_empty_r.
Qed.

Lemma dateString_gt a b :
  valid_date a -> valid_date b ->
  JS.str_gt (dateString a) (dateString b) = true <-> day_before b a.
Proof.
  intros Ha Hb.
  destruct (valid_date_bounds _ Ha) as (Hy & Hm & Hd).
  destruct (valid_date_bounds _ Hb) as (Hy' & Hm' & Hd').
  unfold JS.str_gt, String.ltb, dateString, day_before.
  rewrite ymd_compare by assumption.
  destruct (Nat.compare_spec (JS.year b) (JS.year a));
    destruct (Nat.compare_spec (JS.month b) (JS.month a));
    destruct (Nat.compare_spec (JS.day b) (JS.day a));
    split; intros; try discriminate; try reflexivity; try lia.
Qed.

Lemma str_le_not_gt a b : JS.str_le a b = negb (JS.str_gt a b).
Proof.
  unfold JS.str_le, JS.str_gt, String.leb, String.ltb.
  rewrite (String.compare_antisym a b).
  now destruct (String.compare b a).
Qed.

End DateOrder.

(** ** Numbers: signs *)

Section Numbers.
Open Scope Z_scope.

Lemma nonneg_round_aux m e l :
  nonneg (binary_round_aux JS.prec JS.emax false m e l).
Proof.
  unfold binary_round_aux.
  destruct (shr_fexp JS.prec JS.emax m e l) as [mrs' e'].
  destruct (shr_fexp JS.prec JS.emax _ e' loc_Exact) as [mrs'' e''].
  destruct (shr_m mrs''); cbn; trivial.
  match goal with |- context [if ?c then _ else _] => destruct c end; exact I.
Qed.

Lemma nonneg_round m e : nonneg (binary_round JS.prec JS.emax false m e).
Proof.
  unfold binary_round.
  destruct (shl_align m e _) as [mz ez]. apply nonneg_round_aux.
Qed.

Lemma nonneg_of_int z : 0 <= z -> nonneg (JS.of_int z).
Proof.
  intros Hz. unfold JS.of_int, binary_normalize.
  destruct z as [|p|p]; [exact I | apply nonneg_round | lia].
Qed.

Lemma lit_0_2_value : JS.lit_0_2 = S754_finite false 7205759403792794 (-55).
Proof. vm_compute. reflexivity. Qed.

Lemma nonneg_mul_lit x : nonneg x -> nonneg (JS.mul x JS.lit_0_2).
Proof.
  rewrite lit_0_2_value. unfold JS.mul, SFmul.
  destruct x as [[]|[]| |[] m e]; cbn; try tauto.
  intros _. apply nonneg_round_aux.
Qed.

Lemma nonneg_floor x : nonneg x -> nonneg (JS.Math_floor x).
Proof.
  destruct x as [[]|[]| |[] m e]; cbn; try tauto.
  intros _.
  destruct (0 <=? e); [exact I|].
  cbn [JS.signed].
  destruct (Z.shiftr (Z.pos m) (- e) =? 0) eqn:E; [exact I|].
  apply nonneg_of_int, Z.shiftr_nonneg. lia.
Qed.

Lemma nonneg_add x y : nonneg x -> nonneg y -> nonneg (JS.add x y).
Proof.
  unfold JS.add, SFadd.
  destruct x as [[]|[]| |[] mx ex]; destruct y as [[]|[]| |[] my ey]; cbn;
    try tauto.
  intros _ _.
  apply nonneg_round.
Qed.

Lemma trunc_nonneg x n : nonneg x -> JS.trunc x = Some n -> 0 <= n.
Proof.
  destruct x as [[]|[]| |[] m e]; cbn; try discriminate; try tauto.
  - intros _ [= <-]. lia.
  - intros _ [= <-]. lia.
  - intros _. cbn [JS.signed].
    destruct (0 <=? e) eqn:E; intros [= <-].
    + apply Z.shiftl_nonneg. lia.
    + apply Z.shiftr_nonneg. lia.
Qed.

Lemma maxLimit_nonneg q n :
  1 <= q -> JS.trunc (SalesRoutes.maxLimitOf q) = Some n -> 0 <= n.
Proof.
  intros Hq. apply trunc_nonneg.
  unfold SalesRoutes.maxLimitOf, SalesRoutes.extraOf.
  apply nonneg_add; [apply nonneg_of_int; lia|].
  apply nonneg_floor, nonneg_mul_lit, nonneg_of_int. lia.
Qed.
End Numbers.

(** ** Numbers: integers below 2^53 are exact *)

Section Exact.
Open Scope Z_scope.

Lemma digits2_iter_xO k : forall p,
  digits2_pos (Pos.iter xO p k) = (digits2_pos p + k)%positive.
Proof.
  induction k as [|k IH] using Pos.peano_ind; intros p.
  - cbn. now rewrite Pos.add_1_r.
  - rewrite Pos.iter_succ. cbn [digits2_pos]. rewrite IH.
    now rewrite Pos.add_succ_r.
Qed.

Lemma digits2_lower p : 2 ^ (Z.pos (digits2_pos p) - 1) <= Z.pos p.
Proof.
  induction p as [p IH|p IH|]; cbn [digits2_pos].
  - rewrite Pos2Z.inj_succ.
    replace (Z.succ (Z.pos (digits2_pos p)) - 1) with (Z.succ (Z.pos (digits2_pos p) - 1)) by lia.
    rewrite Z.pow_succ_r by lia. lia.
  - rewrite Pos2Z.inj_succ.
    replace (Z.succ (Z.pos (digits2_pos p)) - 1) with (Z.succ (Z.pos (digits2_pos p) - 1)) by lia.
    rewrite Z.pow_succ_r by lia. lia.
  - cbn. lia.
Qed.

Lemma digits2_le_53 p : Z.pos p < 2 ^ 53 -> Z.pos (digits2_pos p) <= 53.
Proof.
  intros Hp. destruct (Z_le_gt_dec (Z.pos (digits2_pos p)) 53) as [L|G]; [exact L|].
  pose proof (digits2_lower p) as Hl.
  assert (2 ^ 53 <= 2 ^ (Z.pos (digits2_pos p) - 1)) by (apply Z.pow_le_mono_r; lia).
  lia.
Qed.

Lemma round_aux_exact m e :
  Z.pos (digits2_pos m) = 53 -> -52 <= e <= 0 ->
  binary_round_aux JS.prec JS.emax false (Z.pos m) e loc_Exact = S754_finite false m e.
Proof.
  intros Hd He.
  assert (Hs : shr_fexp JS.prec JS.emax (Z.pos m) e loc_Exact
               = ({| shr_m := Z.pos m; shr_r := false; shr_s := false |}, e)).
  { unfold shr_fexp, Zdigits2. rewrite Hd. unfold fexp, emin, JS.prec, JS.emax.
    replace (Z.max (53 + e - 53) (3 - 1024 - 53) - e) with 0 by lia.
    reflexivity. }
  unfold binary_round_aux. rewrite Hs.
  cbn [shr_m loc_of_shr_record round_nearest_even]. rewrite Hs. cbn [shr_m].
  unfold JS.emax, JS.prec.
  destruct (e <=? 1024 - 53) eqn:E; [reflexivity|]. apply Z.leb_gt in E. lia.
Qed.

Lemma of_int_pos p :
  Z.pos p < 2 ^ 53 ->
  exists m e, JS.of_int (Z.pos p) = S754_finite false m e
              /\ -52 <= e <= 0 /\ Z.pos m = Z.pos p * 2 ^ (- e).
Proof.
  intros Hp. pose proof (digits2_le_53 p Hp) as Hd.
  unfold JS.of_int, binary_normalize, binary_round, shl_align.
  unfold fexp, emin, JS.prec, JS.emax.
  replace (Z.max (Z.pos (digits2_pos p) + 0 - 53) (3 - 1024 - 53) - 0)
    with (Z.pos (digits2_pos p) - 53) by lia.
  replace (Z.max (Z.pos (digits2_pos p) + 0 - 53) (3 - 1024 - 53))
    with (Z.pos (digits2_pos p) - 53) by lia.
  destruct (Z.pos (digits2_pos p) - 53) as [|k|k] eqn:Ek; [|lia|].
  - exists p, 0. split; [|split; [lia|cbn; lia]].
    apply (round_aux_exact p 0); lia.
  - exists (Pos.iter xO p k), (Z.neg k). split; [|split; [lia|]].
    + apply (round_aux_exact (Pos.iter xO p k) (Z.neg k)); [|lia].
      rewrite digits2_iter_xO. lia.
    + change (Pos.iter xO p k) with (shift_pos k p).
      rewrite shift_pos_correct. cbn [Z.opp]. rewrite Z.pow_pos_fold. lia.
Qed.

Lemma trunc_of_int z :
  0 <= z < 2 ^ 53 -> JS.trunc (JS.of_int z) = Some z.
Proof.
  intros [H0 H1]. destruct z as [|p|p]; [reflexivity| |lia].
  destruct (of_int_pos p H1) as (m & e & -> & He & Hm).
  cbn [JS.trunc JS.signed].
  destruct (0 <=? e) eqn:E.
  - apply Z.leb_le in E. assert (e = 0) by lia. subst e.
    cbn in Hm. rewrite Z.shiftl_0_r. f_equal. lia.
  - rewrite Hm, Z.shiftr_div_pow2 by lia.
    rewrite Z.div_mul; [reflexivity|]. apply Z.pow_nonzero; lia.
Qed.
End Exact.

(** ** Queries *)

Section Queries.

Context {A : Type}.

Lemma insert_by_length (key : A -> Z) asc x l :
  List.length (insert_by key asc x l) = S (List.length l).
Proof.
  induction l as [|y r IH]; cbn [insert_by]; [reflexivity|].
  destruct (if asc then _ else _); cbn [List.length]; [reflexivity|].
  now rewrite IH.
Qed.

Lemma order_by_length (key : A -> Z) asc l :
  List.length (order_by key asc l) = List.length l.
Proof.
  induction l as [|x r IH]; cbn [order_by fold_right]; [reflexivity|].
  fold (order_by key asc r). now rewrite insert_by_length, IH.
Qed.



Lemma slice0_all (l : list A) k z :
  JS.trunc k = Some z -> (Z.of_nat (List.length l) <= z)%Z ->
  JS.slice0 l k = l.
Proof.
  intros Hk Hz. unfold JS.slice0. rewrite Hk.
  assert (Hn : (z <? 0)%Z = false) by (apply Z.ltb_ge; lia).
  rewrite Hn.
  destruct k as [s|s| |s m e]; try discriminate; apply firstn_all2; lia.
Qed.

End Queries.

Lemma single_Some {A} (rows : list A) r : single rows = Some r -> rows = [r].
Proof.
  destruct rows as [|x [|y t]]; cbn; congruence.
Qed.

Lemma Math_min_cases a b z :
  JS.trunc a = Some z ->
  JS.Math_min a (JS.of_int b) = a \/ JS.Math_min a (JS.of_int b) = JS.of_int b.
Proof.
  intros Ha. unfold JS.Math_min.
  destruct a as [s|s| |s m e]; try discriminate;
    destruct (JS.of_int b) as [s'|s'| |s' m' e']; auto;
    destruct (SFltb _ _); auto.
Qed.

(** ** The selection route *)

Section AutoSelectLemmas.



Lemma autoSelectSchema_range q :
  autoSelectSchema q = true -> (1 <= q <= 9007199254740991)%Z.
Proof.
  unfold autoSelectSchema. intros H. apply andb_prop in H as [H1 H2].
  apply Z.leb_le in H1, H2. lia.
Qed.

Lemma limit_firstn {A} (l : list A) k n :
  JS.trunc k = Some n -> limit k l = firstn (Z.to_nat n) l.
Proof. intros H. unfold limit. now rewrite H. Qed.

(** What the route answers once the configuration is found. *)
Lemma auto_select_lots_found st sales_config_id q salesConfig n :
  sales_configuration_by_id st sales_config_id = Some salesConfig ->
  JS.trunc (maxLimitOf q) = Some n ->
  (1 <= q)%Z ->
  (Z.of_nat (List.length (inventory_table st)) < 2 ^ 53)%Z ->
  let returned :=
    firstn (Z.to_nat n)
      (order_by Inventory.created_at true (matchingLots st salesConfig)) in
  exists d,
    data (auto_select_lots st sales_config_id q) = Some d
    /\ AutoSelect.auto_selected d = returned
    /\ AutoSelect.available_lots d = returned
    /\ AutoSelect.out_of_stock d = match returned with [] => true | _ => false end.
Proof.
  intros Hcfg Hn Hq Hsize returned.
  pose proof (maxLimit_nonneg q n Hq Hn) as Hn0.
  unfold auto_select_lots. rewrite Hcfg.
  change (JS.add (JS.of_int q) (JS.Math_floor (JS.mul (JS.of_int q) JS.lit_0_2)))
    with (maxLimitOf q).
  rewrite (limit_firstn _ _ n Hn). fold returned.
  destruct returned as [|x r] eqn:Er.
  - eexists. cbn. repeat split.
  - eexists. cbn [data AutoSelect.auto_selected AutoSelect.available_lots
                  AutoSelect.out_of_stock].
    repeat split.
    assert (Hlen : (Z.of_nat (List.length (x :: r)) <= n)%Z).
    { rewrite <- Er. subst returned. rewrite length_firstn. lia. }
    assert (Hlen53 : (Z.of_nat (List.length (x :: r)) < 2 ^ 53)%Z).
    { rewrite <- Er. subst returned. rewrite length_firstn, order_by_length.
      unfold matchingLots.
      assert (forall (v : option string) (col : Inventory.t -> string) rows,
                 List.length (eq_if_truthy col v rows) <= List.length rows) as Hf.
      { intros [s|] col rows; cbn; [|lia].
        destruct (JS.truthy_str s); [apply filter_length_le | lia]. }
      pose proof (filter_length_le
                    (fun l => InventoryStatus_eqb (Inventory.status l) AVAILABLE)
                    (inventory_table st)) as H0.
      destruct (SalesConfig.line_specs salesConfig) as [specs|].
      - pose proof (Hf (SalesConfig.priority_branch salesConfig) Inventory.branch
                      (eq_if_truthy Inventory.variety (LineSpecs.variety specs)
                         (eq_if_truthy Inventory.fibre_length (LineSpecs.fibre_length specs)
                            (filter (fun l => InventoryStatus_eqb (Inventory.status l) AVAILABLE)
                               (inventory_table st))))) as H1.
        pose proof (Hf (LineSpecs.variety specs) Inventory.variety
                         (eq_if_truthy Inventory.fibre_length (LineSpecs.fibre_length specs)
                            (filter (fun l => InventoryStatus_eqb (Inventory.status l) AVAILABLE)
                               (inventory_table st)))) as H2.
        pose proof (Hf (LineSpecs.fibre_length specs) Inventory.fibre_length
                            (filter (fun l => InventoryStatus_eqb (Inventory.status l) AVAILABLE)
                               (inventory_table st))) as H3.
        lia.
      - pose proof (Hf (SalesConfig.priority_branch salesConfig) Inventory.branch
                            (filter (fun l => InventoryStatus_eqb (Inventory.status l) AVAILABLE)
                               (inventory_table st))) as H1.
        lia. }
    destruct (Math_min_cases (maxLimitOf q) (Z.of_nat (List.length (x :: r))) n Hn)
      as [E|E]; unfold JS.of_length; rewrite E.
    + now apply (slice0_all _ _ n).
    + apply (slice0_all _ _ (Z.of_nat (List.length (x :: r)))); [|lia].
      apply trunc_of_int. lia.
Qed.

End AutoSelectLemmas.

(** ** The draft route *)

Section SaveDraftLemmas.

Lemma update_where_In {A} (p : A -> bool) (f : A -> A) rows r' :
  In r' (update_where p f rows) ->
  exists r, In r rows /\ r' = (if p r then f r else r).
Proof.
  unfold update_where. intros H. apply in_map_iff in H as (r & <- & Hr).
  now exists r.
Qed.

(** The effect of [save-draft] on each table once the order and its broker
    are found. *)
Lemma save_draft_found st now user new_id sales_config_id selected_lots notes
    salesConfig broker :
  sales_configuration_by_id st sales_config_id = Some salesConfig ->
  broker_of st (SalesConfig.broker_id salesConfig) = Some broker ->
  let out := save_draft st now user new_id sales_config_id selected_lots notes in
  let lots := filter (fun l => mem (Inventory.id l) selected_lots) (inventory_table st) in
  code (snd out) = 201
  /\ success (snd out) = true
  /\ inventory_table (fst out)
     = update_where (fun l => mem (Inventory.id l) selected_lots)
         (Inventory.set_status_at BLOCKED (JS.toISOString now)) (inventory_table st)
  /\ sales_table (fst out)
     = sales_table st ++ [draft_of st user new_id sales_config_id selected_lots broker]
  /\ lot_selected_contract (fst out)
     = lot_selected_contract st
       ++ map (fun lot =>
                 {| LotSelection.sales_id := new_id;
                    LotSelection.inventory_id := Inventory.id lot;
                    LotSelection.lot_number := Inventory.lot_number lot;
                    LotSelection.indent_number := Inventory.indent_number lot;
                    LotSelection.quantity := 1;
                    LotSelection.price := JS.or_zero (Inventory.bid_price lot);
                    LotSelection.status := SELECTED |}) lots
  /\ sales_configuration (fst out)
     = update_where (fun c => String.eqb (SalesConfig.id c) sales_config_id)
         (SalesConfig.set_status_at processing (JS.toISOString now))
         (sales_configuration st)
  /\ customer_assignment_table (fst out) = customer_assignment_table st.
Proof.
  intros Hcfg Hbroker. unfold save_draft. rewrite Hcfg, Hbroker.
  cbv zeta. repeat (split; [reflexivity|]). reflexivity.
Qed.

Lemma save_draft_not_found st now user new_id sales_config_id selected_lots notes :
  (sales_configuration_by_id st sales_config_id = None
   \/ exists salesConfig,
        sales_configuration_by_id st sales_config_id = Some salesConfig
        /\ broker_of st (SalesConfig.broker_id salesConfig) = None) ->
  let out := save_draft st now user new_id sales_config_id selected_lots notes in
  fst out = st /\ success (snd out) = false
  /\ (code (snd out) = 404 \/ code (snd out) = 500).
Proof.
  unfold save_draft. intros [Hcfg | (salesConfig & Hcfg & Hbroker)].
  - rewrite Hcfg. cbv zeta. repeat split; auto.
  - rewrite Hcfg, Hbroker. cbv zeta. repeat split; auto.
Qed.

End SaveDraftLemmas.

(** ** Tables and responses *)

Section Tables.

Context {A : Type}.

Lemma insert_by_In (key : A -> Z) asc x y l :
  In y (insert_by key asc x l) <-> y = x \/ In y l.
Proof.
  induction l as [|z r IH]; cbn [insert_by].
  - cbn. intuition.
  - destruct (if asc then _ else _); cbn [In]; [intuition|].
    rewrite IH. intuition.
Qed.

Lemma order_by_In (key : A -> Z) asc y l :
  In y (order_by key asc l) <-> In y l.
Proof.
  induction l as [|x r IH]; cbn [order_by fold_right]; [tauto|].
  fold (order_by key asc r). rewrite insert_by_In, IH. cbn. intuition.
Qed.

Lemma filter_update_where (sel p : A -> bool) (f : A -> A) rows :
  (forall r, sel (f r) = sel r) ->
  filter sel (update_where p f rows) = update_where p f (filter sel rows).
Proof.
  intros Hf. unfold update_where.
  induction rows as [|r t IH]; cbn [map filter]; [reflexivity|].
  destruct (p r) eqn:Ep.
  - rewrite Hf. destruct (sel r); cbn [map]; rewrite ?Ep, IH; reflexivity.
  - destruct (sel r); cbn [map]; rewrite ?Ep, IH; reflexivity.
Qed.

Lemma single_In (rows : list A) (sel : A -> bool) r :
  single (filter sel rows) = Some r -> In r rows /\ sel r = true.
Proof.
  intros H. apply single_Some in H.
  apply filter_In. rewrite H. now left.
Qed.

Lemma mem_In x ids : mem x ids = true <-> In x ids.
Proof.
  unfold mem. rewrite existsb_exists. split.
  - intros (y & Hy & E). apply String.eqb_eq in E. now subst.
  - intros H. exists x. split; [assumption | apply String.eqb_refl].
Qed.

End Tables.

Section Responses.

Lemma assignment_by_id_In st aid a :
  assignment_by_id st aid = Some a ->
  In a (customer_assignment_table st) /\ Assignment.id a = aid.
Proof.
  intros H. apply single_In in H as [Hin Hid].
  split; [assumption | now apply String.eqb_eq].
Qed.

Lemma assignment_by_id_updated st aid a p f :
  assignment_by_id st aid = Some a ->
  (forall r, Assignment.id (f r) = Assignment.id r) ->
  assignment_by_id (with_assignments (update_where p f) st) aid
  = Some (if p a then f a else a).
Proof.
  intros H Hf. unfold assignment_by_id in *. cbn [customer_assignment_table with_assignments].
  rewrite filter_update_where by (intros r; now rewrite Hf).
  apply single_Some in H. rewrite H. reflexivity.
Qed.

(** The helper writes only the webhook outbox and the audit log. *)
Lemma checkAndTriggerConfirmation_tables st salesId user :
  let st' := checkAndTriggerConfirmation st salesId user in
  inventory_table st' = inventory_table st
  /\ sales_configuration st' = sales_configuration st
  /\ customer_info st' = customer_info st
  /\ broker_info st' = broker_info st
  /\ sales_table st' = sales_table st
  /\ lot_selected_contract st' = lot_selected_contract st
  /\ customer_assignment_table st' = customer_assignment_table st.
Proof.
  cbv zeta. unfold checkAndTriggerConfirmation.
  destruct (single _) as [salesInfo|]; [|repeat split].
  destruct (configuration_of _ _) as [cfg|]; [|repeat split].
  destruct (_ <=? _)%Z; repeat split.
Qed.

(** The checks of a response, in the order the routes make them. *)
Lemma respond_cases st now user aid d :
  let out := respond st now user aid d in
  match assignment_by_id st aid with
  | None => out = (st, failure 404 "Assignment not found")
  | Some a =>
      if negb (opt_eqb (Some (Assignment.customer_id a)) (customerIdOf st user))
      then out = (st, failure 403 "Not authorized to modify this assignment")
      else if JS.str_gt (JS.currentDateOf now) (Assignment.window_end_date a)
      then out = (st, failure 400 "Assignment window has expired")
      else if negb (LotStatus_eqb (Assignment.lot_status a) PENDING)
      then out = (st, failure 400 "Assignment has already been responded to")
      else
        let a' := Assignment.respond (resolved d) (User.id user) (JS.toISOString now) a in
        out = (match d with
               | Accept => checkAndTriggerConfirmation (recorded st now user a d)
                             (Assignment.sales_id a) user
               | Reject => recorded st now user a d
               end,
               {| code := 200; success := true;
                  message := Some (match d with
                                   | Accept => "Lot accepted successfully"
                                   | Reject => "Lot rejected successfully"
                                   end);
                  data := Some a' |})
  end.
Proof.
  cbv zeta.
  destruct (assignment_by_id st aid) as [a|] eqn:Ha.
  2:{ destruct d; unfold respond, accept, reject; now rewrite Ha. }
  destruct (assignment_by_id_In _ _ _ Ha) as [_ Hid].
  destruct (negb (opt_eqb _ _)) eqn:Hown.
  { destruct d; unfold respond, accept, reject; now rewrite Ha, Hown. }
  destruct (JS.str_gt _ _) eqn:Hwin.
  { destruct d; unfold respond, accept, reject; now rewrite Ha, Hown, Hwin. }
  destruct (negb (LotStatus_eqb _ _)) eqn:Hst.
  { destruct d; unfold respond, accept, reject; now rewrite Ha, Hown, Hwin, Hst. }
  destruct d; unfold respond, accept, reject; rewrite Ha, Hown, Hwin, Hst;
    rewrite (assignment_by_id_updated st aid a _ _ Ha) by reflexivity;
    subst aid; rewrite String.eqb_refl; reflexivity.
Qed.

End Responses.

Section ResponseFacts.

Lemma LotStatus_eqb_eq a b : LotStatus_eqb a b = true <-> a = b.
Proof. destruct a, b; cbn; split; congruence. Qed.

Lemma opt_eqb_Some c x : opt_eqb (Some c) x = true <-> x = Some c.
Proof.
  destruct x as [y|]; cbn; [|split; discriminate].
  rewrite String.eqb_eq. split; congruence.
Qed.

Lemma assignment_by_id_ext st1 st2 aid :
  customer_assignment_table st1 = customer_assignment_table st2 ->
  assignment_by_id st1 aid = assignment_by_id st2 aid.
Proof. unfold assignment_by_id. now intros ->. Qed.

(** A response that fails leaves the store as it was. *)
Lemma respond_failure_unchanged st now user aid d :
  success (snd (respond st now user aid d)) = false ->
  fst (respond st now user aid d) = st.
Proof.
  pose proof (respond_cases st now user aid d) as H. cbv zeta in H.
  destruct (assignment_by_id st aid) as [a|]; [|now rewrite H].
  destruct (negb (opt_eqb _ _)); [now rewrite H|].
  destruct (JS.str_gt _ _); [now rewrite H|].
  destruct (negb (LotStatus_eqb _ _)); [now rewrite H|].
  rewrite H. cbn [fst snd success]. discriminate.
Qed.

End ResponseFacts.

(** ** The listing and its auto-expire block *)

Section Sweep.

Lemma single_unique {A} (sel : A -> bool) rows r x :
  single (filter sel rows) = Some r -> In x rows -> sel x = true -> x = r.
Proof.
  intros H Hx Hs. apply single_Some in H.
  assert (Hin : In x (filter sel rows)) by (apply filter_In; auto).
  rewrite H in Hin. destruct Hin as [E|[]]. now symmetry.
Qed.

Lemma lots_store st now user customerId :
  customerIdOf st user = Some customerId ->
  fst (lots st now user)
  = match overdue st now customerId with
    | [] => st
    | _ :: _ =>
        with_inventory
          (update_where
             (fun l => mem (Inventory.id l)
                         (map Assignment.inventory_id (overdue st now customerId)))
             (Inventory.set_status AVAILABLE))
          (with_assignments
             (update_where
                (fun a => mem (Assignment.id a)
                            (map Assignment.id (overdue st now customerId)))
                (Assignment.expire (JS.toISOString now))) st)
    end.
Proof.
  intros Hc. unfold lots.
  change (if negb (String.eqb (User.role user) "customer")
          then option_map CustomerInfo.id (customerInfoOf st user)
          else Some (User.id user)) with (customerIdOf st user).
  rewrite Hc. reflexivity.
Qed.

Lemma lots_listing st now user customerId :
  customerIdOf st user = Some customerId ->
  exists listing,
    data (snd (lots st now user)) = Some listing
    /\ Listing.active listing
       = filter (fun a => isPending a && isWithinWindow (JS.currentDateOf now) a)
                (assignments_of st customerId)
    /\ Listing.expired listing
       = map (Assignment.expire (JS.toISOString now)) (overdue st now customerId).
Proof.
  intros Hc. unfold lots.
  change (if negb (String.eqb (User.role user) "customer")
          then option_map CustomerInfo.id (customerInfoOf st user)
          else Some (User.id user)) with (customerIdOf st user).
  rewrite Hc. eexists. cbn [snd data Listing.active Listing.expired].
  repeat split.
Qed.

Lemma assignments_of_In st customerId a :
  In a (assignments_of st customerId)
  <-> In a (customer_assignment_table st) /\ Assignment.customer_id a = customerId.
Proof.
  unfold assignments_of. rewrite order_by_In, filter_In, String.eqb_eq. tauto.
Qed.

End Sweep.

(** * Lemmas for the further properties *)

(** ** Order and membership of query results *)

Section Ordering.

Context {A : Type} (key : A -> Z) (ascending : bool).

Lemma insert_by_sorted x l :
  StronglySorted (in_order key ascending) l ->
  StronglySorted (in_order key ascending) (insert_by key ascending x l).
Proof.
  induction l as [|y r IH]; intros Hs; cbn [insert_by].
  - constructor; [constructor | constructor].
  - apply StronglySorted_inv in Hs as [Hr Hy].
    destruct (if ascending then _ else _) eqn:E.
    + constructor; [constructor; assumption|].
      assert (Hxy : in_order key ascending x y).
      { unfold in_order. destruct ascending; apply Z.ltb_lt in E; lia. }
      constructor; [exact Hxy|].
      rewrite Forall_forall in *. intros z Hz. specialize (Hy z Hz).
      unfold in_order in *. destruct ascending; lia.
    + constructor; [apply IH; assumption|].
      rewrite Forall_forall in *. intros z Hz.
      apply insert_by_In in Hz as [->|Hz]; [|apply Hy; assumption].
      unfold in_order. destruct ascending; apply Z.ltb_ge in E; lia.
Qed.

Lemma order_by_sorted l :
  StronglySorted (in_order key ascending) (order_by key ascending l).
Proof.
  induction l as [|x r IH]; cbn [order_by fold_right]; [constructor|].
  apply insert_by_sorted. exact IH.
Qed.

End Ordering.

Section Sublists.

Context {A : Type}.

Lemma In_firstn n (l : list A) x : In x (firstn n l) -> In x l.
Proof.
  intros H. rewrite <- (firstn_skipn n l). apply in_or_app. now left.
Qed.

Lemma sorted_firstn (R : A -> A -> Prop) n l :
  StronglySorted R l -> StronglySorted R (firstn n l).
Proof.
  revert l. induction n as [|n IH]; intros [|x r] Hs; cbn [firstn];
    try constructor.
  - apply IH. now apply StronglySorted_inv in Hs.
  - apply StronglySorted_inv in Hs as [_ Hx].
    rewrite Forall_forall in *. intros z Hz. apply Hx.
    now apply (In_firstn n).
Qed.

Lemma sorted_filter (R : A -> A -> Prop) p l :
  StronglySorted R l -> StronglySorted R (filter p l).
Proof.
  induction l as [|x r IH]; intros Hs; cbn [filter]; [constructor|].
  apply StronglySorted_inv in Hs as [Hr Hx].
  destruct (p x); [|now apply IH].
  constructor; [now apply IH|].
  rewrite Forall_forall in *. intros z Hz. apply filter_In in Hz as [Hz _]. now apply Hx.
Qed.

Lemma sorted_split (R : A -> A -> Prop) l1 : forall l2,
  StronglySorted R (l1 ++ l2) ->
  forall x y, In x l1 -> In y l2 -> R x y.
Proof.
  induction l1 as [|a l1 IH]; intros l2 Hs x y Hx Hy; [contradiction|].
  cbn [app] in Hs. apply StronglySorted_inv in Hs as [Hr Ha].
  destruct Hx as [->|Hx].
  - rewrite Forall_forall in Ha. apply Ha, in_or_app. now right.
  - now apply (IH l2).
Qed.

Lemma slice0_In (l : list A) k x : In x (JS.slice0 l k) -> In x l.
Proof.
  unfold JS.slice0.
  destruct k as [s|[]| |s m e]; cbn [In]; try tauto;
    destruct (JS.trunc _) as [z|]; cbn [In]; try tauto;
    destruct (z <? 0)%Z; apply In_firstn.
Qed.

Lemma slice0_sorted (R : A -> A -> Prop) (l : list A) k :
  StronglySorted R l -> StronglySorted R (JS.slice0 l k).
Proof.
  intros Hs. unfold JS.slice0.
  destruct k as [s|[]| |s m e]; try constructor; try assumption;
    destruct (JS.trunc _) as [z|]; try constructor;
    destruct (z <? 0)%Z; now apply sorted_firstn.
Qed.

Lemma limit_In (l : list A) k x : In x (limit k l) -> In x l.
Proof.
  unfold limit. destruct (JS.trunc k); [|tauto].
  apply In_firstn.
Qed.

Lemma limit_sorted (R : A -> A -> Prop) (l : list A) k :
  StronglySorted R l -> StronglySorted R (limit k l).
Proof.
  intros Hs. unfold limit. destruct (JS.trunc k); [now apply sorted_firstn | exact Hs].
Qed.

End Sublists.

(** ** The lots a selection offers *)

Section Offered.

Lemma eq_if_truthy_In {A} (col : A -> string) v rows l :
  In l (eq_if_truthy col v rows) <-> In l rows /\ wants v (col l).
Proof.
  unfold eq_if_truthy, wants. destruct v as [s|]; [|tauto].
  destruct (JS.truthy_str s); [|tauto].
  rewrite filter_In, String.eqb_eq. tauto.
Qed.

Lemma InventoryStatus_eqb_eq a b : InventoryStatus_eqb a b = true <-> a = b.
Proof. destruct a, b; cbn; split; congruence. Qed.

Lemma matchingLots_In st salesConfig l :
  In l (matchingLots st salesConfig)
  <-> In l (inventory_table st)
      /\ Inventory.status l = AVAILABLE
      /\ meets salesConfig l.
Proof.
  unfold matchingLots, meets.
  destruct (SalesConfig.line_specs salesConfig) as [specs|];
    rewrite !eq_if_truthy_In, filter_In, InventoryStatus_eqb_eq; tauto.
Qed.

(** Whatever the limit evaluates to, the lots of the answer come from the
    query, in its order. *)
Lemma auto_select_lots_data st sales_config_id q d :
  data (auto_select_lots st sales_config_id q) = Some d ->
  exists salesConfig,
    sales_configuration_by_id st sales_config_id = Some salesConfig
    /\ (forall l, In l (AutoSelect.auto_selected d) ->
                  In l (AutoSelect.available_lots d))
    /\ (forall l, In l (AutoSelect.available_lots d) ->
                  In l (matchingLots st salesConfig))
    /\ AutoSelect.out_of_stock d
       = match AutoSelect.available_lots d with [] => true | _ => false end.
Proof.
  unfold auto_select_lots. intros Hd.
  destruct (sales_configuration_by_id st sales_config_id) as [salesConfig|];
    [|discriminate].
  exists salesConfig. split; [reflexivity|].
  destruct (limit _ _) as [|x r] eqn:El; injection Hd as <-;
    cbn [AutoSelect.auto_selected AutoSelect.available_lots AutoSelect.out_of_stock].
  - split; [intros l []|]. split; [intros l []|reflexivity].
  - split; [|split; [|reflexivity]].
    + intros l Hl. apply slice0_In in Hl. exact Hl.
    + intros l Hl. rewrite <- El in Hl. apply limit_In in Hl.
      now apply order_by_In in Hl.
Qed.

End Offered.

(** ** Distinct values and counting by identifier *)

Section Distinct.

Lemma distinct_In xs x : In x (JS.distinct xs) <-> In x xs.
Proof.
  induction xs as [|y r IH]; cbn [JS.distinct In]; [tauto|].
  rewrite filter_In, IH, negb_true_iff, String.eqb_neq.
  destruct (String.eqb_spec y x); [subst; tauto|]. tauto.
Qed.

Lemma distinct_NoDup xs : NoDup (JS.distinct xs).
Proof.
  induction xs as [|y r IH]; cbn [JS.distinct]; constructor.
  - rewrite filter_In, negb_true_iff, String.eqb_neq. tauto.
  - now apply NoDup_filter.
Qed.

Lemma NoDup_map_filter {A B} (f : A -> B) (p : A -> bool) l :
  NoDup (map f l) -> NoDup (map f (filter p l)).
Proof.
  induction l as [|x r IH]; cbn [map filter]; intros H; [constructor|].
  apply NoDup_cons_iff in H as [Hx Hr].
  destruct (p x); [|now apply IH].
  cbn [map]. constructor; [|now apply IH].
  intros Hin. apply Hx. apply in_map_iff in Hin as (y & Hy & Hin).
  apply filter_In in Hin as [Hin _]. apply in_map_iff. now exists y.
Qed.

Lemma filter_and_length {A} (p q : A -> bool) l :
  List.length (filter (fun x => p x && q x) l) <= List.length (filter p l).
Proof.
  induction l as [|x r IH]; cbn [filter]; [lia|].
  destruct (p x), (q x); cbn [andb List.length]; lia.
Qed.

(** Rows picked by identifier: with unique identifiers in the table, no more
    rows than distinct identifiers asked for. *)
Lemma picked_by_id_length {A} (id : A -> string) (p : A -> bool) ids rows :
  NoDup (map id rows) ->
  List.length (filter (fun r => mem (id r) ids && p r) rows)
  <= List.length (nodup string_dec ids).
Proof.
  intros Hu.
  rewrite <- (length_map id).
  apply NoDup_incl_length; [now apply NoDup_map_filter|].
  intros x Hx. apply in_map_iff in Hx as (r & <- & Hr).
  apply filter_In in Hr as [_ Hr]. apply andb_prop in Hr as [Hr _].
  apply nodup_In. now apply mem_In.
Qed.

(** With unique identifiers on both sides and every identifier present, the
    rows picked are as many as the identifiers. *)
Lemma picked_all_length {A} (id : A -> string) ids rows :
  NoDup (map id rows) -> NoDup ids ->
  (forall x, In x ids -> In x (map id rows)) ->
  List.length (filter (fun r => mem (id r) ids) rows) = List.length ids.
Proof.
  intros Hu Hids Hall.
  rewrite <- (length_map id).
  apply Permutation_length, NoDup_Permutation;
    [now apply NoDup_map_filter | assumption |].
  intros x. split.
  - intros Hx. apply in_map_iff in Hx as (r & <- & Hr).
    apply filter_In in Hr as [_ Hr]. now apply mem_In.
  - intros Hx. destruct (proj1 (in_map_iff _ _ _) (Hall x Hx)) as (r & <- & Hr).
    apply in_map, filter_In. split; [assumption | now apply mem_In].
Qed.

End Distinct.

(** ** The validation route *)

Section Validation.

Lemma manual_lot_selection_data st sales_config_id selected_lots d :
  data (manual_lot_selection st sales_config_id selected_lots) = Some d ->
  exists salesConfig,
    sales_configuration_by_id st sales_config_id = Some salesConfig
    /\ ManualSelect.selected_lots d
       = filter (fun l => mem (Inventory.id l) selected_lots
                          && InventoryStatus_eqb (Inventory.status l) AVAILABLE)
                (inventory_table st)
    /\ ManualSelect.total_selected d = List.length (ManualSelect.selected_lots d)
    /\ ManualSelect.required_minimum d = SalesConfig.requested_quantity salesConfig
    /\ (SalesConfig.requested_quantity salesConfig
        <= Z.of_nat (ManualSelect.total_selected d))%Z
    /\ ManualSelect.validation_passed d = true.
Proof.
  unfold manual_lot_selection. intros Hd.
  destruct (sales_configuration_by_id st sales_config_id) as [salesConfig|];
    [|discriminate].
  exists salesConfig. split; [reflexivity|].
  destruct (_ <? _)%Z eqn:E; [discriminate|].
  apply Z.ltb_ge in E. injection Hd as <-.
  cbn [ManualSelect.selected_lots ManualSelect.total_selected
       ManualSelect.required_minimum ManualSelect.validation_passed].
  repeat split. exact E.
Qed.

End Validation.

(** ** The listing *)

Section ListingFacts.

Lemma filter3_length {A} (p q : A -> bool) (l : list A) :
  List.length (filter (fun a => p a && q a) l)
  + List.length (filter (fun a => p a && negb (q a)) l)
  + List.length (filter (fun a => negb (p a)) l)
  = List.length l.
Proof.
  induction l as [|x r IH]; cbn [filter]; [reflexivity|].
  destruct (p x), (q x); cbn [andb negb List.length]; lia.
Qed.

Lemma customerIdOf_ext st1 st2 user :
  customer_info st1 = customer_info st2 ->
  customerIdOf st1 user = customerIdOf st2 user.
Proof.
  intros H. unfold customerIdOf, customerInfoOf. now rewrite H.
Qed.

Lemma lots_customer_info st now user :
  customer_info (fst (lots st now user)) = customer_info st.
Proof.
  unfold lots.
  destruct (if negb (String.eqb (User.role user) "customer")
            then option_map CustomerInfo.id (customerInfoOf st user)
            else Some (User.id user)) as [cid|]; [|reflexivity].
  cbn [fst]. destruct (filter _ _); reflexivity.
Qed.

(** The whole answer of the listing for a known customer. *)
Lemma lots_answer st now user customerId :
  customerIdOf st user = Some customerId ->
  let rows := assignments_of st customerId in
  let expire_in_place a :=
    if isPending a && negb (isWithinWindow (JS.currentDateOf now) a)
    then Assignment.expire (JS.toISOString now) a else a in
  snd (lots st now user)
  = {| code := 200; success := true; message := None;
       data := Some
         {| Listing.active :=
              filter (fun a => isPending a && isWithinWindow (JS.currentDateOf now) a) rows;
            Listing.expired :=
              map (Assignment.expire (JS.toISOString now)) (overdue st now customerId);
            Listing.responded := filter (fun a => negb (isPending a)) rows;
            Listing.total_assigned := List.length (map expire_in_place rows);
            Listing.total_accepted :=
              List.length (filter (fun a => LotStatus_eqb (Assignment.lot_status a) ACCEPTED)
                                  (map expire_in_place rows));
            Listing.total_rejected :=
              List.length (filter (fun a => LotStatus_eqb (Assignment.lot_status a) REJECTED)
                                  (map expire_in_place rows));
            Listing.total_pending :=
              List.length
                (filter (fun a => isPending a && isWithinWindow (JS.currentDateOf now) a) rows);
            Listing.total_expired := List.length (overdue st now customerId) |} |}.
Proof.
  intros Hc. unfold lots.
  change (if negb (String.eqb (User.role user) "customer")
          then option_map CustomerInfo.id (customerInfoOf st user)
          else Some (User.id user)) with (customerIdOf st user).
  rewrite Hc. reflexivity.
Qed.

Lemma count_after_expire now s rows :
  s <> EXPIRED -> s <> PENDING ->
  List.length
    (filter (fun a => LotStatus_eqb (Assignment.lot_status a) s)
       (map (fun a =>
               if isPending a && negb (isWithinWindow (JS.currentDateOf now) a)
               then Assignment.expire (JS.toISOString now) a else a) rows))
  = List.length (filter (fun a => LotStatus_eqb (Assignment.lot_status a) s) rows).
Proof.
  intros He Hp. induction rows as [|a r IH]; cbn [map filter]; [reflexivity|].
  unfold isPending at 1.
  destruct (Assignment.lot_status a) eqn:Es; cbn [LotStatus_eqb andb];
    try (rewrite Es; destruct s; cbn [LotStatus_eqb List.length]; congruence).
  destruct (negb _); cbn [Assignment.expire Assignment.lot_status]; rewrite ?Es;
    destruct s; cbn [LotStatus_eqb]; congruence.
Qed.

End ListingFacts.

(** ** What a response writes *)

Section ResponseWrites.

Lemma extends_refl {A} (l : list A) : extends l l.
Proof. exists []. now rewrite app_nil_r. Qed.

Lemma extends_trans {A} (l3 l2 l1 : list A) :
  extends l2 l1 -> extends l3 l2 -> extends l3 l1.
Proof.
  intros [m1 ->] [m2 ->]. exists (m1 ++ m2). now rewrite app_assoc.
Qed.

Lemma extends_app {A} (l more : list A) : extends (l ++ more) l.
Proof. now exists more. Qed.

Lemma extends_map {A B} (f : A -> B) l2 l1 :
  extends l2 l1 -> extends (map f l2) (map f l1).
Proof. intros [m ->]. exists (map f m). apply map_app. Qed.

Lemma checkAndTriggerConfirmation_logs st salesId user :
  extends (audit_log (checkAndTriggerConfirmation st salesId user)) (audit_log st)
  /\ extends (webhooks (checkAndTriggerConfirmation st salesId user)) (webhooks st).
Proof.
  unfold checkAndTriggerConfirmation.
  destruct (single _) as [salesInfo|]; [|split; apply extends_refl].
  destruct (configuration_of _ _) as [cfg|]; [|split; apply extends_refl].
  destruct (_ <=? _)%Z; [|split; apply extends_refl].
  split; apply extends_app.
Qed.

Lemma map_update_where {A B} (g : A -> B) (p : A -> bool) (f : A -> A) rows :
  (forall r, g (f r) = g r) -> map g (update_where p f rows) = map g rows.
Proof.
  intros Hf. unfold update_where. rewrite map_map. apply map_ext.
  intros r. destruct (p r); [apply Hf | reflexivity].
Qed.

Lemma update_where_other {A} (p : A -> bool) (f : A -> A) rows r :
  p r = false -> (forall x, p (f x) = p x) ->
  (In r rows <-> In r (update_where p f rows)).
Proof.
  intros Hr Hp. unfold update_where. rewrite in_map_iff. split.
  - intros Hin. exists r. now rewrite Hr.
  - intros (x & Hx & Hin). destruct (p x) eqn:E; [|now subst].
    subst r. rewrite Hp in Hr. congruence.
Qed.

Lemma NoDup_map_inj {A B} (f : A -> B) l x y :
  NoDup (map f l) -> In x l -> In y l -> f x = f y -> x = y.
Proof.
  induction l as [|a r IH]; cbn [map]; intros Hn Hx Hy E; [contradiction|].
  apply NoDup_cons_iff in Hn as [Ha Hr].
  destruct Hx as [->|Hx], Hy as [->|Hy]; auto.
  - exfalso. apply Ha. rewrite E. now apply in_map.
  - exfalso. apply Ha. rewrite <- E. now apply in_map.
Qed.

(** Every response either leaves the store as it is or writes the three
    rows of [recorded], then runs the confirmation helper on accept. *)
Lemma respond_store st now user aid d :
  fst (respond st now user aid d) = st
  \/ exists a,
       assignment_by_id st aid = Some a
       /\ Assignment.lot_status a = PENDING
       /\ customerIdOf st user = Some (Assignment.customer_id a)
       /\ JS.str_gt (JS.currentDateOf now) (Assignment.window_end_date a) = false
       /\ success (snd (respond st now user aid d)) = true
       /\ fst (respond st now user aid d)
          = match d with
            | Accept => checkAndTriggerConfirmation (recorded st now user a d)
                          (Assignment.sales_id a) user
            | Reject => recorded st now user a d
            end.
Proof.
  pose proof (respond_cases st now user aid d) as H. cbv zeta in H.
  destruct (assignment_by_id st aid) as [a|] eqn:Ha; [|left; now rewrite H].
  destruct (negb (opt_eqb _ _)) eqn:Hown; [left; now rewrite H|].
  destruct (JS.str_gt _ _) eqn:Hwin; [left; now rewrite H|].
  destruct (negb (LotStatus_eqb _ _)) eqn:Hst; [left; now rewrite H|].
  right. exists a. apply negb_false_iff in Hown, Hst.
  apply opt_eqb_Some in Hown. apply LotStatus_eqb_eq in Hst.
  rewrite H. repeat split; assumption.
Qed.

Lemma respond_success_store st now user aid d :
  success (snd (respond st now user aid d)) = true ->
  exists a,
    assignment_by_id st aid = Some a
    /\ Assignment.lot_status a = PENDING
    /\ customerIdOf st user = Some (Assignment.customer_id a)
    /\ JS.str_gt (JS.currentDateOf now) (Assignment.window_end_date a) = false
    /\ fst (respond st now user aid d)
       = match d with
         | Accept => checkAndTriggerConfirmation (recorded st now user a d)
                       (Assignment.sales_id a) user
         | Reject => recorded st now user a d
         end.
Proof.
  intros Hok.
  pose proof (respond_cases st now user aid d) as H. cbv zeta in H.
  destruct (assignment_by_id st aid) as [a|] eqn:Ha;
    [|rewrite H in Hok; discriminate].
  destruct (negb (opt_eqb _ _)) eqn:Hown; [rewrite H in Hok; discriminate|].
  destruct (JS.str_gt _ _) eqn:Hwin; [rewrite H in Hok; discriminate|].
  destruct (negb (LotStatus_eqb _ _)) eqn:Hst; [rewrite H in Hok; discriminate|].
  exists a. apply negb_false_iff in Hown, Hst.
  apply opt_eqb_Some in Hown. apply LotStatus_eqb_eq in Hst.
  rewrite H. repeat split; assumption.
Qed.

(** The tables after the writes of a response and the helper. *)
Lemma responded_tables st now user a d :
  let st' := match d with
             | Accept => checkAndTriggerConfirmation (recorded st now user a d)
                           (Assignment.sales_id a) user
             | Reject => recorded st now user a d
             end in
  customer_assignment_table st'
  = update_where (fun r => String.eqb (Assignment.id r) (Assignment.id a))
      (Assignment.respond (resolved d) (User.id user) (JS.toISOString now))
      (customer_assignment_table st)
  /\ inventory_table st'
     = update_where (fun l => String.eqb (Inventory.id l) (Assignment.inventory_id a))
         (Inventory.set_status_at (lot_outcome d) (JS.toISOString now))
         (inventory_table st)
  /\ customer_info st' = customer_info st
  /\ broker_info st' = broker_info st
  /\ sales_table st' = sales_table st
  /\ sales_configuration st' = sales_configuration st
  /\ lot_selected_contract st' = lot_selected_contract st
  /\ extends (audit_log st') (audit_log st)
  /\ extends (webhooks st') (webhooks st).
Proof.
  cbv zeta. destruct d.
  - destruct (checkAndTriggerConfirmation_tables (recorded st now user a Accept)
                (Assignment.sales_id a) user) as (Hi & Hc & Hci & Hbi & Hs & Hl & Ha).
    destruct (checkAndTriggerConfirmation_logs (recorded st now user a Accept)
                (Assignment.sales_id a) user) as (Hau & Hw).
    rewrite Hi, Hc, Hci, Hbi, Hs, Hl, Ha.
    repeat split; try reflexivity.
    + eapply extends_trans; [|exact Hau]. apply extends_app.
    + exact Hw.
  - repeat split; try reflexivity; [apply extends_app | apply extends_refl].
Qed.

End ResponseWrites.

(** ** What each request writes *)

Section RequestWrites.

Lemma lots_cases st now user :
  fst (lots st now user) = st
  \/ exists customerId,
       customerIdOf st user = Some customerId
       /\ fst (lots st now user)
          = with_inventory
              (update_where
                 (fun l => mem (Inventory.id l)
                             (map Assignment.inventory_id (overdue st now customerId)))
                 (Inventory.set_status AVAILABLE))
              (with_assignments
                 (update_where
                    (fun a => mem (Assignment.id a)
                                (map Assignment.id (overdue st now customerId)))
                    (Assignment.expire (JS.toISOString now))) st).
Proof.
  destruct (customerIdOf st user) as [cid|] eqn:Hc.
  - rewrite (lots_store st now user cid Hc).
    destruct (overdue st now cid) eqn:E; [now left|]. right. exists cid.
    split; [reflexivity|]. rewrite E. reflexivity.
  - left. unfold lots.
    change (if negb (String.eqb (User.role user) "customer")
            then option_map CustomerInfo.id (customerInfoOf st user)
            else Some (User.id user)) with (customerIdOf st user).
    now rewrite Hc.
Qed.

Lemma save_draft_cases st now user new_id sales_config_id selected_lots notes :
  fst (save_draft st now user new_id sales_config_id selected_lots notes) = st
  \/ exists salesConfig broker,
       sales_configuration_by_id st sales_config_id = Some salesConfig
       /\ broker_of st (SalesConfig.broker_id salesConfig) = Some broker.
Proof.
  destruct (sales_configuration_by_id st sales_config_id) as [salesConfig|] eqn:Hcfg.
  - destruct (broker_of st (SalesConfig.broker_id salesConfig)) as [broker|] eqn:Hb;
      [right; eauto|].
    left. now destruct (save_draft_not_found st now user new_id sales_config_id
                          selected_lots notes) as (H & _); [eauto|].
  - left. now destruct (save_draft_not_found st now user new_id sales_config_id
                          selected_lots notes) as (H & _); [auto|].
Qed.

(** The whole effect of [save-draft] on the store, table by table. *)
Lemma save_draft_store st now user new_id sales_config_id selected_lots notes
    salesConfig broker :
  sales_configuration_by_id st sales_config_id = Some salesConfig ->
  broker_of st (SalesConfig.broker_id salesConfig) = Some broker ->
  let st' := fst (save_draft st now user new_id sales_config_id selected_lots notes) in
  customer_info st' = customer_info st
  /\ broker_info st' = broker_info st
  /\ extends (audit_log st') (audit_log st)
  /\ extends (webhooks st') (webhooks st).
Proof.
  intros Hcfg Hb. unfold save_draft. rewrite Hcfg, Hb. cbv zeta.
  cbn [fst customer_info broker_info audit_log webhooks post_webhook insert_audit
       with_configuration with_inventory with_selections with_sales].
  repeat split; apply extends_app.
Qed.

Lemma on_store_fst {A} (f : Store -> Store * A) b :
  fst (on_store f b) = {| store := fst (f (store b)); journal := journal b |}.
Proof. unfold on_store. now destruct (f (store b)). Qed.

Lemma on_store_snd {A} (f : Store -> Store * A) b :
  snd (on_store f b) = snd (f (store b)).
Proof. unfold on_store. now destruct (f (store b)). Qed.

(** The override, once the assignment is found. *)
Lemma admin_override_found b now user aid action notes a :
  assignment_by_id (store b) aid = Some a ->
  let written :=
    with_inventory
      (update_where (fun l => String.eqb (Inventory.id l) (Assignment.inventory_id a))
         (Inventory.set_status_at (lot_outcome action) (JS.toISOString now)))
      (with_assignments
         (update_where (fun r => String.eqb (Assignment.id r) aid)
            (Assignment.respond (resolved action) (User.id user) (JS.toISOString now)))
         (store b)) in
  AdminOverride.admin_override b now user aid action notes
  = ({| store := match action with
                 | Accept => checkAndTriggerConfirmation written
                               (Assignment.sales_id a) user
                 | Reject => written
                 end;
        journal := journal b
                   ++ [AuditAdminOverride aid (User.id user) (Assignment.lot_status a)
                         (resolved action) notes (AdminOverride.action_word action)] |},
     {| code := 200; success := true;
        message := Some ("Assignment " ++ AdminOverride.action_word action
                         ++ "ed by admin successfully")%string;
        data := Some {| AdminOverride.assignment :=
                          Assignment.respond (resolved action) (User.id user)
                            (JS.toISOString now) a;
                        AdminOverride.admin_notes := notes |} |}).
Proof.
  intros Ha. cbv zeta. unfold AdminOverride.admin_override. rewrite Ha. cbv zeta.
  destruct (assignment_by_id_In _ _ _ Ha) as [_ Hid].
  change (match action with Accept => ACCEPTED | Reject => REJECTED end)
    with (resolved action).
  change (match action with Accept => SOLD | Reject => AVAILABLE end)
    with (lot_outcome action).
  rewrite (assignment_by_id_updated (store b) aid a _ _ Ha) by reflexivity.
  cbv beta.
  replace (String.eqb (Assignment.id a) aid) with true
    by (symmetry; now apply String.eqb_eq).
  reflexivity.
Qed.

(** The confirmation, once the only draft of the order is found. *)
Lemma confirm_found b now user sales_config_id selected_lots notes draft :
  single (filter (fun s => String.eqb (Sales.sales_config_id s) sales_config_id
                           && Confirm.SalesStatus_eqb (Sales.status s) DRAFT)
                 (sales_table (store b))) = Some draft ->
  single (filter (fun s => String.eqb (Sales.id s) (Sales.id draft))
                 (sales_table (store b))) = Some draft ->
  let out := Confirm.confirm b now user sales_config_id selected_lots notes in
  success (snd out) = true
  /\ code (snd out) = 200
  /\ option_map Confirm.sales_record (data (snd out)) = Some (Confirm.set_confirmed draft)
  /\ sales_table (store (fst out))
     = update_where (fun s => String.eqb (Sales.id s) (Sales.id draft))
         Confirm.set_confirmed (sales_table (store b))
  /\ sales_configuration (store (fst out))
     = update_where (fun c => String.eqb (SalesConfig.id c) sales_config_id)
         (SalesConfig.set_status_at completed (JS.toISOString now))
         (sales_configuration (store b))
  /\ inventory_table (store (fst out)) = inventory_table (store b)
  /\ customer_assignment_table (store (fst out)) = customer_assignment_table (store b)
  /\ lot_selected_contract (store (fst out)) = lot_selected_contract (store b)
  /\ customer_info (store (fst out)) = customer_info (store b)
  /\ broker_info (store (fst out)) = broker_info (store b)
  /\ audit_log (store (fst out)) = audit_log (store b)
  /\ webhooks (store (fst out)) = webhooks (store b)
  /\ (exists more,
        journal (fst out)
        = journal b
          ++ SalesConfirmedColumns (Sales.id draft) (User.id user) (JS.toISOString now)
          :: AuditSalesConfirmed (Sales.id draft) (User.id user) notes
          :: more).
Proof.
  intros Hdraft Hid. cbv zeta. unfold Confirm.confirm, Confirm.createOrUpdateSalesDraft.
  rewrite Hdraft. cbn [fst snd negb Confirm.draft_id].
  cbn [sales_table with_sales].
  rewrite filter_update_where by reflexivity.
  apply single_Some in Hid. rewrite Hid.
  cbn [update_where map single]. rewrite String.eqb_refl.
  cbn [fst snd success code data option_map Confirm.sales_record store journal
       sales_table sales_configuration inventory_table customer_assignment_table
       lot_selected_contract customer_info broker_info audit_log webhooks
       with_configuration with_sales].
  repeat (split; [reflexivity|]).
  destruct (configuration_of _ _); rewrite <- !app_assoc; cbn [app]; eexists; reflexivity.
Qed.

(** The confirmation without exactly one draft of the order. *)
Lemma confirm_without_draft b now user sales_config_id selected_lots notes :
  single (filter (fun s => String.eqb (Sales.sales_config_id s) sales_config_id
                           && Confirm.SalesStatus_eqb (Sales.status s) DRAFT)
                 (sales_table (store b))) = None ->
  (forall s, In s (sales_table (store b)) -> Sales.id s <> "new-draft-id") ->
  Confirm.confirm b now user sales_config_id selected_lots notes
  = (b, failure 500 "Failed to confirm sales: ").
Proof.
  intros Hnone Hfresh.
  assert (Hf : filter (fun s => String.eqb (Sales.id s) "new-draft-id")
                      (sales_table (store b)) = []).
  { remember (filter (fun s => String.eqb (Sales.id s) "new-draft-id")
                     (sales_table (store b))) as found eqn:E.
    destruct found as [|s r]; [reflexivity|]. exfalso.
    assert (Hs : In s (filter (fun s => String.eqb (Sales.id s) "new-draft-id")
                              (sales_table (store b)))) by (rewrite <- E; now left).
    apply filter_In in Hs as [Hin Heq]. apply String.eqb_eq in Heq.
    exact (Hfresh s Hin Heq). }
  unfold Confirm.confirm, Confirm.createOrUpdateSalesDraft.
  rewrite Hnone. cbn [fst snd negb Confirm.draft_id].
  cbn [sales_table with_sales].
  rewrite filter_update_where by reflexivity.
  rewrite Hf. reflexivity.
Qed.

(** The confirmation writes the status of drafts and orders, and the
    journal; nothing else. *)
Lemma confirm_tables b now user sales_config_id selected_lots notes :
  let b' := fst (Confirm.confirm b now user sales_config_id selected_lots notes) in
  inventory_table (store b') = inventory_table (store b)
  /\ customer_assignment_table (store b') = customer_assignment_table (store b)
  /\ lot_selected_contract (store b') = lot_selected_contract (store b)
  /\ customer_info (store b') = customer_info (store b)
  /\ broker_info (store b') = broker_info (store b)
  /\ audit_log (store b') = audit_log (store b)
  /\ webhooks (store b') = webhooks (store b)
  /\ map Sales.id (sales_table (store b')) = map Sales.id (sales_table (store b))
  /\ extends (journal b') (journal b).
Proof.
  cbv zeta. unfold Confirm.confirm.
  destruct (negb _); [repeat split; apply extends_refl|].
  destruct (single _) as [confirmedSales|]; [|repeat split; apply extends_refl].
  cbn [fst store journal inventory_table customer_assignment_table
       lot_selected_contract customer_info broker_info audit_log webhooks
       sales_table with_configuration with_sales].
  repeat (split; [reflexivity|]).
  split; [now apply map_update_where|].
  destruct (configuration_of _ _).
  - eapply extends_trans; [|apply extends_app].
    eapply extends_trans; [|apply extends_app]. apply extends_app.
  - eapply extends_trans; [|apply extends_app]. apply extends_app.
Qed.

(** What no request does: create or delete an assignment or a lot, rewrite
    their identifying columns, or drop a logged row. *)
Lemma handle_keeps b r :
  let b' := handle b r in
  map assignment_identity (customer_assignment_table (store b'))
  = map assignment_identity (customer_assignment_table (store b))
  /\ map lot_identity (inventory_table (store b'))
     = map lot_identity (inventory_table (store b))
  /\ customer_info (store b') = customer_info (store b)
  /\ extends (audit_log (store b')) (audit_log (store b))
  /\ extends (webhooks (store b')) (webhooks (store b))
  /\ extends (journal b') (journal b)
  /\ extends (map Sales.id (sales_table (store b')))
       (map Sales.id (sales_table (store b)))
  /\ extends (lot_selected_contract (store b')) (lot_selected_contract (store b)).
Proof.
  cbv zeta. destruct r as [now user|now user aid|now user aid|now user aid action notes
                          |now user new_id cfg ids notes|now user cfg ids notes];
    cbn [handle]; rewrite ?on_store_fst; cbn [store journal].
  - destruct (lots_cases (store b) now user) as [-> | (cid & _ & ->)];
      [repeat split; apply extends_refl|].
    cbn [customer_assignment_table inventory_table customer_info audit_log webhooks
         sales_table lot_selected_contract with_inventory with_assignments].
    rewrite !map_update_where by reflexivity.
    repeat split; apply extends_refl.
  - change (accept (store b) now user aid) with (respond (store b) now user aid Accept).
    destruct (respond_store (store b) now user aid Accept)
      as [-> | (a & _ & _ & _ & _ & _ & ->)]; [repeat split; apply extends_refl|].
    destruct (responded_tables (store b) now user a Accept)
      as (-> & -> & -> & _ & -> & _ & -> & Hau & Hw).
    rewrite !map_update_where by reflexivity.
    repeat split; try assumption; apply extends_refl.
  - change (reject (store b) now user aid) with (respond (store b) now user aid Reject).
    destruct (respond_store (store b) now user aid Reject)
      as [-> | (a & _ & _ & _ & _ & _ & ->)]; [repeat split; apply extends_refl|].
    destruct (responded_tables (store b) now user a Reject)
      as (-> & -> & -> & _ & -> & _ & -> & Hau & Hw).
    rewrite !map_update_where by reflexivity.
    repeat split; try assumption; apply extends_refl.
  - destruct (assignment_by_id (store b) aid) as [a|] eqn:Ha.
    + rewrite (admin_override_found b now user aid action notes a Ha).
      cbn [fst store journal].
      assert (Hw : forall st0,
                 let st1 := match action with
                            | Accept => checkAndTriggerConfirmation st0
                                          (Assignment.sales_id a) user
                            | Reject => st0
                            end in
                 customer_assignment_table st1 = customer_assignment_table st0
                 /\ inventory_table st1 = inventory_table st0
                 /\ customer_info st1 = customer_info st0
                 /\ sales_table st1 = sales_table st0
                 /\ lot_selected_contract st1 = lot_selected_contract st0
                 /\ extends (audit_log st1) (audit_log st0)
                 /\ extends (webhooks st1) (webhooks st0)).
      { intros st0. cbv zeta. destruct action.
        - destruct (checkAndTriggerConfirmation_tables st0 (Assignment.sales_id a) user)
            as (Hi & _ & Hci & _ & Hs & Hl & Hc).
          destruct (checkAndTriggerConfirmation_logs st0 (Assignment.sales_id a) user)
            as (Hau & Hwe).
          repeat split; assumption.
        - repeat split; apply extends_refl. }
      match goal with
      | |- context [match action with
                    | Accept => checkAndTriggerConfirmation ?s _ _
                    | Reject => _ end] =>
          destruct (Hw s) as (-> & -> & -> & -> & -> & Hau & Hwe)
      end.
      cbn [customer_assignment_table inventory_table customer_info audit_log webhooks
           sales_table lot_selected_contract with_inventory with_assignments] in *.
      rewrite !map_update_where by reflexivity.
      repeat split; try assumption; try apply extends_refl. apply extends_app.
    + unfold AdminOverride.admin_override. rewrite Ha. cbn [fst].
      repeat split; apply extends_refl.
  - destruct (save_draft_cases (store b) now user new_id cfg ids notes)
      as [-> | (salesConfig & broker & Hcfg & Hb)];
      [repeat split; apply extends_refl|].
    destruct (save_draft_found (store b) now user new_id cfg ids notes
                salesConfig broker Hcfg Hb)
      as (_ & _ & -> & -> & -> & _ & ->).
    destruct (save_draft_store (store b) now user new_id cfg ids notes
                salesConfig broker Hcfg Hb) as (-> & _ & Hau & Hwe).
    rewrite !map_update_where by reflexivity. rewrite map_app.
    repeat split; try assumption; try apply extends_refl; apply extends_app.
  - destruct (confirm_tables b now user cfg ids notes)
      as (-> & -> & -> & -> & _ & -> & -> & -> & Hj).
    repeat split; try assumption; apply extends_refl.
Qed.

Lemma serve_cons b r requests : serve b (r :: requests) = serve (handle b r) requests.
Proof. reflexivity. Qed.

End RequestWrites.

(** ** Sequences of requests *)

Section Sequences.

Lemma serve_keeps requests : forall b,
  let b' := serve b requests in
  map assignment_identity (customer_assignment_table (store b'))
  = map assignment_identity (customer_assignment_table (store b))
  /\ map lot_identity (inventory_table (store b'))
     = map lot_identity (inventory_table (store b))
  /\ customer_info (store b') = customer_info (store b)
  /\ extends (audit_log (store b')) (audit_log (store b))
  /\ extends (webhooks (store b')) (webhooks (store b))
  /\ extends (journal b') (journal b)
  /\ extends (map Sales.id (sales_table (store b')))
       (map Sales.id (sales_table (store b)))
  /\ extends (lot_selected_contract (store b')) (lot_selected_contract (store b)).
Proof.
  cbv zeta. induction requests as [|r rest IH]; intros b.
  - cbn [serve fold_left]. repeat split; apply extends_refl.
  - rewrite serve_cons.
    destruct (IH (handle b r)) as (Ha & Hl & Hc & Hau & Hw & Hj & Hs & Hsel).
    destruct (handle_keeps b r) as (Ha0 & Hl0 & Hc0 & Hau0 & Hw0 & Hj0 & Hs0 & Hsel0).
    rewrite Ha, Hl, Hc.
    split; [assumption|]. split; [assumption|]. split; [assumption|].
    repeat split; eapply extends_trans; eassumption.
Qed.

Lemma identity_ids l' l :
  map assignment_identity l' = map assignment_identity l ->
  map Assignment.id l' = map Assignment.id l.
Proof.
  intros H.
  apply (f_equal (map (fun t : string * string * string * string * string * string * Z =>
                         fst (fst (fst (fst (fst (fst t)))))))) in H.
  rewrite !map_map in H. exact H.
Qed.

Lemma overdue_In st now customerId a :
  In a (overdue st now customerId) ->
  In a (customer_assignment_table st)
  /\ Assignment.customer_id a = customerId
  /\ Assignment.lot_status a = PENDING
  /\ JS.str_le (JS.currentDateOf now) (Assignment.window_end_date a) = false.
Proof.
  unfold overdue. rewrite filter_In, assignments_of_In.
  intros ((Hin & Hc) & Hp). apply andb_true_iff in Hp as [Hp Hw].
  apply LotStatus_eqb_eq in Hp. apply negb_true_iff in Hw. auto.
Qed.

(** A customer's request leaves every assignment that is no longer pending
    as it is. *)
Lemma handle_customer_resolved b r a :
  customer_request r = true ->
  NoDup (map Assignment.id (customer_assignment_table (store b))) ->
  In a (customer_assignment_table (store b)) ->
  Assignment.lot_status a <> PENDING ->
  In a (customer_assignment_table (store (handle b r))).
Proof.
  intros Hr Hn Hin Hs.
  assert (Hresp : forall now user aid d,
             In a (customer_assignment_table (fst (respond (store b) now user aid d)))).
  { intros now user aid d.
    destruct (respond_store (store b) now user aid d)
      as [-> | (a0 & Ha0 & Hp & _ & _ & _ & ->)]; [assumption|].
    destruct (responded_tables (store b) now user a0 d) as (-> & _).
    apply update_where_other; [|reflexivity|assumption].
    destruct (String.eqb (Assignment.id a) (Assignment.id a0)) eqn:E; [|reflexivity].
    apply String.eqb_eq in E. apply assignment_by_id_In in Ha0 as [Hin0 _].
    pose proof (NoDup_map_inj Assignment.id _ a a0 Hn Hin Hin0 E). congruence. }
  destruct r as [now user|now user aid|now user aid| | |]; try discriminate;
    cbn [handle]; rewrite on_store_fst; cbn [store].
  - destruct (lots_cases (store b) now user) as [-> | (cid & _ & ->)]; [assumption|].
    cbn [customer_assignment_table with_inventory with_assignments].
    apply update_where_other; [|reflexivity|assumption].
    destruct (mem _ _) eqn:E; [|reflexivity].
    apply mem_In, in_map_iff in E as (o & Hid & Ho).
    apply overdue_In in Ho as (Hino & _ & Hp & _).
    pose proof (NoDup_map_inj Assignment.id _ o a Hn Hino Hin Hid). congruence.
  - exact (Hresp now user aid Accept).
  - exact (Hresp now user aid Reject).
Qed.

Lemma serve_customer_resolved requests : forall b a,
  forallb customer_request requests = true ->
  NoDup (map Assignment.id (customer_assignment_table (store b))) ->
  In a (customer_assignment_table (store b)) ->
  Assignment.lot_status a <> PENDING ->
  In a (customer_assignment_table (store (serve b requests))).
Proof.
  induction requests as [|r rest IH]; intros b a Hr Hn Hin Hs; [assumption|].
  cbn [forallb] in Hr. apply andb_true_iff in Hr as [Hr Hrest].
  rewrite serve_cons. apply IH; try assumption.
  - destruct (handle_keeps b r) as (Hk & _).
    now rewrite (identity_ids _ _ Hk).
  - now apply handle_customer_resolved.
Qed.

End Sequences.

(** ** Rows by identifier *)

Section ById.

Lemma filter_none {A} (p : A -> bool) rows :
  (forall x, In x rows -> p x = false) -> filter p rows = [].
Proof.
  induction rows as [|r t IH]; intros H; [reflexivity|].
  cbn [filter]. rewrite (H r) by now left. apply IH. intros x Hx. apply H. now right.
Qed.

Lemma filter_unique_key {A} (key : A -> string) rows r :
  NoDup (map key rows) -> In r rows ->
  filter (fun s => String.eqb (key s) (key r)) rows = [r].
Proof.
  induction rows as [|x t IH]; cbn [map]; intros Hn Hin; [contradiction|].
  apply NoDup_cons_iff in Hn as [Hx Ht]. cbn [filter].
  destruct Hin as [->|Hin].
  - rewrite String.eqb_refl. f_equal. apply filter_none.
    intros y Hy. apply String.eqb_neq. intros E. apply Hx. rewrite <- E.
    now apply in_map.
  - replace (String.eqb (key x) (key r)) with false; [now apply IH|].
    symmetry. apply String.eqb_neq. intros E. apply Hx. rewrite E. now apply in_map.
Qed.

Lemma status_after_update (x : string) s at_ rows l :
  In l (update_where (fun r => String.eqb (Inventory.id r) x)
          (Inventory.set_status_at s at_) rows) ->
  Inventory.id l = x -> Inventory.status l = s.
Proof.
  intros Hin Hid. apply update_where_In in Hin as (r & Hr & ->).
  destruct (String.eqb (Inventory.id r) x) eqn:E; [reflexivity|].
  apply String.eqb_neq in E. contradiction.
Qed.

(** The assignment a successful response leaves under its identifier. *)
Lemma responded_assignment st now user aid d :
  success (snd (respond st now user aid d)) = true ->
  exists a,
    assignment_by_id st aid = Some a
    /\ Assignment.lot_status a = PENDING
    /\ assignment_by_id (fst (respond st now user aid d)) aid
       = Some (Assignment.respond (resolved d) (User.id user) (JS.toISOString now) a)
    /\ inventory_table (fst (respond st now user aid d))
       = update_where (fun l => String.eqb (Inventory.id l) (Assignment.inventory_id a))
           (Inventory.set_status_at (lot_outcome d) (JS.toISOString now))
           (inventory_table st).
Proof.
  intros Hok.
  destruct (respond_success_store _ _ _ _ _ Hok) as (a & Ha & Hp & _ & _ & Hst).
  destruct (assignment_by_id_In _ _ _ Ha) as [_ Hid].
  destruct (responded_tables st now user a d) as (Hasg & Hinv & _).
  cbv zeta in Hasg, Hinv. rewrite <- Hst in Hasg, Hinv.
  exists a. repeat (split; [assumption|]). split; [|assumption].
  rewrite (assignment_by_id_ext _
             (with_assignments
                (update_where (fun r => String.eqb (Assignment.id r) (Assignment.id a))
                   (Assignment.respond (resolved d) (User.id user) (JS.toISOString now)))
                st)) by exact Hasg.
  rewrite (assignment_by_id_updated st aid a _ _ Ha) by reflexivity.
  subst aid. now rewrite String.eqb_refl.
Qed.

(** The tables after an override that finds its assignment. *)
Lemma admin_override_tables b now user aid action notes a :
  assignment_by_id (store b) aid = Some a ->
  let st' := store (fst (AdminOverride.admin_override b now user aid action notes)) in
  customer_assignment_table st'
  = update_where (fun r => String.eqb (Assignment.id r) aid)
      (Assignment.respond (resolved action) (User.id user) (JS.toISOString now))
      (customer_assignment_table (store b))
  /\ inventory_table st'
     = update_where (fun l => String.eqb (Inventory.id l) (Assignment.inventory_id a))
         (Inventory.set_status_at (lot_outcome action) (JS.toISOString now))
         (inventory_table (store b))
  /\ extends (audit_log st') (audit_log (store b))
  /\ extends (webhooks st') (webhooks (store b))
  /\ (action = Reject ->
      audit_log st' = audit_log (store b) /\ webhooks st' = webhooks (store b)).
Proof.
  intros Ha. cbv zeta. rewrite (admin_override_found b now user aid action notes a Ha).
  cbn [fst store]. destruct action.
  - match goal with
    | |- context [checkAndTriggerConfirmation ?s ?i ?u] =>
        destruct (checkAndTriggerConfirmation_tables s i u)
          as (-> & _ & _ & _ & _ & _ & ->);
        destruct (checkAndTriggerConfirmation_logs s i u) as (Hau & Hw)
    end.
    repeat split; try assumption; discriminate.
  - repeat split; apply extends_refl.
Qed.

End ById.

(** ** Drafts and their confirmation *)

Section Drafts.

Lemma single_length {A} (rows : list A) :
  List.length rows <> 1 -> single rows = None.
Proof. destruct rows as [|x [|y t]]; cbn; congruence. Qed.

Lemma single_length_1 {A} (rows : list A) r :
  single rows = Some r -> List.length rows = 1.
Proof. intros H. apply single_Some in H. now subst. Qed.

(** Once its only draft is confirmed, an order has no draft. *)
Lemma no_draft_after_confirmation sales_config_id draft rows :
  filter (is_draft_of sales_config_id) rows = [draft] ->
  filter (is_draft_of sales_config_id)
    (update_where (fun s => String.eqb (Sales.id s) (Sales.id draft))
       Confirm.set_confirmed rows) = [].
Proof.
  intros Hd. apply filter_none. intros x Hx.
  apply update_where_In in Hx as (r & Hr & ->).
  destruct (String.eqb (Sales.id r) (Sales.id draft)) eqn:E.
  - unfold is_draft_of. apply andb_false_iff. right. reflexivity.
  - destruct (is_draft_of sales_config_id r) eqn:Ed; [|reflexivity].
    assert (Hin : In r (filter (is_draft_of sales_config_id) rows))
      by (apply filter_In; auto).
    rewrite Hd in Hin. destruct Hin as [->|[]].
    rewrite String.eqb_refl in E. discriminate.
Qed.

(** A confirmation that succeeds found the only draft of the order. *)
Lemma confirm_success_draft b now user sales_config_id selected_lots notes :
  (forall s, In s (sales_table (store b)) -> Sales.id s <> "new-draft-id") ->
  success (snd (Confirm.confirm b now user sales_config_id selected_lots notes)) = true ->
  exists draft,
    single (filter (is_draft_of sales_config_id) (sales_table (store b))) = Some draft.
Proof.
  intros Hfresh Hok.
  destruct (single (filter (is_draft_of sales_config_id) (sales_table (store b))))
    as [draft|] eqn:E; [eauto|].
  rewrite (confirm_without_draft b now user sales_config_id selected_lots notes E Hfresh)
    in Hok.
  discriminate.
Qed.

End Drafts.

(** ** Counting by status *)

Section Counting.

Lemma get_set k k' v acc :
  Stats.get k (Stats.set k' v acc) = if String.eqb k' k then Some v else Stats.get k acc.
Proof.
  induction acc as [|[k0 n] r IH]; cbn [Stats.set Stats.get].
  - destruct (String.eqb k' k); reflexivity.
  - destruct (String.eqb k0 k') eqn:E0; cbn [Stats.get].
    + apply String.eqb_eq in E0. subst k0.
      destruct (String.eqb k' k); reflexivity.
    + destruct (String.eqb k0 k) eqn:E1; [|exact IH].
      apply String.eqb_eq in E1. subst k0.
      rewrite String.eqb_sym, E0. reflexivity.
Qed.

Lemma get_bump k k' acc :
  Stats.get k (Stats.bump k' acc)
  = if String.eqb k' k
    then Some (match Stats.get k acc with Some n => n | None => 0 end + 1)
    else Stats.get k acc.
Proof.
  unfold Stats.bump. rewrite get_set.
  destruct (String.eqb k' k) eqn:E; [|reflexivity].
  apply String.eqb_eq in E. now subst.
Qed.

Lemma total_set k v acc :
  total (Stats.set k v acc) + match Stats.get k acc with Some n => n | None => 0 end
  = total acc + v.
Proof.
  unfold total. induction acc as [|[k0 n] r IH]; cbn [Stats.set Stats.get].
  - cbn. lia.
  - destruct (String.eqb k0 k); unfold list_sum in *; cbn [map snd fold_right]; lia.
Qed.

Lemma total_bump k acc : total (Stats.bump k acc) = total acc + 1.
Proof.
  unfold Stats.bump. pose proof (total_set k
    (match Stats.get k acc with Some n => n | None => 0 end + 1) acc). lia.
Qed.

Lemma keys_set k v acc x :
  In x (map fst (Stats.set k v acc)) <-> x = k \/ In x (map fst acc).
Proof.
  induction acc as [|[k0 n] r IH]; cbn [Stats.set map fst In].
  - intuition.
  - destruct (String.eqb k0 k) eqn:E; cbn [map fst In].
    + apply String.eqb_eq in E. subst. intuition.
    + rewrite IH. intuition.
Qed.

Lemma keys_set_NoDup k v acc :
  NoDup (map fst acc) -> NoDup (map fst (Stats.set k v acc)).
Proof.
  induction acc as [|[k0 n] r IH]; cbn [Stats.set map fst]; intros Hn.
  - apply NoDup_cons; [intros []|apply NoDup_nil].
  - apply NoDup_cons_iff in Hn as [H0 Hr].
    destruct (String.eqb k0 k) eqn:E; cbn [map fst].
    + now apply NoDup_cons.
    + apply NoDup_cons; [|now apply IH].
      rewrite keys_set. intros [->|H]; [|contradiction].
      rewrite String.eqb_refl in E. discriminate.
Qed.

(** The counter after a fold over the rows, from any starting counter. *)
Lemma count_from {A} (key : A -> string) rows : forall acc,
  let out := fold_left (fun acc item => Stats.bump (key item) acc) rows acc in
  (forall k,
     Stats.get k out
     = match rows_with key k rows with
       | 0 => Stats.get k acc
       | S _ => Some (match Stats.get k acc with Some n => n | None => 0 end
                      + rows_with key k rows)
       end)
  /\ total out = total acc + List.length rows
  /\ (NoDup (map fst acc) -> NoDup (map fst out))
  /\ (forall x, In x (map fst out) -> In x (map fst acc) \/ In x (map key rows)).
Proof.
  cbv zeta. unfold rows_with.
  induction rows as [|r t IH]; intros acc; cbn [fold_left filter List.length map].
  - repeat split; auto; lia.
  - destruct (IH (Stats.bump (key r) acc)) as (Hg & Ht & Hn & Hk).
    split; [|split; [|split]].
    + intros k. rewrite Hg, get_bump.
      destruct (String.eqb (key r) k); cbn [List.length].
      * destruct (List.length (filter _ t)); f_equal; lia.
      * reflexivity.
    + rewrite Ht, total_bump. lia.
    + intros H. apply Hn. unfold Stats.bump. now apply keys_set_NoDup.
    + intros x Hx. apply Hk in Hx as [Hx|Hx]; [|right; now right].
      unfold Stats.bump in Hx. apply keys_set in Hx as [->|Hx]; [right; now left|now left].
Qed.

End Counting.

(** ** The error handler *)

Section Errors.

Lemma status_or_nonzero x d : d <> 0 -> ErrorHandler.status_or x d <> 0.
Proof. intros Hd. destruct x as [[|n]|]; cbn; auto. Qed.

Lemma message_or_truthy x d :
  JS.truthy_str d = true -> JS.truthy_str (ErrorHandler.message_or x d) = true.
Proof.
  intros Hd. unfold ErrorHandler.message_or.
  destruct x as [s|]; [|assumption]. destruct (JS.truthy_str s) eqn:E; assumption.
Qed.

Lemma prefix_truthy p c :
  JS.truthy_str p = true -> String.prefix p c = true -> JS.truthy_str c = true.
Proof. destruct p, c; cbn; congruence. Qed.

(** The handler logs the error before it does anything else, and writes
    nothing more. *)
Lemma errorHandler_logs b development err req :
  fst (ErrorHandler.errorHandler b development err req)
  = {| store := store b;
       journal := journal b
                  ++ [AuditError (ErrorHandler.user_id req) (ErrorHandler.message err)
                        (ErrorHandler.stack err) (ErrorHandler.originalUrl req)
                        (ErrorHandler.method req) (ErrorHandler.ip req)
                        (ErrorHandler.userAgent req)] |}.
Proof.
  unfold ErrorHandler.errorHandler. cbv zeta.
  repeat match goal with
         | |- context [match ?x with Some _ => _ | None => _ end] =>
             match x with
             | context [ErrorHandler.errorHandler] => fail 1
             | _ => destruct x
             end
         end; reflexivity.
Qed.

End Errors.

(** ** Rows kept apart by their identifiers *)

Section Apart.

Context {A : Type}.

Lemma insert_by_Permutation (key : A -> Z) ascending x l :
  Permutation (insert_by key ascending x l) (x :: l).
Proof.
  induction l as [|y r IH]; cbn [insert_by]; [reflexivity|].
  destruct (if ascending then _ else _); [reflexivity|].
  rewrite IH. apply perm_swap.
Qed.

Lemma order_by_Permutation (key : A -> Z) ascending l :
  Permutation (order_by key ascending l) l.
Proof.
  unfold order_by. induction l as [|x r IH]; cbn [fold_right]; [reflexivity|].
  rewrite insert_by_Permutation. now apply perm_skip.
Qed.

Lemma NoDup_firstn_of {B} n (l : list B) : NoDup l -> NoDup (firstn n l).
Proof.
  intros H. rewrite <- (firstn_skipn n l) in H. now apply NoDup_app_remove_r in H.
Qed.

Lemma slice0_firstn (l : list A) k : exists m, JS.slice0 l k = firstn m l.
Proof.
  unfold JS.slice0.
  destruct k as [s|[]| |s m e];
    try (exists 0; reflexivity);
    try (exists (List.length l); now rewrite firstn_all);
    destruct (JS.trunc _) as [z|]; try (exists 0; reflexivity);
    destruct (z <? 0)%Z; eexists; reflexivity.
Qed.

Lemma limit_firstn_of (l : list A) k : exists m, limit k l = firstn m l.
Proof.
  unfold limit. destruct (JS.trunc k) as [z|]; [eexists; reflexivity|].
  exists (List.length l). now rewrite firstn_all.
Qed.

Lemma eq_if_truthy_NoDup {B} (f : A -> B) (col : A -> string) v rows :
  NoDup (map f rows) -> NoDup (map f (eq_if_truthy col v rows)).
Proof.
  unfold eq_if_truthy. destruct v as [s|]; [|auto].
  destruct (JS.truthy_str s); [|auto]. apply NoDup_map_filter.
Qed.

Lemma filter_all (p : A -> bool) l :
  (forall x, In x l -> p x = true) -> filter p l = l.
Proof.
  induction l as [|x r IH]; intros H; [reflexivity|].
  cbn [filter]. rewrite (H x) by now left. f_equal. apply IH.
  intros y Hy. apply H. now right.
Qed.

End Apart.

Section Page.

Lemma matchingLots_NoDup st salesConfig :
  NoDup (map Inventory.id (inventory_table st)) ->
  NoDup (map Inventory.id (matchingLots st salesConfig)).
Proof.
  intros H. unfold matchingLots. cbv zeta.
  apply eq_if_truthy_NoDup.
  destruct (SalesConfig.line_specs salesConfig) as [specs|];
    repeat apply eq_if_truthy_NoDup; now apply NoDup_map_filter.
Qed.

Lemma auto_select_lots_NoDup st sales_config_id q d :
  NoDup (map Inventory.id (inventory_table st)) ->
  data (auto_select_lots st sales_config_id q) = Some d ->
  NoDup (map Inventory.id (AutoSelect.available_lots d))
  /\ NoDup (map Inventory.id (AutoSelect.auto_selected d)).
Proof.
  intros Hu Hd. unfold auto_select_lots in Hd.
  destruct (sales_configuration_by_id st sales_config_id) as [salesConfig|];
    [|discriminate].
  assert (Hl : NoDup (map Inventory.id
                        (limit (JS.add (JS.of_int q)
                                  (JS.Math_floor (JS.mul (JS.of_int q) JS.lit_0_2)))
                           (order_by Inventory.created_at true
                              (matchingLots st salesConfig))))).
  { destruct (limit_firstn_of (order_by Inventory.created_at true
                                 (matchingLots st salesConfig))
                (JS.add (JS.of_int q) (JS.Math_floor (JS.mul (JS.of_int q) JS.lit_0_2))))
      as (m & ->).
    rewrite <- firstn_map. apply NoDup_firstn_of.
    eapply Permutation_NoDup;
      [symmetry; apply Permutation_map, order_by_Permutation|].
    now apply matchingLots_NoDup. }
  cbv zeta in Hd.
  destruct (limit _ _) as [|x r] eqn:El; injection Hd as <-;
    cbn [AutoSelect.auto_selected AutoSelect.available_lots].
  - split; constructor.
  - split; [exact Hl|].
    match goal with
    | |- context [JS.slice0 ?l ?k] => destruct (slice0_firstn l k) as (m & ->)
    end.
    rewrite <- firstn_map. now apply NoDup_firstn_of.
Qed.

Lemma includes_In prev x : SalesProcessing.includes prev x = true <-> In x prev.
Proof.
  unfold SalesProcessing.includes. rewrite existsb_exists. split.
  - intros (y & Hy & E). apply String.eqb_eq in E. now subst.
  - intros H. exists x. split; [assumption|apply String.eqb_refl].
Qed.

Lemma toggleLotSelection_In prev lotId x :
  In x (SalesProcessing.toggleLotSelection prev lotId)
  <-> (x = lotId /\ ~ In lotId prev) \/ (x <> lotId /\ In x prev).
Proof.
  unfold SalesProcessing.toggleLotSelection.
  destruct (SalesProcessing.includes prev lotId) eqn:E.
  - apply includes_In in E.
    rewrite filter_In, negb_true_iff, String.eqb_neq. tauto.
  - assert (Hn : ~ In lotId prev)
      by (intros H; apply includes_In in H; congruence).
    rewrite in_app_iff. cbn [In].
    destruct (string_dec x lotId) as [->|Hx]; [tauto|].
    split; [intros [H|[H|[]]]; [tauto|congruence]|tauto].
Qed.

Lemma toggleLotSelection_NoDup prev lotId :
  NoDup prev -> NoDup (SalesProcessing.toggleLotSelection prev lotId).
Proof.
  intros H. unfold SalesProcessing.toggleLotSelection.
  destruct (SalesProcessing.includes prev lotId) eqn:E.
  - now apply NoDup_filter.
  - apply NoDup_app; [assumption|apply NoDup_cons; [intros []|apply NoDup_nil]|].
    intros x Hx [<-|[]]. apply includes_In in Hx. congruence.
Qed.

(** The selection after any clicks: no identifier twice, and none that was
    neither selected at the start nor clicked. *)
Lemma clicks_selection clicks : forall start,
  NoDup start ->
  NoDup (fold_left SalesProcessing.toggleLotSelection clicks start)
  /\ (forall x, In x (fold_left SalesProcessing.toggleLotSelection clicks start) ->
                In x start \/ In x clicks).
Proof.
  induction clicks as [|c rest IH]; intros start Hn; cbn [fold_left].
  - split; [assumption|auto].
  - destruct (IH (SalesProcessing.toggleLotSelection start c)
                (toggleLotSelection_NoDup start c Hn)) as (H1 & H2).
    split; [assumption|]. intros x Hx. apply H2 in Hx as [Hx|Hx]; [|right; now right].
    apply toggleLotSelection_In in Hx as [[-> _]|[_ Hx]]; [right; now left|now left].
Qed.

End Page.

(** * The claims *)




(** C2, counterexample.  Lot 1 is already BLOCKED when a draft is saved for
    lots 1 and 2: the call succeeds with 201, lot 2 goes from AVAILABLE to
    BLOCKED and lot 1 stays BLOCKED.  Neither did every requested lot go
    from AVAILABLE to BLOCKED, nor did the call fail without a change. *)
Lemma all_or_nothing_counterexample :
  let out := save_draft Scenario.contended Scenario.noon Scenario.trader
               "sale-1" "order-1" ["lot-001"; "lot-002"] None in
  statuses Scenario.contended
    = [("lot-001", BLOCKED); ("lot-002", AVAILABLE); ("lot-003", AVAILABLE)]
  /\ code (snd out) = 201 /\ success (snd out) = true
  /\ statuses (fst out)
     = [("lot-001", BLOCKED); ("lot-002", BLOCKED); ("lot-003", AVAILABLE)]
  /\ ~ all_or_nothing_claim.
Proof.
  cbv zeta. split; [vm_compute; reflexivity|].
  split; [vm_compute; reflexivity|]. split; [vm_compute; reflexivity|].
  split; [vm_compute; reflexivity|].
  intros H.
  specialize (H Scenario.contended Scenario.noon Scenario.trader
                "sale-1" "order-1" ["lot-001"; "lot-002"] None eq_refl).
  cbv zeta in H. destruct H as [[Hbefore _] | [Hfail Hsame]].
  - specialize (Hbefore (Scenario.lot 1 BLOCKED)).
    assert (E : Inventory.status (Scenario.lot 1 BLOCKED) = AVAILABLE).
    { apply Hbefore; [left; reflexivity | vm_compute; reflexivity]. }
    discriminate E.
  - vm_compute in Hfail. discriminate Hfail.
Qed.

(** C2, as the route behaves.  [save-draft] does not look at the claim state
    of the requested lots.  Either it succeeds with 201, and then every lot
    whose identifier is requested is BLOCKED afterwards, whatever its state
    was, and every other lot is as before; or it fails, with 404 for an
    unknown order or 500 for an order without broker, and then the store is
    unchanged.  It has no conflict answer. *)
Theorem save_draft_blocks_without_check
    st now user new_id sales_config_id selected_lots notes :
  let out := save_draft st now user new_id sales_config_id selected_lots notes in
  (success (snd out) = true
   <-> exists salesConfig broker,
         sales_configuration_by_id st sales_config_id = Some salesConfig
         /\ broker_of st (SalesConfig.broker_id salesConfig) = Some broker)
  /\ ((success (snd out) = true
   /\ code (snd out) = 201
   /\ inventory_table (fst out)
      = update_where (fun l => mem (Inventory.id l) selected_lots)
          (Inventory.set_status_at BLOCKED (JS.toISOString now)) (inventory_table st)
   /\ (forall l', In l' (inventory_table (fst out)) ->
                  mem (Inventory.id l') selected_lots = true ->
                  Inventory.status l' = BLOCKED)
   /\ (forall l', In l' (inventory_table (fst out)) ->
                  mem (Inventory.id l') selected_lots = false ->
                  In l' (inventory_table st)))
  \/ (success (snd out) = false
      /\ (code (snd out) = 404 \/ code (snd out) = 500)
      /\ fst out = st)).
Proof.
  cbv zeta. split.
  { split.
    - intros Hok.
      destruct (sales_configuration_by_id st sales_config_id) as [salesConfig|] eqn:Hcfg.
      + destruct (broker_of st (SalesConfig.broker_id salesConfig)) as [broker|] eqn:Hb;
          [eauto|].
        destruct (save_draft_not_found st now user new_id sales_config_id
                    selected_lots notes) as (_ & H2 & _); [eauto|]. congruence.
      + destruct (save_draft_not_found st now user new_id sales_config_id
                    selected_lots notes) as (_ & H2 & _); [auto|]. congruence.
    - intros (salesConfig & broker & Hcfg & Hb).
      now destruct (save_draft_found st now user new_id sales_config_id selected_lots
                      notes salesConfig broker Hcfg Hb) as (_ & Hok & _). }
  destruct (sales_configuration_by_id st sales_config_id) as [salesConfig|] eqn:Hcfg.
  - destruct (broker_of st (SalesConfig.broker_id salesConfig)) as [broker|] eqn:Hb.
    + left.
      destruct (save_draft_found st now user new_id sales_config_id selected_lots
                  notes salesConfig broker Hcfg Hb)
        as (Hcode & Hok & Hinv & _).
      repeat split; try assumption.
      * intros l' Hin Hmem. rewrite Hinv in Hin.
        apply update_where_In in Hin as (l & _ & ->).
        destruct (mem (Inventory.id l) selected_lots) eqn:E; [reflexivity|].
        congruence.
      * intros l' Hin Hmem. rewrite Hinv in Hin.
        apply update_where_In in Hin as (l & Hl & ->).
        destruct (mem (Inventory.id l) selected_lots) eqn:E; [|assumption].
        cbn in Hmem. congruence.
    + right.
      destruct (save_draft_not_found st now user new_id sales_config_id
                  selected_lots notes) as (H1 & H2 & H3); [eauto|]. auto.
  - right.
    destruct (save_draft_not_found st now user new_id sales_config_id
                selected_lots notes) as (H1 & H2 & H3); [auto|]. auto.
Qed.

(** C3, counterexample.  An order for two lots has three lots assigned.  The
    customer accepts all three: the second acceptance reaches the required
    quantity and sends a confirmation event, the third sends another one.
    Two events are sent for the order, and the draft is still DRAFT and the
    order still pending. *)
Lemma fire_once_counterexample :
  let calls :=
    [(Scenario.noon, Scenario.buyer, "assignment-001", Accept);
     (Scenario.noon, Scenario.buyer, "assignment-002", Accept);
     (Scenario.noon, Scenario.buyer, "assignment-003", Accept)] in
  let st' := respond_all Scenario.awaiting calls in
  confirmations Scenario.awaiting "sale-1" = []
  /\ List.length (confirmations st' "sale-1") = 2
  /\ map Sales.status (sales_table st') = [DRAFT]
  /\ map SalesConfig.status (sales_configuration st') = [pending]
  /\ ~ fire_once_claim.
Proof.
  cbv zeta. repeat (split; [vm_compute; reflexivity|]).
  intros H.
  specialize (H Scenario.awaiting
                [(Scenario.noon, Scenario.buyer, "assignment-001", Accept);
                 (Scenario.noon, Scenario.buyer, "assignment-002", Accept);
                 (Scenario.noon, Scenario.buyer, "assignment-003", Accept)]
                "sale-1" eq_refl).
  vm_compute in H. lia.
Qed.

(** C3, as the helper behaves.  For a known sales record with a known
    configuration, [checkAndTriggerConfirmation] sends exactly one
    confirmation event when the number of ACCEPTED assignments of the order
    is at least the requested quantity, whatever the status of the draft,
    and does nothing when it is below; it never writes the draft, the order,
    the lots or the assignments.  So every evaluation at or above the
    threshold adds one more event. *)
Theorem confirmation_sent_on_every_evaluation_at_threshold
    st salesId user salesInfo sales_configuration_row :
  single (filter (fun s => String.eqb (Sales.id s) salesId) (sales_table st))
    = Some salesInfo ->
  configuration_of st (Sales.sales_config_id salesInfo) = Some sales_configuration_row ->
  let st' := checkAndTriggerConfirmation st salesId user in
  let acceptedCount :=
    List.length
      (filter (fun a => String.eqb (Assignment.sales_id a) salesId
                        && LotStatus_eqb (Assignment.lot_status a) ACCEPTED)
              (customer_assignment_table st)) in
  let requiredQuantity := SalesConfig.requested_quantity sales_configuration_row in
  ((requiredQuantity <= Z.of_nat acceptedCount)%Z ->
   webhooks st'
   = webhooks st
     ++ [LotAcceptanceConfirmation salesId
           (customer_of st (SalesConfig.customer_id sales_configuration_row))
           (broker_of st (SalesConfig.broker_id sales_configuration_row))
           acceptedCount requiredQuantity user]
   /\ List.length (confirmations st' salesId)
      = S (List.length (confirmations st salesId)))
  /\ ((Z.of_nat acceptedCount < requiredQuantity)%Z -> st' = st)
  /\ sales_table st' = sales_table st
  /\ sales_configuration st' = sales_configuration st
  /\ inventory_table st' = inventory_table st
  /\ customer_assignment_table st' = customer_assignment_table st.
Proof.
  intros Hsale Hcfg. cbv zeta.
  destruct (checkAndTriggerConfirmation_tables st salesId user)
    as (Hi & Hc & _ & _ & Hs & _ & Ha).
  split; [|split; [|repeat split; assumption]].
  - intros Hge. unfold checkAndTriggerConfirmation. rewrite Hsale, Hcfg.
    apply Z.leb_le in Hge. rewrite Hge.
    cbn [webhooks insert_audit post_webhook]. split; [reflexivity|].
    unfold confirmations. cbn [webhooks insert_audit post_webhook].
    rewrite filter_app, length_app. cbn [filter]. rewrite String.eqb_refl.
    cbn [List.length]. lia.
  - intros Hlt. unfold checkAndTriggerConfirmation. rewrite Hsale, Hcfg.
    apply Z.leb_gt in Hlt. now rewrite Hlt.
Qed.

(** C3 on the order for two lots after two acceptances: one event is
    already sent, and one more evaluation sends the second. *)
Lemma confirmation_sent_on_every_evaluation_at_threshold_witness :
  let st2 :=
    respond_all Scenario.awaiting
      [(Scenario.noon, Scenario.buyer, "assignment-001", Accept);
       (Scenario.noon, Scenario.buyer, "assignment-002", Accept)] in
  List.length (confirmations st2 "sale-1") = 1
  /\ List.length
       (confirmations (checkAndTriggerConfirmation st2 "sale-1" Scenario.buyer) "sale-1")
     = 2.
Proof.
  cbv zeta. split; [vm_compute; reflexivity|].
  destruct (confirmation_sent_on_every_evaluation_at_threshold
              (respond_all Scenario.awaiting
                 [(Scenario.noon, Scenario.buyer, "assignment-001", Accept);
                  (Scenario.noon, Scenario.buyer, "assignment-002", Accept)])
              "sale-1" Scenario.buyer Scenario.draft (Scenario.order 2))
    as (Hfire & _).
  - vm_compute. reflexivity.
  - vm_compute. reflexivity.
  - destruct Hfire as [_ Hlen]; [vm_compute; discriminate|].
    rewrite Hlen. vm_compute. reflexivity.
Defined.

(** C4, counterexample.  An assignment swept to EXPIRED after its window
    ended on 9 June is answered by its customer on 10 June: the route refuses
    with "Assignment window has expired", not with "Assignment has already
    been responded to". *)
Lemma already_resolved_counterexample :
  let out := respond Scenario.lapsed Scenario.noon Scenario.buyer
               "assignment-001" Accept in
  option_map Assignment.lot_status
    (assignment_by_id Scenario.lapsed "assignment-001") = Some EXPIRED
  /\ code (snd out) = 400
  /\ message (snd out) = Some "Assignment window has expired"
  /\ ~ already_resolved_claim.
Proof.
  cbv zeta. repeat (split; [vm_compute; reflexivity|]).
  intros H.
  specialize (H Scenario.lapsed Scenario.noon Scenario.buyer "assignment-001"
                (Scenario.assignment 1 EXPIRED "2024-06-09") Accept
                eq_refl ltac:(discriminate) eq_refl).
  cbv zeta in H. destruct H as [_ H]. vm_compute in H. discriminate H.
Qed.

(** C4, as the routes behave.  A response, accept or reject, to an
    assignment whose status is ACCEPTED, REJECTED or EXPIRED always fails and
    leaves the store unchanged.  When the actor is not the bound customer the
    answer is 403; when it is, the answer is 400 with "Assignment window has
    expired" if the current date is after the window end date (that check
    comes first) and with "Assignment has already been responded to"
    otherwise. *)
Theorem respond_terminal_fails st now user assignment_id a d :
  assignment_by_id st assignment_id = Some a ->
  Assignment.lot_status a <> PENDING ->
  let out := respond st now user assignment_id d in
  fst out = st
  /\ success (snd out) = false
  /\ (customerIdOf st user <> Some (Assignment.customer_id a) ->
      code (snd out) = 403
      /\ message (snd out) = Some "Not authorized to modify this assignment")
  /\ (customerIdOf st user = Some (Assignment.customer_id a) ->
      code (snd out) = 400
      /\ message (snd out)
         = Some (if JS.str_gt (JS.currentDateOf now) (Assignment.window_end_date a)
                 then "Assignment window has expired"
                 else "Assignment has already been responded to")).
Proof.
  intros Ha Hterm. cbv zeta.
  pose proof (respond_cases st now user assignment_id d) as H. cbv zeta in H.
  rewrite Ha in H.
  assert (Hst : negb (LotStatus_eqb (Assignment.lot_status a) PENDING) = true).
  { apply negb_true_iff. destruct (LotStatus_eqb _ _) eqn:E; [|reflexivity].
    apply LotStatus_eqb_eq in E. contradiction. }
  rewrite Hst in H.
  destruct (negb (opt_eqb _ _)) eqn:Hown.
  - rewrite H. unfold failure. cbn [fst snd code success message].
    split; [reflexivity|]. split; [reflexivity|].
    split; [intros _; split; reflexivity|].
    intros Hc. exfalso. apply opt_eqb_Some in Hc.
    apply negb_true_iff in Hown. congruence.
  - apply negb_false_iff, opt_eqb_Some in Hown.
    destruct (JS.str_gt _ _); rewrite H; unfold failure;
      cbn [fst snd code success message];
      (split; [reflexivity|]; split; [reflexivity|];
       split; [intros Hc; contradiction | intros _; split; reflexivity]).
Qed.

(** C4 on the assignment that was swept to EXPIRED. *)
Lemma respond_terminal_fails_witness :
  let out := respond Scenario.lapsed Scenario.noon Scenario.buyer
               "assignment-001" Reject in
  fst out = Scenario.lapsed /\ success (snd out) = false.
Proof.
  cbv zeta.
  destruct (respond_terminal_fails Scenario.lapsed Scenario.noon Scenario.buyer
              "assignment-001" (Scenario.assignment 1 EXPIRED "2024-06-09") Reject
              eq_refl ltac:(discriminate)) as (H1 & H2 & _).
  split; [exact H1 | exact H2].
Defined.



(** C6.  For an assignment whose window end date is before the current
    date, an accept by the bound customer fails with 400 "Assignment window
    has expired" and leaves the store unchanged, whether or not the
    auto-expire block has run; and when the assignment is still PENDING, the
    auto-expire block of the listing for that customer leaves it EXPIRED and
    its lot AVAILABLE. *)
Theorem expired_window_not_accepted_and_swept
    st now user assignment_id a e :
  assignment_by_id st assignment_id = Some a ->
  Assignment.window_end_date a = dateString e ->
  valid_date e -> valid_date now -> day_before e now ->
  customerIdOf st user = Some (Assignment.customer_id a) ->
  (let out := respond st now user assignment_id Accept in
   fst out = st
   /\ success (snd out) = false
   /\ code (snd out) = 400
   /\ message (snd out) = Some "Assignment window has expired")
  /\ (Assignment.lot_status a = PENDING ->
      let st' := fst (lots st now user) in
      assignment_by_id st' assignment_id
        = Some (Assignment.expire (JS.toISOString now) a)
      /\ (forall a', In a' (customer_assignment_table st') ->
                     Assignment.id a' = assignment_id ->
                     Assignment.lot_status a' = EXPIRED)
      /\ (forall l, In l (inventory_table st') ->
                    Inventory.id l = Assignment.inventory_id a ->
                    Inventory.status l = AVAILABLE)).
Proof.
  intros Ha Hend He Hnow Hpast Hown.
  assert (Hgt : JS.str_gt (JS.currentDateOf now) (Assignment.window_end_date a) = true).
  { rewrite Hend, currentDateOf_dateString by apply Hnow.
    now apply dateString_gt. }
  split.
  - cbv zeta.
    pose proof (respond_cases st now user assignment_id Accept) as H. cbv zeta in H.
    rewrite Ha in H.
    assert (Ho : negb (opt_eqb (Some (Assignment.customer_id a)) (customerIdOf st user)) = false)
      by (apply negb_false_iff, opt_eqb_Some; assumption).
    rewrite Ho, Hgt in H. rewrite H. repeat split.
  - intros Hpending. cbv zeta.
    destruct (assignment_by_id_In _ _ _ Ha) as [Hin Hid].
    assert (Hover : In a (overdue st now (Assignment.customer_id a))).
    { unfold overdue. apply filter_In. split.
      - apply assignments_of_In. auto.
      - unfold isPending, isWithinWindow. rewrite Hpending, str_le_not_gt, Hgt.
        reflexivity. }
    rewrite (lots_store st now user _ Hown).
    destruct (overdue st now (Assignment.customer_id a)) as [|x r] eqn:Eo;
      [contradiction|]. rewrite <- Eo in *. clear x r Eo.
    assert (Hupd :
              assignment_by_id
                (with_inventory
                   (update_where
                      (fun l => mem (Inventory.id l)
                                  (map Assignment.inventory_id
                                     (overdue st now (Assignment.customer_id a))))
                      (Inventory.set_status AVAILABLE))
                   (with_assignments
                      (update_where
                         (fun r => mem (Assignment.id r)
                                     (map Assignment.id
                                        (overdue st now (Assignment.customer_id a))))
                         (Assignment.expire (JS.toISOString now))) st))
                assignment_id
              = Some (Assignment.expire (JS.toISOString now) a)).
    { rewrite (assignment_by_id_ext _
                 (with_assignments
                    (update_where
                       (fun r => mem (Assignment.id r)
                                   (map Assignment.id
                                      (overdue st now (Assignment.customer_id a))))
                       (Assignment.expire (JS.toISOString now))) st)) by reflexivity.
      rewrite (assignment_by_id_updated st assignment_id a _ _ Ha) by reflexivity.
      assert (Hm : mem (Assignment.id a)
                     (map Assignment.id (overdue st now (Assignment.customer_id a))) = true)
        by (apply mem_In, in_map; assumption).
      now rewrite Hm. }
    split; [exact Hupd|]. split.
    + intros a' Hin' Hid'.
      assert (a' = Assignment.expire (JS.toISOString now) a) as ->.
      { apply (single_unique _ _ _ _ Hupd Hin'). now apply String.eqb_eq. }
      reflexivity.
    + intros l Hl Hlid. cbn [inventory_table with_inventory with_assignments] in Hl.
      apply update_where_In in Hl as (l0 & _ & ->).
      assert (Hm : mem (Inventory.id l0)
                     (map Assignment.inventory_id
                        (overdue st now (Assignment.customer_id a))) = true).
      { apply mem_In.
        replace (Inventory.id l0) with (Assignment.inventory_id a).
        - now apply in_map.
        - destruct (mem _ _); symmetry; exact Hlid. }
      rewrite Hm. reflexivity.
Qed.

(** C6 on the first millisecond of 11 June, for a window that ended on
    10 June. *)
Lemma expired_window_not_accepted_and_swept_witness :
  message (snd (respond Scenario.awaiting Scenario.next_morning Scenario.buyer
                  "assignment-001" Accept))
  = Some "Assignment window has expired"
  /\ assignment_by_id
       (fst (lots Scenario.awaiting Scenario.next_morning Scenario.buyer))
       "assignment-001"
     = Some (Assignment.expire "2024-06-11T00:00:00.001Z"
               (Scenario.assignment 1 PENDING "2024-06-10")).
Proof.
  destruct (expired_window_not_accepted_and_swept
              Scenario.awaiting Scenario.next_morning Scenario.buyer
              "assignment-001" (Scenario.assignment 1 PENDING "2024-06-10")
              Scenario.end_date eq_refl eq_refl)
    as ((_ & _ & _ & Hmsg) & Hsweep).
  - unfold valid_date. cbn. lia.
  - unfold valid_date. cbn. lia.
  - unfold day_before. cbn. lia.
  - reflexivity.
  - split; [exact Hmsg|]. destruct (Hsweep eq_refl) as [H _]. exact H.
Defined.



(** C8, counterexample.  A draft with one lot is saved for an order that
    requests fifty: the call succeeds with 201, the draft record is created
    and the lot is BLOCKED. *)
Lemma floor_at_commit_counterexample :
  let out := save_draft Scenario.contended Scenario.noon Scenario.trader
               "sale-1" "order-1" ["lot-002"] None in
  option_map SalesConfig.requested_quantity
    (sales_configuration_by_id Scenario.contended "order-1") = Some 50%Z
  /\ code (snd out) = 201 /\ success (snd out) = true
  /\ map Sales.id (sales_table (fst out)) = ["sale-1"]
  /\ map Sales.status (sales_table (fst out)) = [DRAFT]
  /\ statuses (fst out)
     = [("lot-001", BLOCKED); ("lot-002", BLOCKED); ("lot-003", AVAILABLE)]
  /\ ~ floor_at_commit_claim.
Proof.
  cbv zeta. repeat (split; [vm_compute; reflexivity|]).
  intros H.
  specialize (H Scenario.contended Scenario.noon Scenario.trader
                "sale-1" "order-1" ["lot-002"] None (Scenario.order 50)
                eq_refl eq_refl).
  cbv zeta in H. destruct H as [Hfail _]; [cbn; lia|].
  vm_compute in Hfail. discriminate Hfail.
Qed.

(** C8, as the routes behave.  For a known order with a broker,
    [save-draft] succeeds with 201, inserts the draft and blocks the
    requested lots however many they are; the floor is checked by
    [manual-lot-selection] alone, which answers 400 exactly when fewer
    AVAILABLE lots are selected than the order requests, and 200 with those
    lots otherwise. *)
Theorem floor_checked_by_manual_selection_only
    st now user new_id sales_config_id selected_lots notes salesConfig broker :
  sales_configuration_by_id st sales_config_id = Some salesConfig ->
  broker_of st (SalesConfig.broker_id salesConfig) = Some broker ->
  let out := save_draft st now user new_id sales_config_id selected_lots notes in
  let checked := manual_lot_selection st sales_config_id selected_lots in
  let available :=
    filter (fun l => mem (Inventory.id l) selected_lots
                     && InventoryStatus_eqb (Inventory.status l) AVAILABLE)
           (inventory_table st) in
  (success (snd out) = true
   /\ code (snd out) = 201
   /\ sales_table (fst out)
      = sales_table st ++ [draft_of st user new_id sales_config_id selected_lots broker]
   /\ inventory_table (fst out)
      = update_where (fun l => mem (Inventory.id l) selected_lots)
          (Inventory.set_status_at BLOCKED (JS.toISOString now)) (inventory_table st))
  /\ ((Z.of_nat (List.length available) < SalesConfig.requested_quantity salesConfig)%Z ->
      code checked = 400 /\ success checked = false /\ data checked = None)
  /\ ((SalesConfig.requested_quantity salesConfig <= Z.of_nat (List.length available))%Z ->
      code checked = 200 /\ success checked = true
      /\ option_map ManualSelect.selected_lots (data checked) = Some available).
Proof.
  intros Hcfg Hb. cbv zeta.
  destruct (save_draft_found st now user new_id sales_config_id selected_lots
              notes salesConfig broker Hcfg Hb)
    as (Hcode & Hok & Hinv & Hsales & _).
  split; [repeat split; assumption|].
  unfold manual_lot_selection. rewrite Hcfg.
  split; intros Hcount.
  - apply Z.ltb_lt in Hcount. rewrite Hcount. repeat split.
  - apply Z.ltb_ge in Hcount. rewrite Hcount. repeat split.
Qed.

(** C8 on one lot for an order of fifty: the validation route refuses it,
    the draft route saves it. *)
Lemma floor_checked_by_manual_selection_only_witness :
  let out := save_draft Scenario.contended Scenario.noon Scenario.trader
               "sale-1" "order-1" ["lot-002"] None in
  let checked := manual_lot_selection Scenario.contended "order-1" ["lot-002"] in
  success (snd out) = true /\ code checked = 400.
Proof.
  cbv zeta.
  destruct (floor_checked_by_manual_selection_only
              Scenario.contended Scenario.noon Scenario.trader
              "sale-1" "order-1" ["lot-002"] None (Scenario.order 50)
              {| BrokerInfo.id := "broker-1";
                 BrokerInfo.commission_rate := Some (JS.of_int 2) |}
              eq_refl eq_refl) as ((Hok & _) & Hlow & _).
  split; [exact Hok|]. apply Hlow. vm_compute. reflexivity.
Defined.

(** C9, counterexample.  A draft is saved for lots 2 and 3: the call
    succeeds and both lots are BLOCKED, but [customer_assignment_table] is
    still empty: no PENDING assignment exists for the claimed lots. *)
Lemma assignments_created_counterexample :
  let out := save_draft Scenario.contended Scenario.noon Scenario.trader
               "sale-1" "order-1" ["lot-002"; "lot-003"] None in
  success (snd out) = true
  /\ statuses (fst out)
     = [("lot-001", BLOCKED); ("lot-002", BLOCKED); ("lot-003", BLOCKED)]
  /\ customer_assignment_table (fst out) = []
  /\ ~ assignments_created_claim.
Proof.
  cbv zeta. repeat (split; [vm_compute; reflexivity|]).
  intros H.
  specialize (H Scenario.contended Scenario.noon Scenario.trader
                "sale-1" "order-1" ["lot-002"; "lot-003"] None).
  cbv zeta in H.
  destruct (H eq_refl (Scenario.lot 2 AVAILABLE)) as (a & Hin & _).
  - right. left. reflexivity.
  - vm_compute. reflexivity.
  - vm_compute in Hin. exact Hin.
Qed.

(** C9, as the route behaves.  A successful [save-draft] inserts one sales
    record with status DRAFT for the order, inserts one
    [lot_selected_contract] row per claimed lot, with status SELECTED and
    quantity 1, sets the status of the order to processing, and leaves
    [customer_assignment_table] untouched: it creates no assignment and no
    response window. *)
Theorem save_draft_records
    st now user new_id sales_config_id selected_lots notes salesConfig broker :
  sales_configuration_by_id st sales_config_id = Some salesConfig ->
  broker_of st (SalesConfig.broker_id salesConfig) = Some broker ->
  let out := save_draft st now user new_id sales_config_id selected_lots notes in
  let lots := filter (fun l => mem (Inventory.id l) selected_lots) (inventory_table st) in
  success (snd out) = true
  /\ (exists draft,
        sales_table (fst out) = sales_table st ++ [draft]
        /\ Sales.id draft = new_id
        /\ Sales.status draft = DRAFT
        /\ Sales.sales_config_id draft = sales_config_id
        /\ SalesData.total_bales (Sales.data draft) = List.length lots)
  /\ (exists selections,
        lot_selected_contract (fst out) = lot_selected_contract st ++ selections
        /\ map LotSelection.inventory_id selections = map Inventory.id lots
        /\ (forall s, In s selections ->
              LotSelection.sales_id s = new_id
              /\ LotSelection.status s = SELECTED
              /\ LotSelection.quantity s = 1))
  /\ customer_assignment_table (fst out) = customer_assignment_table st
  /\ (forall c, In c (sales_configuration (fst out)) ->
        SalesConfig.id c = sales_config_id -> SalesConfig.status c = processing)
  /\ (exists c, In c (sales_configuration (fst out))
                /\ SalesConfig.id c = sales_config_id).
Proof.
  intros Hcfg Hb. cbv zeta.
  destruct (save_draft_found st now user new_id sales_config_id selected_lots
              notes salesConfig broker Hcfg Hb)
    as (Hcode & Hok & Hinv & Hsales & Hsel & Hconf & Hasg).
  split; [exact Hok|]. split; [|split; [|split; [exact Hasg|split]]].
  - eexists. split; [exact Hsales|]. repeat split.
  - eexists. split; [exact Hsel|]. split.
    + rewrite map_map. reflexivity.
    + intros s Hs. apply in_map_iff in Hs as (lot & <- & _). repeat split.
  - intros c Hc Hid. rewrite Hconf in Hc.
    apply update_where_In in Hc as (c0 & _ & ->).
    destruct (String.eqb (SalesConfig.id c0) sales_config_id) eqn:E; [reflexivity|].
    apply String.eqb_neq in E. contradiction.
  - unfold sales_configuration_by_id in Hcfg. apply single_Some in Hcfg.
    assert (Hin : In salesConfig (sales_configuration st)).
    { assert (Hf : In salesConfig
                      (filter (fun c => String.eqb (SalesConfig.id c) sales_config_id)
                              (sales_configuration st)))
        by (rewrite Hcfg; left; reflexivity).
      apply filter_In in Hf. tauto. }
    assert (Hid : String.eqb (SalesConfig.id salesConfig) sales_config_id = true).
    { assert (Hf : In salesConfig
                      (filter (fun c => String.eqb (SalesConfig.id c) sales_config_id)
                              (sales_configuration st)))
        by (rewrite Hcfg; left; reflexivity).
      apply filter_In in Hf. tauto. }
    exists (SalesConfig.set_status_at processing (JS.toISOString now) salesConfig).
    split.
    + rewrite Hconf. unfold update_where. apply in_map_iff.
      exists salesConfig. rewrite Hid. auto.
    + cbn. now apply String.eqb_eq.
Qed.

(** C9 on the draft for lots 2 and 3. *)
Lemma save_draft_records_witness :
  let out := save_draft Scenario.contended Scenario.noon Scenario.trader
               "sale-1" "order-1" ["lot-002"; "lot-003"] None in
  success (snd out) = true
  /\ customer_assignment_table (fst out)
     = customer_assignment_table Scenario.contended.
Proof.
  cbv zeta.
  destruct (save_draft_records
              Scenario.contended Scenario.noon Scenario.trader
              "sale-1" "order-1" ["lot-002"; "lot-003"] None (Scenario.order 50)
              {| BrokerInfo.id := "broker-1";
                 BrokerInfo.commission_rate := Some (JS.of_int 2) |}
              eq_refl eq_refl) as (Hok & _ & _ & Hasg & _).
  split; [exact Hok | exact Hasg].
Defined.

(** C10.  The window check compares calendar dates:
    [new Date().toISOString().split('T')[0]] is the calendar date of [now],
    whatever the time of day.  For a PENDING assignment and its bound
    customer, on the window end date itself or any earlier day both accept
    and reject succeed and the listing puts the assignment under [active];
    from the following calendar day onward both answer "Assignment window has
    expired" and the listing puts it under [expired]. *)
Theorem window_check_compares_calendar_dates
    st now user assignment_id a e :
  assignment_by_id st assignment_id = Some a ->
  Assignment.lot_status a = PENDING ->
  customerIdOf st user = Some (Assignment.customer_id a) ->
  Assignment.window_end_date a = dateString e ->
  valid_date e -> valid_date now ->
  JS.currentDateOf now = dateString now
  /\ (same_day now e \/ day_before now e ->
      success (snd (respond st now user assignment_id Accept)) = true
      /\ success (snd (respond st now user assignment_id Reject)) = true
      /\ exists listing,
           data (snd (lots st now user)) = Some listing
           /\ In a (Listing.active listing))
  /\ (day_before e now ->
      message (snd (respond st now user assignment_id Accept))
        = Some "Assignment window has expired"
      /\ message (snd (respond st now user assignment_id Reject))
        = Some "Assignment window has expired"
      /\ exists listing,
           data (snd (lots st now user)) = Some listing
           /\ ~ In a (Listing.active listing)
           /\ In (Assignment.expire (JS.toISOString now) a) (Listing.expired listing)).
Proof.
  intros Ha Hpending Hown Hend He Hnow.
  assert (Hcur : JS.currentDateOf now = dateString now)
    by (apply currentDateOf_dateString, Hnow).
  assert (Ho : negb (opt_eqb (Some (Assignment.customer_id a)) (customerIdOf st user)) = false)
    by (apply negb_false_iff, opt_eqb_Some; assumption).
  assert (Hp : negb (LotStatus_eqb (Assignment.lot_status a) PENDING) = false)
    by (now rewrite Hpending).
  destruct (assignment_by_id_In _ _ _ Ha) as [Hin Hid].
  pose proof (dateString_gt now e Hnow He) as Hgt.
  rewrite <- Hcur, <- Hend in Hgt.
  destruct (lots_listing st now user _ Hown) as (listing & Hl & Hact & Hexp).
  split; [exact Hcur|]. split.
  - intros Hday.
    assert (Hle : JS.str_gt (JS.currentDateOf now) (Assignment.window_end_date a) = false).
    { destruct (JS.str_gt _ _); [|reflexivity].
      assert (Hb : day_before e now) by (now apply Hgt).
      unfold same_day, day_before in *. lia. }
    pose proof (respond_cases st now user assignment_id Accept) as HA.
    pose proof (respond_cases st now user assignment_id Reject) as HR.
    cbv zeta in HA, HR. rewrite Ha, Ho, Hle, Hp in HA, HR.
    rewrite HA, HR. split; [reflexivity|]. split; [reflexivity|].
    exists listing. split; [exact Hl|]. rewrite Hact.
    apply filter_In. split; [apply assignments_of_In; auto|].
    unfold isPending, isWithinWindow. now rewrite Hpending, str_le_not_gt, Hle.
  - intros Hday. apply Hgt in Hday.
    pose proof (respond_cases st now user assignment_id Accept) as HA.
    pose proof (respond_cases st now user assignment_id Reject) as HR.
    cbv zeta in HA, HR. rewrite Ha, Ho, Hday in HA, HR.
    rewrite HA, HR. split; [reflexivity|]. split; [reflexivity|].
    exists listing. split; [exact Hl|]. split.
    + rewrite Hact. intros Hf. apply filter_In in Hf as [_ Hf].
      unfold isPending, isWithinWindow in Hf.
      rewrite Hpending, str_le_not_gt, Hday in Hf. discriminate.
    + rewrite Hexp. apply in_map. unfold overdue.
      apply filter_In. split; [apply assignments_of_In; auto|].
      unfold isPending, isWithinWindow. now rewrite Hpending, str_le_not_gt, Hday.
Qed.

(** C10 at the last millisecond of the window end date and at the first
    millisecond of the next day. *)
Lemma window_check_compares_calendar_dates_witness :
  success (snd (respond Scenario.awaiting Scenario.last_minute Scenario.buyer
                  "assignment-001" Accept)) = true
  /\ message (snd (respond Scenario.awaiting Scenario.next_morning Scenario.buyer
                     "assignment-001" Accept))
     = Some "Assignment window has expired".
Proof.
  split.
  - destruct (window_check_compares_calendar_dates
                Scenario.awaiting Scenario.last_minute Scenario.buyer
                "assignment-001" (Scenario.assignment 1 PENDING "2024-06-10")
                Scenario.end_date eq_refl eq_refl eq_refl eq_refl)
      as (_ & Hsame & _).
    + unfold valid_date. cbn. lia.
    + unfold valid_date. cbn. lia.
    + apply Hsame. left. unfold same_day. cbn. auto.
  - destruct (window_check_compares_calendar_dates
                Scenario.awaiting Scenario.next_morning Scenario.buyer
                "assignment-001" (Scenario.assignment 1 PENDING "2024-06-10")
                Scenario.end_date eq_refl eq_refl eq_refl eq_refl)
      as (_ & _ & Hlate).
    + unfold valid_date. cbn. lia.
    + unfold valid_date. cbn. lia.
    + apply Hlate. unfold day_before. cbn. lia.
Defined.

(** * Further properties of the routes *)

(** X1.  Every lot [auto-select-lots] offers or selects is a lot of the
    inventory that is AVAILABLE and meets the order: the fibre length and
    the variety of its line specs and its priority branch, each where the
    order names one. *)
Theorem auto_select_offers_matching_available_lots st sales_config_id q d l :
  data (auto_select_lots st sales_config_id q) = Some d ->
  In l (AutoSelect.auto_selected d) \/ In l (AutoSelect.available_lots d) ->
  exists salesConfig,
    sales_configuration_by_id st sales_config_id = Some salesConfig
    /\ In l (inventory_table st)
    /\ Inventory.status l = AVAILABLE
    /\ meets salesConfig l.
Proof.
  intros Hd Hl.
  destruct (auto_select_lots_data _ _ _ _ Hd) as (salesConfig & Hcfg & Hsel & Hav & _).
  exists salesConfig. split; [exact Hcfg|].
  apply matchingLots_In. apply Hav. destruct Hl as [Hl|Hl]; auto.
Qed.

Lemma auto_select_offers_matching_available_lots_witness :
  exists salesConfig,
    sales_configuration_by_id Scenario.contended "order-1" = Some salesConfig
    /\ In (Scenario.lot 2 AVAILABLE) (inventory_table Scenario.contended)
    /\ Inventory.status (Scenario.lot 2 AVAILABLE) = AVAILABLE
    /\ meets salesConfig (Scenario.lot 2 AVAILABLE).
Proof.
  destruct (data (auto_select_lots Scenario.contended "order-1" 50)) as [d|] eqn:Hd;
    [|vm_compute in Hd; discriminate Hd].
  apply (auto_select_offers_matching_available_lots
           Scenario.contended "order-1" 50 d (Scenario.lot 2 AVAILABLE) Hd).
  vm_compute in Hd. injection Hd as <-. left. cbn. left. reflexivity.
Defined.

(** X2.  The selection is first in, first out: for a valid request on a
    known order whose limit evaluates to the integer [n], the selected lots
    are in increasing [created_at] order, and no matching lot that was left
    out entered the inventory before a selected one. *)
Theorem auto_select_is_first_in_first_out st sales_config_id q salesConfig n :
  autoSelectSchema q = true ->
  sales_configuration_by_id st sales_config_id = Some salesConfig ->
  JS.trunc (maxLimitOf q) = Some n ->
  (Z.of_nat (List.length (inventory_table st)) < 2 ^ 53)%Z ->
  exists d,
    data (auto_select_lots st sales_config_id q) = Some d
    /\ StronglySorted (in_order Inventory.created_at true) (AutoSelect.auto_selected d)
    /\ (forall x y,
          In x (AutoSelect.auto_selected d) ->
          In y (matchingLots st salesConfig) ->
          ~ In y (AutoSelect.auto_selected d) ->
          (Inventory.created_at x <= Inventory.created_at y)%Z).
Proof.
  intros Hq Hcfg Hn Hsize. apply autoSelectSchema_range in Hq.
  destruct (auto_select_lots_found st sales_config_id q salesConfig n
              Hcfg Hn ltac:(lia) Hsize) as (d & Hd & Hsel & _ & _).
  exists d. split; [exact Hd|]. rewrite Hsel.
  pose proof (order_by_sorted Inventory.created_at true (matchingLots st salesConfig))
    as Hs.
  split; [now apply sorted_firstn|].
  intros x y Hx Hy Hny.
  apply (order_by_In Inventory.created_at true) in Hy.
  rewrite <- (firstn_skipn (Z.to_nat n)) in Hy, Hs.
  apply in_app_or in Hy as [Hy|Hy]; [contradiction|].
  exact (sorted_split _ _ _ Hs x y Hx Hy).
Qed.

Lemma auto_select_is_first_in_first_out_witness :
  exists d,
    data (auto_select_lots Scenario.plenty "order-1" 100) = Some d
    /\ StronglySorted (in_order Inventory.created_at true) (AutoSelect.auto_selected d).
Proof.
  destruct (auto_select_is_first_in_first_out
              Scenario.plenty "order-1" 100 (Scenario.order 100) 120)
    as (d & Hd & Hs & _).
  - reflexivity.
  - reflexivity.
  - vm_compute. reflexivity.
  - vm_compute. reflexivity.
  - exists d. split; [exact Hd | exact Hs].
Defined.

(** X3.  There is no fallback from the priority branch: when an order names
    a priority branch in which no AVAILABLE lot stands, [auto-select-lots]
    answers out of stock with nothing offered, whatever other branches
    hold. *)
Theorem auto_select_no_fallback_from_priority_branch
    st sales_config_id q salesConfig branch :
  sales_configuration_by_id st sales_config_id = Some salesConfig ->
  SalesConfig.priority_branch salesConfig = Some branch ->
  branch <> "" ->
  (forall l, In l (inventory_table st) ->
             Inventory.status l = AVAILABLE -> Inventory.branch l <> branch) ->
  exists d,
    data (auto_select_lots st sales_config_id q) = Some d
    /\ AutoSelect.out_of_stock d = true
    /\ AutoSelect.auto_selected d = []
    /\ AutoSelect.available_lots d = []
    /\ message (auto_select_lots st sales_config_id q)
       = Some "No available lots found matching the criteria".
Proof.
  intros Hcfg Hb Hne Hnone.
  assert (Hm : matchingLots st salesConfig = []).
  { destruct (matchingLots st salesConfig) as [|l r] eqn:E; [reflexivity|].
    exfalso.
    assert (Hl : In l (matchingLots st salesConfig)) by (rewrite E; now left).
    apply matchingLots_In in Hl as (Hin & Hav & _ & Hw).
    unfold wants in Hw. rewrite Hb in Hw.
    destruct branch as [|c s]; [congruence|]. cbn in Hw.
    exact (Hnone l Hin Hav Hw). }
  unfold auto_select_lots. rewrite Hcfg, Hm.
  assert (Hl : forall k, limit k (order_by Inventory.created_at true (@nil Inventory.t)) = []).
  { intros k. unfold limit. cbn [order_by fold_right].
    destruct (JS.trunc k); [apply firstn_nil | reflexivity]. }
  rewrite Hl. eexists. repeat split.
Qed.

Lemma auto_select_no_fallback_from_priority_branch_witness :
  exists d,
    data (auto_select_lots Cases.elsewhere "order-1" 2) = Some d
    /\ AutoSelect.out_of_stock d = true.
Proof.
  destruct (auto_select_no_fallback_from_priority_branch
              Cases.elsewhere "order-1" 2 (Cases.order_from "Guntur" 2) "Guntur")
    as (d & Hd & Hoos & _).
  - reflexivity.
  - reflexivity.
  - discriminate.
  - intros l Hl _. cbn in Hl.
    destruct Hl as [<-|[<-|[<-|[]]]]; cbn; discriminate.
  - exists d. split; [exact Hd | exact Hoos].
Defined.

(** X4.  [manual-lot-selection] counts lots, not identifiers: with unique
    lot identifiers in the inventory, a selection that validates holds only
    AVAILABLE lots of the inventory that were asked for, and at least
    [requested_quantity] of them, so at least that many distinct
    identifiers were sent; repeating an identifier or naming a lot that is
    not AVAILABLE adds nothing to the count. *)
Theorem manual_selection_counts_distinct_available_lots
    st sales_config_id selected_lots d :
  NoDup (map Inventory.id (inventory_table st)) ->
  data (manual_lot_selection st sales_config_id selected_lots) = Some d ->
  (forall l, In l (ManualSelect.selected_lots d) ->
             In l (inventory_table st)
             /\ Inventory.status l = AVAILABLE
             /\ In (Inventory.id l) selected_lots)
  /\ ManualSelect.total_selected d <= List.length (nodup string_dec selected_lots)
  /\ (ManualSelect.required_minimum d <= Z.of_nat (ManualSelect.total_selected d))%Z
  /\ (ManualSelect.required_minimum d
      <= Z.of_nat (List.length (nodup string_dec selected_lots)))%Z.
Proof.
  intros Hu Hd.
  destruct (manual_lot_selection_data _ _ _ _ Hd)
    as (salesConfig & Hcfg & Hsel & Htot & Hmin & Hge & _).
  assert (Hle : ManualSelect.total_selected d
                <= List.length (nodup string_dec selected_lots)).
  { rewrite Htot, Hsel.
    apply (picked_by_id_length Inventory.id
             (fun l => InventoryStatus_eqb (Inventory.status l) AVAILABLE)).
    exact Hu. }
  split; [|split; [exact Hle|split; [rewrite Hmin; exact Hge | rewrite Hmin; lia]]].
  intros l Hl. rewrite Hsel in Hl. apply filter_In in Hl as [Hin Hb].
  apply andb_prop in Hb as [Hm Ha].
  split; [exact Hin|]. split; [now apply InventoryStatus_eqb_eq | now apply mem_In].
Qed.

Lemma manual_selection_counts_distinct_available_lots_witness :
  exists d,
    data (manual_lot_selection (Scenario.store_of
                                  [Scenario.lot 1 AVAILABLE; Scenario.lot 2 AVAILABLE]
                                  2 [] [])
            "order-1" ["lot-001"; "lot-002"; "lot-002"]) = Some d
    /\ ManualSelect.total_selected d <= 2.
Proof.
  destruct (data (manual_lot_selection
                    (Scenario.store_of
                       [Scenario.lot 1 AVAILABLE; Scenario.lot 2 AVAILABLE] 2 [] [])
                    "order-1" ["lot-001"; "lot-002"; "lot-002"])) as [d|] eqn:Hd;
    [|vm_compute in Hd; discriminate Hd].
  exists d. split; [reflexivity|].
  destruct (manual_selection_counts_distinct_available_lots
              (Scenario.store_of
                 [Scenario.lot 1 AVAILABLE; Scenario.lot 2 AVAILABLE] 2 [] [])
              "order-1" ["lot-001"; "lot-002"; "lot-002"] d) as (_ & Hle & _).
  - cbn. repeat constructor; cbn; intuition discriminate.
  - exact Hd.
  - exact Hle.
Defined.

(** X5.  A selection that [manual-lot-selection] validates and that is then
    saved gives a draft at or above the floor: [save-draft] succeeds, the
    draft counts at least [requested_quantity] bales, and every validated
    lot is BLOCKED afterwards. *)
Theorem validated_selection_saves_at_or_above_floor
    st now user new_id sales_config_id selected_lots notes d salesConfig broker :
  data (manual_lot_selection st sales_config_id selected_lots) = Some d ->
  sales_configuration_by_id st sales_config_id = Some salesConfig ->
  broker_of st (SalesConfig.broker_id salesConfig) = Some broker ->
  let out := save_draft st now user new_id sales_config_id selected_lots notes in
  success (snd out) = true
  /\ (exists draft,
        sales_table (fst out) = sales_table st ++ [draft]
        /\ Sales.status draft = DRAFT
        /\ (SalesConfig.requested_quantity salesConfig
            <= Z.of_nat (SalesData.total_bales (Sales.data draft)))%Z)
  /\ (forall l, In l (ManualSelect.selected_lots d) ->
        exists l', In l' (inventory_table (fst out))
                   /\ lot_identity l' = lot_identity l
                   /\ Inventory.status l' = BLOCKED).
Proof.
  intros Hd Hcfg Hb. cbv zeta.
  destruct (manual_lot_selection_data _ _ _ _ Hd)
    as (salesConfig' & Hcfg' & Hsel & Htot & _ & Hge & _).
  assert (salesConfig' = salesConfig) by congruence. subst salesConfig'.
  destruct (save_draft_found st now user new_id sales_config_id selected_lots
              notes salesConfig broker Hcfg Hb)
    as (_ & Hok & Hinv & Hsales & _).
  split; [exact Hok|]. split.
  - eexists. split; [exact Hsales|]. split; [reflexivity|].
    cbn [draft_of Sales.data SalesData.total_bales].
    rewrite Htot, Hsel in Hge.
    pose proof (filter_and_length
                  (fun l => mem (Inventory.id l) selected_lots)
                  (fun l => InventoryStatus_eqb (Inventory.status l) AVAILABLE)
                  (inventory_table st)) as Hle.
    lia.
  - intros l Hl. rewrite Hsel in Hl. apply filter_In in Hl as [Hin Hm].
    apply andb_prop in Hm as [Hm _].
    exists (Inventory.set_status_at BLOCKED (JS.toISOString now) l).
    split; [|split; reflexivity].
    rewrite Hinv. unfold update_where. apply in_map_iff.
    exists l. now rewrite Hm.
Qed.

Lemma validated_selection_saves_at_or_above_floor_witness :
  success (snd (save_draft
                  (Scenario.store_of
                     [Scenario.lot 1 AVAILABLE; Scenario.lot 2 AVAILABLE] 2 [] [])
                  Scenario.noon Scenario.trader "sale-1" "order-1"
                  ["lot-001"; "lot-002"] None)) = true.
Proof.
  destruct (data (manual_lot_selection
                    (Scenario.store_of
                       [Scenario.lot 1 AVAILABLE; Scenario.lot 2 AVAILABLE] 2 [] [])
                    "order-1" ["lot-001"; "lot-002"])) as [d|] eqn:Hd;
    [|vm_compute in Hd; discriminate Hd].
  destruct (validated_selection_saves_at_or_above_floor
              (Scenario.store_of
                 [Scenario.lot 1 AVAILABLE; Scenario.lot 2 AVAILABLE] 2 [] [])
              Scenario.noon Scenario.trader "sale-1" "order-1"
              ["lot-001"; "lot-002"] None d (Scenario.order 2) Scenario.broker
              Hd eq_refl eq_refl) as (Hok & _).
  exact Hok.
Defined.

(** X6.  [save-draft] counts the lots it finds, not the identifiers it is
    sent: the bales of the draft, the rows inserted in
    [lot_selected_contract] and [blocked_lots] of the answer are all the
    number of inventory rows whose identifier was sent; and when none of the
    identifiers is in the inventory the call still succeeds with 201 and
    saves an empty draft, blocking nothing. *)
Theorem save_draft_counts_found_lots
    st now user new_id sales_config_id selected_lots notes salesConfig broker :
  sales_configuration_by_id st sales_config_id = Some salesConfig ->
  broker_of st (SalesConfig.broker_id salesConfig) = Some broker ->
  let out := save_draft st now user new_id sales_config_id selected_lots notes in
  let found :=
    List.length (filter (fun l => mem (Inventory.id l) selected_lots)
                        (inventory_table st)) in
  option_map SaveDraft.blocked_lots (data (snd out)) = Some found
  /\ option_map (fun r => SalesData.total_bales (Sales.data (SaveDraft.sales_record r)))
       (data (snd out)) = Some found
  /\ List.length (lot_selected_contract (fst out))
     = List.length (lot_selected_contract st) + found
  /\ ((forall l, In l (inventory_table st) -> ~ In (Inventory.id l) selected_lots) ->
      code (snd out) = 201
      /\ found = 0
      /\ inventory_table (fst out) = inventory_table st
      /\ lot_selected_contract (fst out) = lot_selected_contract st).
Proof.
  intros Hcfg Hb. cbv zeta.
  destruct (save_draft_found st now user new_id sales_config_id selected_lots
              notes salesConfig broker Hcfg Hb)
    as (Hcode & _ & Hinv & _ & Hsel & _).
  assert (Hdata :
            option_map SaveDraft.blocked_lots
              (data (snd (save_draft st now user new_id sales_config_id selected_lots notes)))
            = Some (List.length (filter (fun l => mem (Inventory.id l) selected_lots)
                                        (inventory_table st)))
            /\ option_map
                 (fun r => SalesData.total_bales (Sales.data (SaveDraft.sales_record r)))
                 (data (snd (save_draft st now user new_id sales_config_id selected_lots notes)))
               = Some (List.length (filter (fun l => mem (Inventory.id l) selected_lots)
                                           (inventory_table st)))).
  { unfold save_draft. rewrite Hcfg, Hb. split; reflexivity. }
  destruct Hdata as [H1 H2].
  split; [exact H1|]. split; [exact H2|]. split.
  - rewrite Hsel, length_app, length_map. reflexivity.
  - intros Hnone.
    assert (Hf : filter (fun l => mem (Inventory.id l) selected_lots) (inventory_table st)
                 = []).
    { destruct (filter _ _) as [|l r] eqn:E; [reflexivity|]. exfalso.
      assert (Hl : In l (filter (fun l => mem (Inventory.id l) selected_lots)
                                (inventory_table st))) by (rewrite E; now left).
      apply filter_In in Hl as [Hin Hm]. apply mem_In in Hm.
      exact (Hnone l Hin Hm). }
    split; [exact Hcode|]. split; [now rewrite Hf|]. split.
    + rewrite Hinv. unfold update_where.
      rewrite <- (map_id (inventory_table st)) at 2.
      apply map_ext_in. intros l Hl.
      destruct (mem (Inventory.id l) selected_lots) eqn:E; [|reflexivity].
      exfalso. apply mem_In in E. exact (Hnone l Hl E).
    + rewrite Hsel, Hf. cbn [map]. apply app_nil_r.
Qed.

Lemma save_draft_counts_found_lots_witness :
  code (snd (save_draft Scenario.contended Scenario.noon Scenario.trader
               "sale-1" "order-1" ["lot-404"] None)) = 201
  /\ inventory_table
       (fst (save_draft Scenario.contended Scenario.noon Scenario.trader
               "sale-1" "order-1" ["lot-404"] None))
     = inventory_table Scenario.contended.
Proof.
  destruct (save_draft_counts_found_lots
              Scenario.contended Scenario.noon Scenario.trader
              "sale-1" "order-1" ["lot-404"] None (Scenario.order 50) Scenario.broker
              eq_refl eq_refl) as (_ & _ & _ & Hnone).
  destruct Hnone as (Hcode & _ & Hinv & _).
  - intros l Hl Hin. cbn in Hl, Hin.
    destruct Hl as [<-|[<-|[<-|[]]]]; destruct Hin as [Hin|[]];
      vm_compute in Hin; discriminate Hin.
  - split; [exact Hcode | exact Hinv].
Defined.

(** X7.  The indent numbers of a saved draft are those of its lots, each
    once. *)
Theorem draft_indent_numbers_are_those_of_its_lots
    st now user new_id sales_config_id selected_lots notes r :
  data (snd (save_draft st now user new_id sales_config_id selected_lots notes))
    = Some r ->
  let numbers := SalesData.indent_numbers (Sales.data (SaveDraft.sales_record r)) in
  NoDup numbers
  /\ (forall x, In x numbers
                <-> exists l, In l (inventory_table st)
                              /\ In (Inventory.id l) selected_lots
                              /\ Inventory.indent_number l = x).
Proof.
  unfold save_draft. intros Hr.
  destruct (sales_configuration_by_id st sales_config_id) as [salesConfig|];
    [|discriminate].
  destruct (broker_of st (SalesConfig.broker_id salesConfig)) as [broker|];
    [|discriminate].
  cbn [snd data] in Hr. injection Hr as <-. cbv zeta.
  cbn [SaveDraft.sales_record Sales.data SalesData.indent_numbers].
  split; [apply distinct_NoDup|].
  intros x. rewrite distinct_In, in_map_iff. split.
  - intros (l & <- & Hl). apply filter_In in Hl as [Hin Hm].
    exists l. split; [exact Hin|]. split; [now apply mem_In | reflexivity].
  - intros (l & Hin & Hm & <-). exists l. split; [reflexivity|].
    apply filter_In. split; [exact Hin | now apply mem_In].
Qed.

Lemma draft_indent_numbers_are_those_of_its_lots_witness :
  exists r,
    data (snd (save_draft Scenario.contended Scenario.noon Scenario.trader
                 "sale-1" "order-1" ["lot-002"; "lot-003"] None)) = Some r
    /\ NoDup (SalesData.indent_numbers (Sales.data (SaveDraft.sales_record r))).
Proof.
  destruct (data (snd (save_draft Scenario.contended Scenario.noon Scenario.trader
                         "sale-1" "order-1" ["lot-002"; "lot-003"] None)))
    as [r|] eqn:Hr; [|vm_compute in Hr; discriminate Hr].
  exists r. split; [reflexivity|].
  destruct (draft_indent_numbers_are_those_of_its_lots
              Scenario.contended Scenario.noon Scenario.trader
              "sale-1" "order-1" ["lot-002"; "lot-003"] None r Hr) as [H _].
  exact H.
Defined.

(** X8.  A lot claimed by a saved draft is not offered again: after a
    successful [save-draft], [auto-select-lots] for any order and quantity
    neither offers nor selects a lot whose identifier was in the draft. *)
Theorem saved_lots_are_not_offered_again
    st now user new_id sales_config_id selected_lots notes other_config q d l :
  success (snd (save_draft st now user new_id sales_config_id selected_lots notes))
    = true ->
  data (auto_select_lots
          (fst (save_draft st now user new_id sales_config_id selected_lots notes))
          other_config q) = Some d ->
  In l (AutoSelect.available_lots d) \/ In l (AutoSelect.auto_selected d) ->
  ~ In (Inventory.id l) selected_lots.
Proof.
  intros Hok Hd Hl Hin.
  destruct (auto_select_lots_data _ _ _ _ Hd) as (cfg & _ & Hsel & Hav & _).
  assert (Hm : In l (matchingLots
                       (fst (save_draft st now user new_id sales_config_id
                               selected_lots notes)) cfg))
    by (destruct Hl as [Hl|Hl]; auto).
  apply matchingLots_In in Hm as (Hinv & Hstatus & _).
  destruct (sales_configuration_by_id st sales_config_id) as [salesConfig|] eqn:Hcfg.
  - destruct (broker_of st (SalesConfig.broker_id salesConfig)) as [broker|] eqn:Hb.
    + destruct (save_draft_found st now user new_id sales_config_id selected_lots
                  notes salesConfig broker Hcfg Hb) as (_ & _ & Hupd & _).
      rewrite Hupd in Hinv. apply update_where_In in Hinv as (l0 & _ & ->).
      destruct (mem (Inventory.id l0) selected_lots) eqn:E.
      * cbn in Hstatus. discriminate.
      * apply mem_In in Hin. congruence.
    + destruct (save_draft_not_found st now user new_id sales_config_id
                  selected_lots notes) as (_ & H2 & _); [eauto|]. congruence.
  - destruct (save_draft_not_found st now user new_id sales_config_id
                selected_lots notes) as (_ & H2 & _); [auto|]. congruence.
Qed.

Lemma saved_lots_are_not_offered_again_witness :
  ~ In (Inventory.id (Scenario.lot 3 AVAILABLE)) ["lot-002"].
Proof.
  destruct (data (auto_select_lots
                    (fst (save_draft Scenario.contended Scenario.noon Scenario.trader
                            "sale-1" "order-1" ["lot-002"] None))
                    "order-1" 50)) as [d|] eqn:Hd;
    [|vm_compute in Hd; discriminate Hd].
  apply (saved_lots_are_not_offered_again
           Scenario.contended Scenario.noon Scenario.trader
           "sale-1" "order-1" ["lot-002"] None "order-1" 50 d
           (Scenario.lot 3 AVAILABLE)).
  - vm_compute. reflexivity.
  - exact Hd.
  - vm_compute in Hd. injection Hd as <-. left. left. reflexivity.
Defined.

(** X9.  The listing sorts every assignment of the customer into exactly one
    of three lists, and its summary counts them: [total_assigned] is the
    number of the customer's assignments and the sum of the three lists;
    [total_pending] and [total_expired] are the lengths of [active] and
    [expired]; [total_accepted] and [total_rejected] count the customer's
    ACCEPTED and REJECTED rows.  Active rows are PENDING, expired rows are
    answered as EXPIRED at the time of the call, and the active and
    responded lists are in decreasing [assigned_at] order. *)
Theorem listing_partitions_and_counts st now user customerId :
  customerIdOf st user = Some customerId ->
  exists listing,
    data (snd (lots st now user)) = Some listing
    /\ code (snd (lots st now user)) = 200
    /\ Listing.total_assigned listing
       = List.length (filter (fun a => String.eqb (Assignment.customer_id a) customerId)
                             (customer_assignment_table st))
    /\ Listing.total_assigned listing
       = List.length (Listing.active listing)
         + List.length (Listing.expired listing)
         + List.length (Listing.responded listing)
    /\ Listing.total_pending listing = List.length (Listing.active listing)
    /\ Listing.total_expired listing = List.length (Listing.expired listing)
    /\ Listing.total_accepted listing
       = List.length
           (filter (fun a => String.eqb (Assignment.customer_id a) customerId
                             && LotStatus_eqb (Assignment.lot_status a) ACCEPTED)
                   (customer_assignment_table st))
    /\ Listing.total_rejected listing
       = List.length
           (filter (fun a => String.eqb (Assignment.customer_id a) customerId
                             && LotStatus_eqb (Assignment.lot_status a) REJECTED)
                   (customer_assignment_table st))
    /\ (forall a, In a (Listing.active listing) ->
                  Assignment.lot_status a = PENDING
                  /\ Assignment.customer_id a = customerId)
    /\ (forall a, In a (Listing.expired listing) ->
                  Assignment.lot_status a = EXPIRED
                  /\ Assignment.responded_at a = Some (JS.toISOString now)
                  /\ Assignment.customer_id a = customerId)
    /\ (forall a, In a (Listing.responded listing) ->
                  Assignment.lot_status a <> PENDING
                  /\ Assignment.customer_id a = customerId)
    /\ StronglySorted (in_order Assignment.assigned_at false) (Listing.active listing)
    /\ StronglySorted (in_order Assignment.assigned_at false) (Listing.responded listing).
Proof.
  intros Hc. pose proof (lots_answer st now user customerId Hc) as H.
  cbv zeta in H. rewrite H. eexists. split; [reflexivity|].
  cbn [code Listing.total_assigned Listing.active Listing.expired Listing.responded
       Listing.total_pending Listing.total_expired Listing.total_accepted
       Listing.total_rejected].
  pose proof (order_by_sorted Assignment.assigned_at false
                (filter (fun a => String.eqb (Assignment.customer_id a) customerId)
                        (customer_assignment_table st))) as Hs.
  fold (assignments_of st customerId) in Hs.
  assert (Hperm : forall p,
             List.length (filter p (assignments_of st customerId))
             = List.length
                 (filter (fun a => String.eqb (Assignment.customer_id a) customerId && p a)
                         (customer_assignment_table st))).
  { intros p. unfold assignments_of.
    induction (customer_assignment_table st) as [|a r IH]; [reflexivity|].
    cbn [filter].
    destruct (String.eqb (Assignment.customer_id a) customerId); cbn [andb]; [|exact IH].
    cbn [order_by fold_right].
    change (fold_right (insert_by Assignment.assigned_at false) []
              (filter (fun a0 => String.eqb (Assignment.customer_id a0) customerId) r))
      with (order_by Assignment.assigned_at false
              (filter (fun a0 => String.eqb (Assignment.customer_id a0) customerId) r)).
    assert (Hins : forall l,
               List.length (filter p (insert_by Assignment.assigned_at false a l))
               = List.length (filter p (a :: l))).
    { induction l as [|y t IHl]; [reflexivity|]. cbn [insert_by].
      destruct (_ <? _)%Z; [reflexivity|].
      cbn [filter] in *. destruct (p y), (p a); cbn [List.length] in *; lia. }
    rewrite Hins. cbn [filter]. destruct (p a); cbn [List.length]; now rewrite IH. }
  split; [reflexivity|].
  split; [rewrite length_map; unfold assignments_of; apply order_by_length|].
  split.
  { rewrite !length_map. unfold overdue.
    symmetry. apply (filter3_length isPending
                       (isWithinWindow (JS.currentDateOf now))). }
  split; [reflexivity|]. split; [now rewrite length_map|].
  split; [rewrite count_after_expire by discriminate; apply Hperm|].
  split; [rewrite count_after_expire by discriminate; apply Hperm|].
  split.
  { intros a Ha. apply filter_In in Ha as [Ha Hb]. apply andb_prop in Hb as [Hp _].
    apply assignments_of_In in Ha as [_ Hcust].
    split; [now apply LotStatus_eqb_eq | exact Hcust]. }
  split.
  { intros a Ha. apply in_map_iff in Ha as (a0 & <- & Ha0).
    apply filter_In in Ha0 as [Ha0 _]. apply assignments_of_In in Ha0 as [_ Hcust].
    repeat split. exact Hcust. }
  split.
  { intros a Ha. apply filter_In in Ha as [Ha Hb].
    apply assignments_of_In in Ha as [_ Hcust]. split; [|exact Hcust].
    intros Hp. unfold isPending in Hb. rewrite Hp in Hb. discriminate. }
  split; now apply sorted_filter.
Qed.

Lemma listing_partitions_and_counts_witness :
  exists listing,
    data (snd (lots Scenario.lapsed Scenario.noon Scenario.buyer)) = Some listing
    /\ Listing.total_assigned listing = 2.
Proof.
  destruct (listing_partitions_and_counts
              Scenario.lapsed Scenario.noon Scenario.buyer "customer-1" eq_refl)
    as (listing & Hd & _ & Htotal & _).
  exists listing. split; [exact Hd|]. rewrite Htotal. vm_compute. reflexivity.
Defined.

(** X10.  The auto-expire block of the listing is complete and runs once:
    after the listing, no assignment of the customer is PENDING past its
    window; a second listing at the same time changes nothing and reports no
    expired assignment. *)
Theorem listing_sweep_is_complete_and_idempotent st now user customerId :
  customerIdOf st user = Some customerId ->
  let st' := fst (lots st now user) in
  (forall a, In a (customer_assignment_table st') ->
             Assignment.customer_id a = customerId ->
             Assignment.lot_status a = PENDING ->
             JS.str_gt (JS.currentDateOf now) (Assignment.window_end_date a) = false)
  /\ fst (lots st' now user) = st'
  /\ option_map Listing.expired (data (snd (lots st' now user))) = Some [].
Proof.
  intros Hc. cbv zeta.
  assert (Hdone : forall a,
             In a (customer_assignment_table (fst (lots st now user))) ->
             Assignment.customer_id a = customerId ->
             Assignment.lot_status a = PENDING ->
             JS.str_gt (JS.currentDateOf now) (Assignment.window_end_date a) = false).
  { intros a Ha Hcust Hp. rewrite (lots_store st now user customerId Hc) in Ha.
    destruct (JS.str_gt (JS.currentDateOf now) (Assignment.window_end_date a)) eqn:Hgt;
      [exfalso|reflexivity].
    assert (Hov : forall r, In r (customer_assignment_table st) ->
                            Assignment.customer_id r = customerId ->
                            Assignment.lot_status r = PENDING ->
                            JS.str_gt (JS.currentDateOf now) (Assignment.window_end_date r)
                            = true ->
                            In r (overdue st now customerId)).
    { intros r Hr Hrc Hrp Hrg. unfold overdue. apply filter_In.
      split; [apply assignments_of_In; auto|].
      unfold isPending, isWithinWindow. now rewrite Hrp, str_le_not_gt, Hrg. }
    destruct (overdue st now customerId) as [|x t] eqn:Eo.
    - exact (Hov a Ha Hcust Hp Hgt).
    - rewrite <- Eo in *. cbn [customer_assignment_table with_inventory with_assignments] in Ha.
      apply update_where_In in Ha as (r & Hr & ->).
      destruct (mem (Assignment.id r) (map Assignment.id (overdue st now customerId)))
        eqn:Em.
      + cbn in Hp. discriminate.
      + assert (Hin : In r (overdue st now customerId)) by (now apply Hov).
        apply (in_map Assignment.id) in Hin. apply mem_In in Hin. congruence. }
  split; [exact Hdone|].
  assert (Hc' : customerIdOf (fst (lots st now user)) user = Some customerId).
  { rewrite <- Hc. apply customerIdOf_ext, lots_customer_info. }
  assert (Hnone : overdue (fst (lots st now user)) now customerId = []).
  { destruct (overdue (fst (lots st now user)) now customerId) as [|x t] eqn:Eo;
      [reflexivity|]. exfalso.
    assert (Hx : In x (overdue (fst (lots st now user)) now customerId))
      by (rewrite Eo; now left).
    unfold overdue in Hx. apply filter_In in Hx as [Hx Hb].
    apply assignments_of_In in Hx as [Hx Hcust].
    apply andb_prop in Hb as [Hp Hw].
    apply LotStatus_eqb_eq in Hp.
    unfold isWithinWindow in Hw. rewrite str_le_not_gt, negb_involutive in Hw.
    rewrite (Hdone x Hx Hcust Hp) in Hw. discriminate. }
  split.
  - rewrite (lots_store _ now user customerId Hc'), Hnone. reflexivity.
  - destruct (lots_listing _ now user customerId Hc') as (listing & Hl & _ & He).
    rewrite Hl. cbn [option_map]. now rewrite He, Hnone.
Qed.

Lemma listing_sweep_is_complete_and_idempotent_witness :
  fst (lots (fst (lots Scenario.awaiting Scenario.next_morning Scenario.buyer))
         Scenario.next_morning Scenario.buyer)
  = fst (lots Scenario.awaiting Scenario.next_morning Scenario.buyer).
Proof.
  destruct (listing_sweep_is_complete_and_idempotent
              Scenario.awaiting Scenario.next_morning Scenario.buyer "customer-1"
              eq_refl) as (_ & H & _).
  exact H.
Defined.

(** X11.  An answer is final for the customer: after a successful response,
    every further response to the same assignment by the same user, accept
    or reject, at any time, fails and leaves the store unchanged; on a day
    inside the window the refusal is "Assignment has already been responded
    to". *)
Theorem second_response_is_refused st now user assignment_id d now' d' :
  success (snd (respond st now user assignment_id d)) = true ->
  let st1 := fst (respond st now user assignment_id d) in
  let again := respond st1 now' user assignment_id d' in
  fst again = st1
  /\ success (snd again) = false
  /\ code (snd again) = 400
  /\ (forall a, assignment_by_id st assignment_id = Some a ->
        JS.str_gt (JS.currentDateOf now') (Assignment.window_end_date a) = false ->
        message (snd again) = Some "Assignment has already been responded to").
Proof.
  intros Hok. cbv zeta.
  destruct (respond_success_store _ _ _ _ _ Hok) as (a & Ha & Hp & Hown & Hwin & Hst).
  destruct (assignment_by_id_In _ _ _ Ha) as [_ Hid].
  destruct (responded_tables st now user a d)
    as (Hasg & _ & Hci & _).
  cbv zeta in Hasg, Hci. rewrite <- Hst in Hasg, Hci.
  set (st1 := fst (respond st now user assignment_id d)) in *.
  assert (Ha1 : assignment_by_id st1 assignment_id
                = Some (Assignment.respond (resolved d) (User.id user)
                          (JS.toISOString now) a)).
  { rewrite (assignment_by_id_ext st1
               (with_assignments
                  (update_where (fun r => String.eqb (Assignment.id r) (Assignment.id a))
                     (Assignment.respond (resolved d) (User.id user) (JS.toISOString now)))
                  st)) by exact Hasg.
    rewrite (assignment_by_id_updated st assignment_id a _ _ Ha) by reflexivity.
    subst assignment_id. now rewrite String.eqb_refl. }
  assert (Hown1 : customerIdOf st1 user = Some (Assignment.customer_id a))
    by (rewrite <- Hown; now apply customerIdOf_ext).
  pose proof (respond_cases st1 now' user assignment_id d') as H. cbv zeta in H.
  rewrite Ha1 in H.
  cbn [Assignment.respond Assignment.customer_id Assignment.window_end_date
       Assignment.lot_status] in H.
  assert (Ho : negb (opt_eqb (Some (Assignment.customer_id a)) (customerIdOf st1 user))
               = false) by (apply negb_false_iff, opt_eqb_Some; exact Hown1).
  assert (Hr : negb (LotStatus_eqb (resolved d) PENDING) = true) by (now destruct d).
  rewrite Ho, Hr in H.
  destruct (JS.str_gt (JS.currentDateOf now') (Assignment.window_end_date a)) eqn:Hw';
    rewrite H; unfold failure; cbn [fst snd success code message];
    (split; [reflexivity|]; split; [reflexivity|]; split; [reflexivity|]);
    intros a0 Ha0 Hw0; assert (a0 = a) by congruence; subst a0; congruence.
Qed.

Lemma second_response_is_refused_witness :
  success (snd (respond
                  (fst (respond Scenario.awaiting Scenario.noon Scenario.buyer
                          "assignment-001" Accept))
                  Scenario.last_minute Scenario.buyer "assignment-001" Reject))
  = false.
Proof.
  destruct (second_response_is_refused
              Scenario.awaiting Scenario.noon Scenario.buyer "assignment-001" Accept
              Scenario.last_minute Reject eq_refl) as (_ & H & _).
  exact H.
Defined.

(** X12.  A response touches one assignment and one lot: whether it succeeds
    or fails, every assignment with another identifier and every lot other
    than the lot of the assignment is in the store afterwards exactly as
    before, and the drafts, the orders and the lot selections are
    unchanged. *)
Theorem response_touches_one_assignment_and_its_lot st now user assignment_id d :
  let st' := fst (respond st now user assignment_id d) in
  (forall r, Assignment.id r <> assignment_id ->
             (In r (customer_assignment_table st)
              <-> In r (customer_assignment_table st')))
  /\ (forall l,
        (forall a, assignment_by_id st assignment_id = Some a ->
                   Inventory.id l <> Assignment.inventory_id a) ->
        (In l (inventory_table st) <-> In l (inventory_table st')))
  /\ sales_table st' = sales_table st
  /\ sales_configuration st' = sales_configuration st
  /\ lot_selected_contract st' = lot_selected_contract st.
Proof.
  cbv zeta.
  destruct (respond_store st now user assignment_id d)
    as [Hsame | (a & Ha & _ & _ & _ & _ & Hst)].
  - rewrite Hsame. repeat split; tauto.
  - destruct (assignment_by_id_In _ _ _ Ha) as [_ Hid].
    destruct (responded_tables st now user a d)
      as (Hasg & Hinv & _ & _ & Hs & Hc & Hl & _).
    cbv zeta in Hasg, Hinv, Hs, Hc, Hl. rewrite <- Hst in Hasg, Hinv, Hs, Hc, Hl.
    split; [|split; [|repeat split; assumption]].
    + intros r Hr. rewrite Hasg. apply update_where_other; [|reflexivity].
      apply String.eqb_neq. congruence.
    + intros l Hl'. rewrite Hinv. apply update_where_other; [|reflexivity].
      apply String.eqb_neq. now apply Hl'.
Qed.

(** X13.  No sequence of requests to the writing routes (the listing, accept,
    reject, the admin override, save-draft and confirm) creates or deletes an
    assignment or a lot, reorders them, or rewrites one of their identifying
    columns: the routes only update status and time columns in place.  The
    customer records are not written at all. *)
Theorem requests_keep_rows_and_identities b requests :
  map assignment_identity (customer_assignment_table (store (serve b requests)))
  = map assignment_identity (customer_assignment_table (store b))
  /\ map lot_identity (inventory_table (store (serve b requests)))
     = map lot_identity (inventory_table (store b))
  /\ customer_info (store (serve b requests)) = customer_info (store b).
Proof.
  destruct (serve_keeps requests b) as (Ha & Hl & Hc & _). auto.
Qed.

(** X14.  The logs only grow: after any sequence of requests the audit log,
    the webhook outbox, the journal of further writes and the rows of
    [lot_selected_contract] begin with what they held before, and the sales
    records keep their identifiers and order, new ones coming last. *)
Theorem logs_are_append_only b requests :
  extends (audit_log (store (serve b requests))) (audit_log (store b))
  /\ extends (webhooks (store (serve b requests))) (webhooks (store b))
  /\ extends (journal (serve b requests)) (journal b)
  /\ extends (map Sales.id (sales_table (store (serve b requests))))
       (map Sales.id (sales_table (store b)))
  /\ extends (lot_selected_contract (store (serve b requests)))
       (lot_selected_contract (store b)).
Proof.
  destruct (serve_keeps requests b) as (_ & _ & _ & H). exact H.
Qed.

(** X15.  Where assignment identifiers are unique, no sequence of requests to
    the customer's own routes (the listing with its sweep, accept, reject)
    changes an assignment that is no longer pending: an accepted, rejected or
    expired row stays exactly as it is. *)
Theorem customer_routes_leave_resolved_assignments b requests a :
  forallb customer_request requests = true ->
  NoDup (map Assignment.id (customer_assignment_table (store b))) ->
  In a (customer_assignment_table (store b)) ->
  Assignment.lot_status a <> PENDING ->
  In a (customer_assignment_table (store (serve b requests)))
  /\ map Assignment.id (customer_assignment_table (store (serve b requests)))
     = map Assignment.id (customer_assignment_table (store b)).
Proof.
  intros Hr Hn Hin Hs. split.
  - now apply serve_customer_resolved.
  - apply identity_ids. now destruct (serve_keeps requests b) as (H & _).
Qed.

Lemma customer_routes_leave_resolved_assignments_witness :
  In (Scenario.assignment 1 EXPIRED "2024-06-09")
     (customer_assignment_table
        (store (serve (Cases.desk Scenario.lapsed)
                  [GetLots Scenario.next_morning Scenario.buyer;
                   PostAccept Scenario.noon Scenario.buyer "assignment-001";
                   PostReject Scenario.noon Scenario.buyer "assignment-001"]))).
Proof.
  destruct (customer_routes_leave_resolved_assignments
              (Cases.desk Scenario.lapsed)
              [GetLots Scenario.next_morning Scenario.buyer;
               PostAccept Scenario.noon Scenario.buyer "assignment-001";
               PostReject Scenario.noon Scenario.buyer "assignment-001"]
              (Scenario.assignment 1 EXPIRED "2024-06-09")) as [H _].
  - reflexivity.
  - vm_compute. apply NoDup_cons; [intros [E|[]]; discriminate E|].
    apply NoDup_cons; [intros []|apply NoDup_nil].
  - left. reflexivity.
  - discriminate.
  - exact H.
Defined.

(** X16.  The admin override asks only that the assignment exists.  Without
    it the answer is 404 and nothing is written.  With it, whatever the
    status of the assignment, its window and its customer, the override
    succeeds: the assignment gets the status of the action and the admin as
    responder, every lot with the assignment's inventory identifier becomes
    SOLD (accept) or AVAILABLE (reject), and the one audit entry of the
    override, journalled, records the status the assignment had; a rejection
    sends no webhook. *)
Theorem admin_override_asks_only_for_the_assignment
    b now user assignment_id action notes :
  let out := AdminOverride.admin_override b now user assignment_id action notes in
  match assignment_by_id (store b) assignment_id with
  | None => out = (b, failure 404 "Assignment not found")
  | Some a =>
      success (snd out) = true
      /\ assignment_by_id (store (fst out)) assignment_id
         = Some (Assignment.respond (resolved action) (User.id user)
                   (JS.toISOString now) a)
      /\ (forall l, In l (inventory_table (store (fst out))) ->
                    Inventory.id l = Assignment.inventory_id a ->
                    Inventory.status l = lot_outcome action)
      /\ journal (fst out)
         = journal b
           ++ [AuditAdminOverride assignment_id (User.id user)
                 (Assignment.lot_status a) (resolved action) notes
                 (AdminOverride.action_word action)]
      /\ (action = Reject -> webhooks (store (fst out)) = webhooks (store b))
  end.
Proof.
  cbv zeta. destruct (assignment_by_id (store b) assignment_id) as [a|] eqn:Ha.
  - destruct (admin_override_tables b now user assignment_id action notes a Ha)
      as (Hasg & Hinv & _ & _ & Hrej).
    cbv zeta in Hasg, Hinv, Hrej.
    split; [now rewrite (admin_override_found b now user assignment_id action notes a Ha)|].
    split.
    { rewrite (assignment_by_id_ext _
                 (with_assignments
                    (update_where (fun r => String.eqb (Assignment.id r) assignment_id)
                       (Assignment.respond (resolved action) (User.id user)
                          (JS.toISOString now)))
                    (store b))) by exact Hasg.
      rewrite (assignment_by_id_updated (store b) assignment_id a _ _ Ha) by reflexivity.
      destruct (assignment_by_id_In _ _ _ Ha) as [_ Hid].
      cbv beta. subst assignment_id. now rewrite String.eqb_refl. }
    split.
    { intros l Hl Hid. rewrite Hinv in Hl. eapply status_after_update; eassumption. }
    split; [|intros E; now destruct (Hrej E)].
    now rewrite (admin_override_found b now user assignment_id action notes a Ha).
  - unfold AdminOverride.admin_override. now rewrite Ha.
Qed.

(** X17.  The override undoes a customer's answer, but not what the answer
    set off: after a successful accept or reject by the customer, an
    override with either action succeeds at any later time, the assignment
    takes the status of the override and its lot the matching status, and
    every audit row and webhook of the customer's answer, a confirmation
    included, is still there. *)
Theorem admin_override_reverses_a_customer_response
    st now user assignment_id d entries now' admin action notes :
  success (snd (respond st now user assignment_id d)) = true ->
  let b1 := {| store := fst (respond st now user assignment_id d);
               journal := entries |} in
  let out := AdminOverride.admin_override b1 now' admin assignment_id action notes in
  success (snd out) = true
  /\ (exists a,
        assignment_by_id st assignment_id = Some a
        /\ option_map Assignment.lot_status
             (assignment_by_id (store b1) assignment_id) = Some (resolved d)
        /\ option_map Assignment.lot_status
             (assignment_by_id (store (fst out)) assignment_id) = Some (resolved action)
        /\ (forall l, In l (inventory_table (store (fst out))) ->
                      Inventory.id l = Assignment.inventory_id a ->
                      Inventory.status l = lot_outcome action))
  /\ extends (audit_log (store (fst out))) (audit_log (store b1))
  /\ extends (webhooks (store (fst out))) (webhooks (store b1)).
Proof.
  intros Hok. cbv zeta.
  destruct (responded_assignment _ _ _ _ _ Hok) as (a & Ha & _ & Ha1 & _).
  set (b1 := {| store := fst (respond st now user assignment_id d);
                journal := entries |}).
  change (fst (respond st now user assignment_id d)) with (store b1) in Ha1.
  set (a1 := Assignment.respond (resolved d) (User.id user) (JS.toISOString now) a) in *.
  destruct (admin_override_tables b1 now' admin assignment_id action notes a1 Ha1)
    as (Hasg & Hinv & Hau & Hw & _).
  cbv zeta in Hasg, Hinv, Hau, Hw.
  split; [now rewrite (admin_override_found b1 now' admin assignment_id action notes a1 Ha1)|].
  split; [|split; assumption].
  exists a. split; [assumption|]. split; [now rewrite Ha1|]. split.
  - rewrite (assignment_by_id_ext _
               (with_assignments
                  (update_where (fun r => String.eqb (Assignment.id r) assignment_id)
                     (Assignment.respond (resolved action) (User.id admin)
                        (JS.toISOString now')))
                  (store b1))) by exact Hasg.
    rewrite (assignment_by_id_updated (store b1) assignment_id a1 _ _ Ha1) by reflexivity.
    destruct (assignment_by_id_In _ _ _ Ha1) as [_ Hid].
    cbv beta. rewrite Hid, String.eqb_refl. reflexivity.
  - intros l Hl Hid. rewrite Hinv in Hl.
    eapply status_after_update; [exact Hl|exact Hid].
Qed.

Lemma admin_override_reverses_a_customer_response_witness :
  option_map Assignment.lot_status
    (assignment_by_id
       (store (fst (AdminOverride.admin_override
                      {| store := fst (respond Scenario.awaiting Scenario.noon
                                         Scenario.buyer "assignment-001" Accept);
                         journal := [] |}
                      Scenario.next_morning Cases.admin "assignment-001" Reject None)))
       "assignment-001")
  = Some REJECTED.
Proof.
  destruct (admin_override_reverses_a_customer_response
              Scenario.awaiting Scenario.noon Scenario.buyer "assignment-001" Accept
              [] Scenario.next_morning Cases.admin Reject None eq_refl)
    as (_ & (a & _ & _ & H & _) & _).
  exact H.
Defined.

(** X18.  Confirmation needs exactly one draft of the order.  When the order
    has none, or more than one, and no sales record carries the placeholder
    identifier [new-draft-id], [confirm] answers 500 and writes nothing:
    no sales record, order, lot or journal entry changes, whatever lots the
    request selects. *)
Theorem confirm_without_one_draft_fails_and_writes_nothing
    b now user sales_config_id selected_lots notes :
  List.length (filter (fun s => String.eqb (Sales.sales_config_id s) sales_config_id
                                && Confirm.SalesStatus_eqb (Sales.status s) DRAFT)
                 (sales_table (store b))) <> 1 ->
  (forall s, In s (sales_table (store b)) -> Sales.id s <> "new-draft-id") ->
  Confirm.confirm b now user sales_config_id selected_lots notes
  = (b, failure 500 "Failed to confirm sales: ").
Proof.
  intros Hn Hfresh. apply confirm_without_draft; [|assumption].
  now apply single_length.
Qed.

Lemma confirm_without_one_draft_fails_and_writes_nothing_witness :
  Confirm.confirm (Cases.desk Scenario.plenty) Scenario.noon Scenario.trader
    "order-1" ["lot-001"; "lot-002"] None
  = (Cases.desk Scenario.plenty, failure 500 "Failed to confirm sales: ").
Proof.
  apply confirm_without_one_draft_fails_and_writes_nothing.
  - vm_compute. discriminate.
  - intros s [].
Defined.

(** X19.  With exactly one draft of the order, and sales identifiers unique,
    [confirm] answers 200 with that record as CONFIRMED: the record changes
    only its status, every other sales record stays as it is, the order
    becomes [completed], the confirmation columns and the audit entry of the
    confirmation are journalled, and the lots, the assignments and the lot
    selections are left as they were; the selected lots of the request are
    not read. *)
Theorem confirm_completes_the_only_draft
    b now user sales_config_id selected_lots notes draft :
  single (filter (fun s => String.eqb (Sales.sales_config_id s) sales_config_id
                           && Confirm.SalesStatus_eqb (Sales.status s) DRAFT)
                 (sales_table (store b))) = Some draft ->
  NoDup (map Sales.id (sales_table (store b))) ->
  let out := Confirm.confirm b now user sales_config_id selected_lots notes in
  success (snd out) = true
  /\ code (snd out) = 200
  /\ option_map Confirm.sales_record (data (snd out)) = Some (Confirm.set_confirmed draft)
  /\ In (Confirm.set_confirmed draft) (sales_table (store (fst out)))
  /\ (forall s, In s (sales_table (store b)) -> s <> draft ->
                In s (sales_table (store (fst out))))
  /\ (forall c, In c (sales_configuration (store (fst out))) ->
                SalesConfig.id c = sales_config_id -> SalesConfig.status c = completed)
  /\ inventory_table (store (fst out)) = inventory_table (store b)
  /\ customer_assignment_table (store (fst out)) = customer_assignment_table (store b)
  /\ lot_selected_contract (store (fst out)) = lot_selected_contract (store b)
  /\ (exists more,
        journal (fst out)
        = journal b
          ++ SalesConfirmedColumns (Sales.id draft) (User.id user) (JS.toISOString now)
          :: AuditSalesConfirmed (Sales.id draft) (User.id user) notes
          :: more)
  /\ (forall other, fst (Confirm.confirm b now user sales_config_id other notes)
                    = fst out).
Proof.
  intros Hdraft Hn. cbv zeta.
  destruct (single_In _ _ _ Hdraft) as [Hin _].
  assert (Hid : single (filter (fun s => String.eqb (Sales.id s) (Sales.id draft))
                               (sales_table (store b))) = Some draft)
    by (now rewrite (filter_unique_key Sales.id _ draft Hn Hin)).
  destruct (confirm_found b now user sales_config_id selected_lots notes draft Hdraft Hid)
    as (Hs & Hc & Hd & Hst & Hcfg & Hi & Ha & Hl & _ & _ & _ & _ & Hj).
  cbv zeta in Hs, Hc, Hd, Hst, Hcfg, Hi, Ha, Hl, Hj.
  repeat (split; [assumption|]).
  split.
  { rewrite Hst. unfold update_where. apply in_map_iff. exists draft.
    now rewrite String.eqb_refl. }
  split.
  { intros s Hs' Hne. rewrite Hst. apply update_where_other; [|reflexivity|assumption].
    apply String.eqb_neq. intros E. apply Hne.
    exact (NoDup_map_inj Sales.id _ s draft Hn Hs' Hin E). }
  split.
  { intros c Hc' Hcid. rewrite Hcfg in Hc'.
    apply update_where_In in Hc' as (r & Hr & ->).
    destruct (String.eqb (SalesConfig.id r) sales_config_id) eqn:E; [reflexivity|].
    apply String.eqb_neq in E. contradiction. }
  repeat (split; [assumption|]).
  intros other. reflexivity.
Qed.

Lemma confirm_completes_the_only_draft_witness :
  option_map Confirm.sales_record
    (data (snd (Confirm.confirm (Cases.desk Scenario.awaiting) Scenario.noon
                  Scenario.trader "order-1" [] None)))
  = Some (Confirm.set_confirmed Scenario.draft).
Proof.
  destruct (confirm_completes_the_only_draft
              (Cases.desk Scenario.awaiting) Scenario.noon Scenario.trader
              "order-1" [] None Scenario.draft eq_refl) as (_ & _ & H & _).
  - apply NoDup_cons; [intros []|apply NoDup_nil].
  - exact H.
Defined.

(** X20.  A sale is confirmed once.  Where sales identifiers are unique and
    none is the placeholder [new-draft-id], a second [confirm] of the same
    order after a successful one answers 500 and writes nothing: the order's
    only draft is no longer a draft. *)
Theorem confirm_is_not_repeatable
    b now user sales_config_id selected_lots notes now' user' selected_lots' notes' :
  NoDup (map Sales.id (sales_table (store b))) ->
  (forall s, In s (sales_table (store b)) -> Sales.id s <> "new-draft-id") ->
  success (snd (Confirm.confirm b now user sales_config_id selected_lots notes)) = true ->
  let b1 := fst (Confirm.confirm b now user sales_config_id selected_lots notes) in
  Confirm.confirm b1 now' user' sales_config_id selected_lots' notes'
  = (b1, failure 500 "Failed to confirm sales: ").
Proof.
  intros Hn Hfresh Hok. cbv zeta.
  destruct (confirm_success_draft _ _ _ _ _ _ Hfresh Hok) as (draft & Hdraft).
  destruct (single_In _ _ _ Hdraft) as [Hin _].
  assert (Hid : single (filter (fun s => String.eqb (Sales.id s) (Sales.id draft))
                               (sales_table (store b))) = Some draft)
    by (now rewrite (filter_unique_key Sales.id _ draft Hn Hin)).
  destruct (confirm_found b now user sales_config_id selected_lots notes draft Hdraft Hid)
    as (_ & _ & _ & Hst & _).
  cbv zeta in Hst.
  apply confirm_without_draft.
  - rewrite Hst.
    change (fun s => String.eqb (Sales.sales_config_id s) sales_config_id
                     && Confirm.SalesStatus_eqb (Sales.status s) DRAFT)
      with (is_draft_of sales_config_id).
    rewrite (no_draft_after_confirmation sales_config_id draft); [reflexivity|].
    now apply single_Some.
  - intros s Hs. rewrite Hst in Hs. apply update_where_In in Hs as (r & Hr & ->).
    destruct (String.eqb _ _); [cbn [Confirm.set_confirmed Sales.id]|]; now apply Hfresh.
Qed.

Lemma confirm_is_not_repeatable_witness :
  success (snd (Confirm.confirm
                  (fst (Confirm.confirm (Cases.desk Scenario.awaiting) Scenario.noon
                          Scenario.trader "order-1" [] None))
                  Scenario.last_minute Scenario.trader "order-1" [] None))
  = false.
Proof.
  rewrite (confirm_is_not_repeatable
             (Cases.desk Scenario.awaiting) Scenario.noon Scenario.trader
             "order-1" [] None Scenario.last_minute Scenario.trader [] None).
  - reflexivity.
  - apply NoDup_cons; [intros []|apply NoDup_nil].
  - intros s [<-|[]]. discriminate.
  - reflexivity.
Defined.

(** X21.  A saved draft can be confirmed.  When the order has no draft yet,
    the key given to the new record is not in use, and the order and its
    broker are found, [confirm] after [save-draft] answers 200 and the
    confirmed record is the draft just saved, now CONFIRMED, with the number
    of bales the draft counted. *)
Theorem saved_draft_is_confirmed
    b now user new_id sales_config_id selected_lots notes salesConfig broker
    now' user' selected_lots' notes' :
  sales_configuration_by_id (store b) sales_config_id = Some salesConfig ->
  broker_of (store b) (SalesConfig.broker_id salesConfig) = Some broker ->
  filter (fun s => String.eqb (Sales.sales_config_id s) sales_config_id
                   && Confirm.SalesStatus_eqb (Sales.status s) DRAFT)
         (sales_table (store b)) = [] ->
  (forall s, In s (sales_table (store b)) -> Sales.id s <> new_id) ->
  let b1 := handle b (PostSaveDraft now user new_id sales_config_id selected_lots notes) in
  let out := Confirm.confirm b1 now' user' sales_config_id selected_lots' notes' in
  success (snd out) = true
  /\ option_map Confirm.sales_record (data (snd out))
     = Some (Confirm.set_confirmed
               (draft_of (store b) user new_id sales_config_id selected_lots broker))
  /\ option_map (fun d => SalesData.total_bales (Sales.data (Confirm.sales_record d)))
       (data (snd out))
     = Some (List.length (filter (fun l => mem (Inventory.id l) selected_lots)
                            (inventory_table (store b)))).
Proof.
  intros Hcfg Hb Hnone Hfresh. cbv zeta. cbn [handle]. rewrite on_store_fst.
  destruct (save_draft_found (store b) now user new_id sales_config_id selected_lots
              notes salesConfig broker Hcfg Hb) as (_ & _ & _ & Hst & _).
  cbv zeta in Hst.
  set (st1 := fst (save_draft (store b) now user new_id sales_config_id
                     selected_lots notes)) in *.
  set (draft := draft_of (store b) user new_id sales_config_id selected_lots broker) in *.
  set (b1 := {| store := st1; journal := journal b |}).
  assert (Hdraft : single (filter (fun s => String.eqb (Sales.sales_config_id s)
                                              sales_config_id
                                            && Confirm.SalesStatus_eqb (Sales.status s) DRAFT)
                                  (sales_table (store b1))) = Some draft).
  { cbn [store b1]. rewrite Hst, filter_app, Hnone. cbn [filter app].
    unfold draft, draft_of, Sales.sales_config_id, Sales.status.
    cbn [Sales.data SalesData.sales_config_id SalesData.status].
    rewrite String.eqb_refl. reflexivity. }
  assert (Hid : single (filter (fun s => String.eqb (Sales.id s) (Sales.id draft))
                               (sales_table (store b1))) = Some draft).
  { cbn [store b1]. rewrite Hst, filter_app. rewrite filter_none.
    - cbn [filter app]. rewrite String.eqb_refl. reflexivity.
    - intros x Hx. apply String.eqb_neq. exact (Hfresh x Hx). }
  destruct (confirm_found b1 now' user' sales_config_id selected_lots' notes' draft
              Hdraft Hid) as (Hs & _ & Hd & _).
  cbv zeta in Hs, Hd. split; [assumption|]. split; [assumption|].
  destruct (data _) as [d|]; [|discriminate]. cbn [option_map] in *.
  injection Hd as ->. reflexivity.
Qed.

Lemma saved_draft_is_confirmed_witness :
  success (snd (Confirm.confirm
                  (handle (Cases.desk Scenario.contended)
                     (PostSaveDraft Scenario.noon Scenario.trader "sale-9" "order-1"
                        ["lot-002"; "lot-003"] None))
                  Scenario.last_minute Scenario.trader "order-1" [] None))
  = true.
Proof.
  destruct (saved_draft_is_confirmed
              (Cases.desk Scenario.contended) Scenario.noon Scenario.trader "sale-9"
              "order-1" ["lot-002"; "lot-003"] None (Scenario.order 50) Scenario.broker
              Scenario.last_minute Scenario.trader [] None
              eq_refl eq_refl eq_refl) as (H & _).
  - intros s [].
  - exact H.
Defined.

(** X22.  [save-draft] does not look for a draft the order already has, and
    a second one leaves the order unconfirmable: when the order has a draft
    and the order and its broker are found, saving another draft succeeds,
    and afterwards, no sales record carrying the placeholder identifier,
    [confirm] answers 500 and writes nothing. *)
Theorem second_draft_blocks_confirmation
    b now user new_id sales_config_id selected_lots notes salesConfig broker draft
    now' user' selected_lots' notes' :
  sales_configuration_by_id (store b) sales_config_id = Some salesConfig ->
  broker_of (store b) (SalesConfig.broker_id salesConfig) = Some broker ->
  In draft (sales_table (store b)) ->
  Sales.sales_config_id draft = sales_config_id ->
  Sales.status draft = DRAFT ->
  (forall s, In s (sales_table (store b)) -> Sales.id s <> "new-draft-id") ->
  new_id <> "new-draft-id" ->
  let saved := on_store (fun st => save_draft st now user new_id sales_config_id
                                     selected_lots notes) b in
  success (snd saved) = true
  /\ Confirm.confirm (fst saved) now' user' sales_config_id selected_lots' notes'
     = (fst saved, failure 500 "Failed to confirm sales: ").
Proof.
  intros Hcfg Hb Hin Hd Hs Hfresh Hnew. cbv zeta.
  rewrite on_store_fst, on_store_snd.
  destruct (save_draft_found (store b) now user new_id sales_config_id selected_lots
              notes salesConfig broker Hcfg Hb) as (_ & Hok & _ & Hst & _).
  cbv zeta in Hok, Hst. split; [assumption|].
  apply confirm_without_draft; cbn [store]; rewrite Hst.
  - apply single_length. rewrite filter_app, length_app.
    assert (H1 : In draft (filter (fun s => String.eqb (Sales.sales_config_id s)
                                               sales_config_id
                                             && Confirm.SalesStatus_eqb (Sales.status s) DRAFT)
                                   (sales_table (store b)))).
    { apply filter_In. split; [assumption|].
      rewrite Hd, Hs, String.eqb_refl. reflexivity. }
    destruct (filter _ (sales_table (store b))) as [|x t]; [contradiction|].
    cbn [filter]. unfold draft_of at 1 2, Sales.sales_config_id, Sales.status.
    cbn [Sales.data SalesData.sales_config_id SalesData.status].
    rewrite String.eqb_refl. cbn [andb Confirm.SalesStatus_eqb List.length]. lia.
  - intros s Hs'. apply in_app_iff in Hs' as [Hs'|[<-|[]]]; [now apply Hfresh|].
    exact Hnew.
Qed.

Lemma second_draft_blocks_confirmation_witness :
  success (snd (Confirm.confirm
                  (fst (on_store (fun st => save_draft st Scenario.noon Scenario.trader
                                              "sale-2" "order-1" ["lot-001"] None)
                          (Cases.desk Scenario.awaiting)))
                  Scenario.last_minute Scenario.trader "order-1" [] None))
  = false.
Proof.
  destruct (second_draft_blocks_confirmation
              (Cases.desk Scenario.awaiting) Scenario.noon Scenario.trader "sale-2"
              "order-1" ["lot-001"] None (Scenario.order 2) Scenario.broker
              Scenario.draft Scenario.last_minute Scenario.trader [] None
              eq_refl eq_refl) as (_ & H).
  - left. reflexivity.
  - reflexivity.
  - reflexivity.
  - intros s [<-|[]]. discriminate.
  - discriminate.
  - rewrite H. reflexivity.
Defined.

(** X23.  The statistics count the assignments by status: under each status
    the answer holds the number of rows with that status, a status no row
    has is absent from the answer rather than zero, every key is the status
    of some row, no key is repeated, and the counts add up to the number of
    rows. *)
Theorem assignment_stats_count_rows_by_status st now :
  exists d,
    data (Stats.assignments_stats st now) = Some d
    /\ (forall s,
          Stats.get (Stats.LotStatus_name s) (Stats.assignment_stats d)
          = match List.length
                    (filter (fun a => LotStatus_eqb (Assignment.lot_status a) s)
                       (customer_assignment_table st)) with
            | 0 => None
            | S n => Some (S n)
            end)
    /\ (forall k, In k (map fst (Stats.assignment_stats d)) ->
                  exists a, In a (customer_assignment_table st)
                            /\ k = Stats.LotStatus_name (Assignment.lot_status a))
    /\ NoDup (map fst (Stats.assignment_stats d))
    /\ total (Stats.assignment_stats d) = List.length (customer_assignment_table st).
Proof.
  eexists. split; [reflexivity|]. cbn [Stats.assignment_stats].
  destruct (count_from (fun a => Stats.LotStatus_name (Assignment.lot_status a))
              (customer_assignment_table st) []) as (Hg & Ht & Hn & Hk).
  cbv zeta in Hg, Ht, Hn, Hk. unfold Stats.count_by.
  split; [|split; [|split]].
  - intros s. rewrite Hg. unfold rows_with.
    rewrite (filter_ext (fun r => String.eqb (Stats.LotStatus_name (Assignment.lot_status r))
                                    (Stats.LotStatus_name s))
                        (fun a => LotStatus_eqb (Assignment.lot_status a) s))
      by (intros a; destruct (Assignment.lot_status a), s; reflexivity).
    destruct (List.length (filter _ _)); reflexivity.
  - intros k Hin. apply Hk in Hin as [[]|Hin].
    apply in_map_iff in Hin as (a & <- & Ha). eauto.
  - apply Hn. apply NoDup_nil.
  - rewrite Ht. reflexivity.
Qed.

(** X24.  An error whose [code] is a non-zero number gets no answer: the
    handler logs it, writing nothing but the journalled log entry, and then
    fails itself on [err.code.startsWith], whatever the name, the message
    and the status of the error.  So the answer "Duplicate field value
    entered", prepared for the code 11000, is never sent. *)
Theorem numeric_error_code_is_never_answered b development err req n :
  ErrorHandler.code err = Some (ErrorHandler.CodeNumber n) ->
  JS.truthy n = true ->
  snd (ErrorHandler.errorHandler b development err req) = None
  /\ store (fst (ErrorHandler.errorHandler b development err req)) = store b
  /\ extends (journal (fst (ErrorHandler.errorHandler b development err req)))
       (journal b).
Proof.
  intros Hc Hn. split; [|rewrite errorHandler_logs; split; [reflexivity|apply extends_app]].
  unfold ErrorHandler.errorHandler. cbv zeta. rewrite Hc, Hn.
  destruct (ErrorHandler.name_is err "ValidationError"); [|reflexivity].
  destruct (ErrorHandler.errors err); reflexivity.
Qed.

Lemma numeric_error_code_is_never_answered_witness :
  snd (ErrorHandler.errorHandler (Cases.desk Scenario.plenty) false
         Cases.duplicate_key Cases.call) = None.
Proof.
  destruct (numeric_error_code_is_never_answered
              (Cases.desk Scenario.plenty) false Cases.duplicate_key Cases.call
              (JS.of_int 11000) eq_refl eq_refl) as (H & _).
  exact H.
Defined.

(** X25.  Whatever the error, an answer of the handler is a failure with a
    status other than zero and a message that is not empty, and it carries
    the stack of the error in development only; and the handler has written
    one row, the journalled log entry of the error, and nothing else. *)
Theorem error_answers_are_failures b development err req status body :
  snd (ErrorHandler.errorHandler b development err req) = Some (status, body) ->
  ErrorHandler.body_success body = false
  /\ status <> 0
  /\ ErrorHandler.body_message body <> ""
  /\ ErrorHandler.body_stack body
     = (if development then ErrorHandler.stack err else None)
  /\ store (fst (ErrorHandler.errorHandler b development err req)) = store b
  /\ List.length (journal (fst (ErrorHandler.errorHandler b development err req)))
     = S (List.length (journal b)).
Proof.
  intros H.
  assert (Hlog : store (fst (ErrorHandler.errorHandler b development err req)) = store b
                 /\ List.length (journal (fst (ErrorHandler.errorHandler b development
                                                 err req)))
                    = S (List.length (journal b))).
  { rewrite errorHandler_logs. cbn [store journal]. rewrite length_app. cbn. split; [reflexivity|lia]. }
  destruct Hlog as [-> ->].
  revert H. unfold ErrorHandler.errorHandler. cbv zeta.
  repeat match goal with
         | |- context [match ?x with Some _ => _ | None => _ end] =>
             lazymatch x with
             | context [match _ with Some _ => _ | None => _ end] => fail
             | _ => destruct x eqn:?
             end
         end.
  all: cbn [snd]; try discriminate.
  all: intros H; injection H as <- <-; cbn [ErrorHandler.body_success
         ErrorHandler.body_message ErrorHandler.body_stack].
  all: split; [reflexivity|]; split; [now apply status_or_nonzero|];
       split; [|split; [reflexivity|split; reflexivity]].
  all: intros E;
       match type of E with
       | ErrorHandler.message_or ?x ?d = _ =>
           pose proof (message_or_truthy x d eq_refl) as Ht; rewrite E in Ht;
           discriminate Ht
       end.
Qed.

Lemma error_answers_are_failures_witness :
  snd (ErrorHandler.errorHandler (Cases.desk Scenario.plenty) true
         Cases.cast_error Cases.call)
  = Some (404, {| ErrorHandler.body_success := false;
                  ErrorHandler.body_message := "Resource not found";
                  ErrorHandler.body_stack := Some "CastError: at model.Query.exec" |})
  /\ 404 <> 0.
Proof.
  split; [reflexivity|].
  destruct (error_answers_are_failures
              (Cases.desk Scenario.plenty) true Cases.cast_error Cases.call 404
              {| ErrorHandler.body_success := false;
                 ErrorHandler.body_message := "Resource not found";
                 ErrorHandler.body_stack := Some "CastError: at model.Query.exec" |}
              eq_refl) as (_ & H & _).
  exact H.
Defined.

(** X26.  A store error wins over everything else the handler recognises:
    when the code of the error is a string that starts with [PGRST], the
    answer is 500 "Database operation failed", whatever the name, the
    message and the status the error carries (a validation error must have
    its [errors] for the handler to get that far). *)
Theorem store_errors_are_answered_500 b development err req c :
  ErrorHandler.code err = Some (ErrorHandler.CodeString c) ->
  String.prefix "PGRST" c = true ->
  (ErrorHandler.name_is err "ValidationError" = true -> ErrorHandler.errors err <> None) ->
  snd (ErrorHandler.errorHandler b development err req)
  = Some (500,
          {| ErrorHandler.body_success := false;
             ErrorHandler.body_message := "Database operation failed";
             ErrorHandler.body_stack :=
               if development then ErrorHandler.stack err else None |}).
Proof.
  intros Hc Hp Hv. unfold ErrorHandler.errorHandler. cbv zeta. rewrite Hc.
  rewrite (prefix_truthy "PGRST" c eq_refl Hp), Hp.
  destruct (ErrorHandler.name_is err "ValidationError"); [|reflexivity].
  destruct (ErrorHandler.errors err); [reflexivity|].
  now destruct Hv.
Qed.

Lemma store_errors_are_answered_500_witness :
  option_map fst
    (snd (ErrorHandler.errorHandler (Cases.desk Scenario.plenty) false
            Cases.no_rows Cases.call))
  = Some 500.
Proof.
  rewrite (store_errors_are_answered_500 (Cases.desk Scenario.plenty) false
             Cases.no_rows Cases.call "PGRST116" eq_refl eq_refl).
  - reflexivity.
  - discriminate.
Defined.

(** X27.  [auto-select-lots] offers no lot twice: with unique lot
    identifiers in the inventory, the identifiers of the available lots of
    the answer are distinct, and so are those of the selected lots. *)
Theorem auto_select_offers_each_lot_once st sales_config_id q d :
  NoDup (map Inventory.id (inventory_table st)) ->
  data (auto_select_lots st sales_config_id q) = Some d ->
  NoDup (map Inventory.id (AutoSelect.available_lots d))
  /\ NoDup (map Inventory.id (AutoSelect.auto_selected d))
  /\ NoDup (SalesProcessing.initialSelection d).
Proof.
  intros Hu Hd.
  destruct (auto_select_lots_NoDup st sales_config_id q d Hu Hd) as (H1 & H2).
  auto.
Qed.

Lemma auto_select_offers_each_lot_once_witness :
  exists d,
    data (auto_select_lots Scenario.contended "order-1" 50) = Some d
    /\ NoDup (SalesProcessing.initialSelection d).
Proof.
  destruct (data (auto_select_lots Scenario.contended "order-1" 50)) as [d|] eqn:Hd;
    [|vm_compute in Hd; discriminate Hd].
  exists d. split; [reflexivity|].
  destruct (auto_select_offers_each_lot_once Scenario.contended "order-1" 50 d)
    as (_ & _ & H).
  - vm_compute. repeat constructor; cbn; intuition discriminate.
  - exact Hd.
  - exact H.
Defined.

(** X28.  A click on the selection page flips one lot and nothing else: the
    clicked lot is selected afterwards exactly when it was not before, every
    other lot keeps its place in or out of the selection, a selection
    without repeats stays without repeats, and two clicks on a lot that was
    not selected give back the selection as it was. *)
Theorem toggle_flips_one_lot prev lotId :
  SalesProcessing.includes (SalesProcessing.toggleLotSelection prev lotId) lotId
  = negb (SalesProcessing.includes prev lotId)
  /\ (forall x, x <> lotId ->
        SalesProcessing.includes (SalesProcessing.toggleLotSelection prev lotId) x
        = SalesProcessing.includes prev x)
  /\ (NoDup prev -> NoDup (SalesProcessing.toggleLotSelection prev lotId))
  /\ (SalesProcessing.includes prev lotId = false ->
      SalesProcessing.toggleLotSelection
        (SalesProcessing.toggleLotSelection prev lotId) lotId = prev).
Proof.
  assert (Hb : forall l x y, (In x l <-> In y prev) ->
                 SalesProcessing.includes l x = SalesProcessing.includes prev y).
  { intros l x y H.
    destruct (SalesProcessing.includes l x) eqn:E1,
             (SalesProcessing.includes prev y) eqn:E2; try reflexivity.
    - apply includes_In, H, includes_In in E1. congruence.
    - apply includes_In, H, includes_In in E2. congruence. }
  split; [|split; [|split]].
  - destruct (SalesProcessing.includes prev lotId) eqn:E; cbn [negb].
    + apply not_true_is_false. intros H.
      apply includes_In, toggleLotSelection_In in H. apply includes_In in E. tauto.
    + apply includes_In, toggleLotSelection_In. left. split; [reflexivity|].
      intros H. apply includes_In in H. congruence.
  - intros x Hx. apply Hb. rewrite toggleLotSelection_In. tauto.
  - apply toggleLotSelection_NoDup.
  - intros E. unfold SalesProcessing.toggleLotSelection at 2. rewrite E.
    unfold SalesProcessing.toggleLotSelection.
    replace (SalesProcessing.includes (prev ++ [lotId]) lotId) with true
      by (symmetry; apply includes_In, in_or_app; right; now left).
    rewrite filter_app. cbn [filter]. rewrite String.eqb_refl. cbn [negb].
    rewrite app_nil_r. apply filter_all. intros x Hx.
    apply negb_true_iff, String.eqb_neq. intros ->.
    apply includes_In in Hx. congruence.
Qed.

(** X29.  What the selection page lets through is saved in full.  With
    unique lot identifiers, when the page starts from the answer of
    [auto-select-lots], the user clicks on offered lots only, and the page's
    own check lets the selection pass, a [save-draft] of that selection on
    the same store succeeds, the draft counts one bale for each selected
    identifier, at least the requested quantity, and every lot it blocks was
    AVAILABLE and met the order. *)
Theorem page_selection_is_saved_in_full
    st sales_config_id salesConfig broker d clicks now user new_id notes :
  NoDup (map Inventory.id (inventory_table st)) ->
  sales_configuration_by_id st sales_config_id = Some salesConfig ->
  broker_of st (SalesConfig.broker_id salesConfig) = Some broker ->
  data (auto_select_lots st sales_config_id (SalesConfig.requested_quantity salesConfig))
  = Some d ->
  (forall c, In c clicks -> In c (map Inventory.id (AutoSelect.available_lots d))) ->
  let selection :=
    fold_left SalesProcessing.toggleLotSelection clicks
      (SalesProcessing.initialSelection d) in
  SalesProcessing.validateAndProceed selection (SalesConfig.requested_quantity salesConfig)
  = SalesProcessing.confirm_mode ->
  let out := save_draft st now user new_id sales_config_id selection notes in
  success (snd out) = true
  /\ (exists draft,
        sales_table (fst out) = sales_table st ++ [draft]
        /\ SalesData.total_bales (Sales.data draft) = List.length selection
        /\ (SalesConfig.requested_quantity salesConfig
            <= Z.of_nat (SalesData.total_bales (Sales.data draft)))%Z)
  /\ (forall l, In l (inventory_table st) -> In (Inventory.id l) selection ->
                Inventory.status l = AVAILABLE /\ meets salesConfig l).
Proof.
  intros Hu Hcfg Hb Hd Hclicks. cbv zeta. intros Hv.
  destruct (auto_select_lots_NoDup _ _ _ _ Hu Hd) as (_ & Hsel).
  destruct (auto_select_lots_data _ _ _ _ Hd) as (salesConfig' & Hcfg' & Hin1 & Hin2 & _).
  assert (salesConfig' = salesConfig) by congruence. subst salesConfig'.
  destruct (clicks_selection clicks (SalesProcessing.initialSelection d) Hsel)
    as (Hn & Hfrom).
  set (selection := fold_left SalesProcessing.toggleLotSelection clicks
                      (SalesProcessing.initialSelection d)) in *.
  assert (Hoff : forall x, In x selection ->
                   exists l, In l (matchingLots st salesConfig) /\ Inventory.id l = x).
  { intros x Hx. apply Hfrom in Hx as [Hx|Hx].
    - apply in_map_iff in Hx as (l & <- & Hl). exists l. auto.
    - apply Hclicks, in_map_iff in Hx as (l & <- & Hl). exists l. auto. }
  assert (Hlen : List.length (filter (fun l => mem (Inventory.id l) selection)
                                (inventory_table st)) = List.length selection).
  { apply picked_all_length; [assumption|assumption|].
    intros x Hx. destruct (Hoff x Hx) as (l & Hl & <-).
    apply in_map. now apply matchingLots_In in Hl. }
  destruct (save_draft_found st now user new_id sales_config_id selection
              notes salesConfig broker Hcfg Hb) as (_ & Hok & _ & Hsales & _).
  split; [exact Hok|]. split.
  - eexists. split; [exact Hsales|].
    cbn [draft_of Sales.data SalesData.total_bales]. split; [exact Hlen|].
    rewrite Hlen. unfold SalesProcessing.validateAndProceed in Hv.
    destruct (Z.of_nat (List.length selection) <? _)%Z eqn:E; [discriminate|].
    now apply Z.ltb_ge in E.
  - intros l Hl Hid. destruct (Hoff _ Hid) as (l' & Hl' & E).
    apply matchingLots_In in Hl' as (Hin' & Hst & Hm).
    assert (l' = l) by exact (NoDup_map_inj Inventory.id _ l' l Hu Hin' Hl E).
    subst l'. auto.
Qed.

Lemma page_selection_is_saved_in_full_witness :
  success (snd (save_draft
                  (Scenario.store_of
                     [Scenario.lot 1 AVAILABLE; Scenario.lot 2 AVAILABLE;
                      Scenario.lot 3 AVAILABLE] 2 [] [])
                  Scenario.noon Scenario.trader "sale-1" "order-1"
                  ["lot-001"; "lot-002"] None)) = true.
Proof.
  destruct (data (auto_select_lots
                    (Scenario.store_of
                       [Scenario.lot 1 AVAILABLE; Scenario.lot 2 AVAILABLE;
                        Scenario.lot 3 AVAILABLE] 2 [] [])
                    "order-1" 2)) as [d|] eqn:Hd;
    [|vm_compute in Hd; discriminate Hd].
  assert (Ed : d = {| AutoSelect.sales_config := AutoSelect.sales_config d;
                      AutoSelect.available_lots :=
                        [Scenario.lot 1 AVAILABLE; Scenario.lot 2 AVAILABLE];
                      AutoSelect.auto_selected :=
                        [Scenario.lot 1 AVAILABLE; Scenario.lot 2 AVAILABLE];
                      AutoSelect.selection_limits := AutoSelect.selection_limits d;
                      AutoSelect.total_value := AutoSelect.total_value d;
                      AutoSelect.out_of_stock := AutoSelect.out_of_stock d |}).
  { vm_compute in Hd. injection Hd as <-. reflexivity. }
  destruct (page_selection_is_saved_in_full
              (Scenario.store_of
                 [Scenario.lot 1 AVAILABLE; Scenario.lot 2 AVAILABLE;
                  Scenario.lot 3 AVAILABLE] 2 [] [])
              "order-1" (Scenario.order 2) Scenario.broker d
              ["lot-002"; "lot-002"]
              Scenario.noon Scenario.trader "sale-1" None) as (H & _).
  - vm_compute. repeat constructor; cbn; intuition discriminate.
  - reflexivity.
  - reflexivity.
  - exact Hd.
  - rewrite Ed. intros c [<-|[<-|[]]]; right; left; reflexivity.
  - rewrite Ed. reflexivity.
  - rewrite Ed in H. exact H.
Defined.

(** X30.  The dashboard never raises the Low Inventory alert: the route
    reads [.data] of the count it has already unwrapped, so whatever the
    inventory holds, even no AVAILABLE lot at all, the alerts of the answer
    are only the three others, each present exactly when its rows exist,
    and [total_alerts] is their number, at most three. *)
Theorem alerts_never_report_low_inventory
    st payments manual_applications purchase_contract_table threeDaysAgo now :
  exists d,
    data (Dashboard.get_alerts st payments manual_applications
            purchase_contract_table threeDaysAgo now) = Some d
    /\ (forall a, In a (Dashboard.alerts d) -> Dashboard.title a <> "Low Inventory")
    /\ Dashboard.total_alerts d = List.length (Dashboard.alerts d)
    /\ Dashboard.total_alerts d <= 3
    /\ (In "Overdue Payments" (map Dashboard.title (Dashboard.alerts d))
        <-> exists p, In p payments
                      /\ Dashboard.utr_number p = None
                      /\ String.ltb (Dashboard.due_date p)
                           (JS.currentDateOf threeDaysAgo) = true)
    /\ (In "Manual Review Required" (map Dashboard.title (Dashboard.alerts d))
        <-> exists a, In a manual_applications
                      /\ Dashboard.application_status a = "pending")
    /\ (In "Contracts Pending Approval" (map Dashboard.title (Dashboard.alerts d))
        <-> exists c, In c purchase_contract_table
                      /\ Dashboard.contract_status c = "pending").
Proof.
  eexists. split; [reflexivity|].
  cbn [Dashboard.alerts Dashboard.total_alerts Dashboard.data_of Dashboard.less_than].
  assert (Hne : forall {A} (p : A -> bool) rows,
             Nat.ltb 0 (List.length (filter p rows)) = true
             <-> exists r, In r rows /\ p r = true).
  { intros A p rows. rewrite Nat.ltb_lt. split.
    - destruct (filter p rows) as [|r t] eqn:E; cbn [List.length]; [lia|].
      intros _. exists r. apply filter_In. rewrite E. now left.
    - intros (r & Hr). apply filter_In in Hr.
      destruct (filter p rows); [contradiction|cbn [List.length]; lia]. }
  pose proof (Hne _ (fun p => match Dashboard.utr_number p with
                              | None => true | Some _ => false end
                              && String.ltb (Dashboard.due_date p)
                                   (JS.currentDateOf threeDaysAgo)) payments) as H1.
  pose proof (Hne _ (fun a => String.eqb (Dashboard.application_status a) "pending")
                manual_applications) as H2.
  pose proof (Hne _ (fun c => String.eqb (Dashboard.contract_status c) "pending")
                purchase_contract_table) as H3.
  clear Hne.
  assert (E1 : forall p, (match Dashboard.utr_number p with
                          | None => true | Some _ => false end
                          && String.ltb (Dashboard.due_date p)
                               (JS.currentDateOf threeDaysAgo) = true)
                         <-> Dashboard.utr_number p = None
                             /\ String.ltb (Dashboard.due_date p)
                                  (JS.currentDateOf threeDaysAgo) = true).
  { intros p. rewrite andb_true_iff. destruct (Dashboard.utr_number p);
      split; intros [H H']; split; congruence. }
  destruct (Nat.ltb 0 (List.length (filter _ payments))) eqn:B1;
    destruct (Nat.ltb 0 (List.length (filter _ manual_applications))) eqn:B2;
    destruct (Nat.ltb 0 (List.length (filter _ purchase_contract_table))) eqn:B3;
    cbn [app map In List.length Dashboard.title].
  all: split; [intros a Ha; repeat (destruct Ha as [<-|Ha]; [discriminate|]);
               contradiction|].
  all: split; [reflexivity|]. all: split; [lia|].
  all: split; [|split].
  all: try (split; [intros _|intros _; tauto]).
  all: try (split; [intros H; repeat (destruct H as [H|H]; [discriminate H|]);
                    contradiction|]).
  all: try (destruct (proj1 H1 eq_refl) as (p & Hp & Hq); exists p;
            split; [assumption|now apply E1]).
  all: try (destruct (proj1 H2 eq_refl) as (a & Ha & Hq); exists a;
            split; [assumption|now apply String.eqb_eq]).
  all: try (destruct (proj1 H3 eq_refl) as (c & Hc & Hq); exists c;
            split; [assumption|now apply String.eqb_eq]).
  all: try (intros (p & Hp & Hq); enough (false = true) by discriminate;
            apply H1; exists p; split; [assumption|now apply E1]).
  all: try (intros (a & Ha & Hq); enough (false = true) by discriminate;
            apply H2; exists a; split; [assumption|now apply String.eqb_eq]).
  all: try (intros (c & Hc & Hq); enough (false = true) by discriminate;
            apply H3; exists c; split; [assumption|now apply String.eqb_eq]).
Qed.
